(** * Shooting-range core: a shallow embedding of the two program versions

    The repository holds two versions of the same single-file application:
    [src/index.tsx] (module [Index]) and [src/unnamed/part_000] (module
    [Part0]).  Both are embedded function by function.

    Conventions of the embedding.
    - A JavaScript [number] used as a coordinate, speed, phase, particle
      life or shake amplitude is a real number ([R]); rounding of IEEE
      doubles is not modelled.  Health values and millisecond timestamps
      only ever hold integers and are [Z]; array indices and counters are
      [nat].
    - React state and refs are fields of one [State] record, threaded
      explicitly.  Values that the source reads from a closure (the
      objective index and the health seen by one call) are read from the
      state the call started with.
    - [Math.random()], [Date.now()] and the window size are inputs ([Env]).
      The state counts the random draws made so far, so successive calls
      read successive draws.
    - [setTimeout] callbacks are kept in a queue inside the state;
      [speakSpotter] appends its text to a log. *)

From Stdlib Require Import Reals Lra Lia List String Ascii ZArith Bool Arith.
Import ListNotations.
Open Scope string_scope.
Open Scope list_scope.
Open Scope R_scope.

(** ** Numbers *)

(** The strict comparison [a < b] of two numbers, as a boolean. *)
Definition Rltb (a b : R) : bool := if Rlt_dec a b then true else false.

(** [Math.hypot(a, b)]. *)
Definition hypot (a b : R) : R := sqrt (a * a + b * b).

(** [arr.slice(-n)]: the last [n] elements. *)
Definition lastn {A : Type} (n : nat) (l : list A) : list A :=
  skipn (List.length l - n) l.

(** ** Types shared by both versions *)

Inductive EntityType : Set :=
  HVT | Civilian | Bodyguard | Barrel | Crate | Intel | Glass.

Inductive Behavior : Set := static | pacing | erratic | flanking.

Record Entity : Type := mkEntity {
  ent_id : string;
  ent_x : R;
  ent_y : R;
  ent_z : R;
  ent_speed : R;
  ent_type : EntityType;
  ent_description : string;
  ent_isDead : bool;
  ent_behavior : Behavior;
  ent_offset : R;
  ent_health : Z;
  ent_isHostile : bool;
  ent_lastFireTime : Z
}.

Record Particle : Type := mkParticle {
  p_x : R;
  p_y : R;
  p_vx : R;
  p_vy : R;
  p_life : R;
  p_color : string;
  p_size : R
}.

Inductive ObjectiveType : Set := recon | destroy | eliminate | retrieve.

Record Objective : Type := mkObjective {
  obj_id : string;
  obj_type : ObjectiveType;
  obj_description : string
}.

Record Mission : Type := mkMission {
  title : string;
  briefing : string;
  objectives : list Objective;
  environment : string;
  windSpeed : R;
  windDir : R
}.

Inductive GameState : Set := briefingState | playing | success | failure.

(** What the mission provider answers: the request is rejected, the text
    is not JSON ([JSON.parse] throws), or a mission is parsed.  A parsed
    mission may have an empty objective list.  The parsed value is a
    [Mission] as the source declares the type: every field is present and
    every objective has its description.  The source casts the parsed JSON
    without checking it; JSON of another shape (no objective list, an
    objective without description) is outside this embedding. *)
Inductive Reply : Type :=
| Rejected
| Unparsable
| Parsed (data : Mission).

(** The inputs of one call that do not come from the state. *)
Record Env : Type := mkEnv {
  now : Z;               (* Date.now() *)
  startTime : Z;         (* Date.now() when the running effect started *)
  innerWidth : R;        (* window.innerWidth, also canvas.width *)
  innerHeight : R;       (* window.innerHeight, also canvas.height *)
  random : nat -> R      (* the n-th value returned by Math.random() *)
}.

(** [(Date.now() - startTime) / 1000]. *)
Definition elapsed (env : Env) : R := IZR (now env - startTime env) / 1000.

Definition isBarrel (t : EntityType) : bool :=
  match t with Barrel => true | _ => false end.
Definition isIntel (t : EntityType) : bool :=
  match t with Intel => true | _ => false end.
Definition isHVT (t : EntityType) : bool :=
  match t with HVT => true | _ => false end.
Definition isPlaying (g : GameState) : bool :=
  match g with playing => true | _ => false end.

Definition typeIs (k : ObjectiveType) (o : option Objective) : bool :=
  match o, k with
  | Some ob, recon => match obj_type ob with recon => true | _ => false end
  | Some ob, destroy => match obj_type ob with destroy => true | _ => false end
  | Some ob, eliminate => match obj_type ob with eliminate => true | _ => false end
  | Some ob, retrieve => match obj_type ob with retrieve => true | _ => false end
  | None, _ => false
  end.

(** The fixed mapping between entity categories and objective kinds: the
    condition of line 317 of part_000, and the three tests of lines 479-483
    of index.tsx taken together. *)
Definition satisfies (t : EntityType) (obj : option Objective) : bool :=
  (isBarrel t && typeIs destroy obj)
  || (isIntel t && typeIs retrieve obj)
  || (isHVT t && typeIs eliminate obj).

(** A point lies strictly inside the axis-aligned box of half extents
    [hw * scale] by [hh * scale] centred on the projection [(rx, ry, scale)]. *)
Definition insideBox (hw hh : R) (proj : R * R * R) (pt : R * R) : Prop :=
  let '(rx, ry, scale) := proj in
  Rabs (fst pt - rx) < hw * scale /\ Rabs (snd pt - ry) < hh * scale.

Definition isBriefing (g : GameState) : bool :=
  match g with briefingState => true | _ => false end.

Definition isSome {A : Type} (o : option A) : bool :=
  match o with Some _ => true | None => false end.

(** ** Audio helpers (the same in both files) *)

(** [decode(base64)], after [atob]: the binary string is given by its char
    codes; an element of a [Uint8Array] keeps the low eight bits of what is
    stored in it. *)
Definition decode (binaryString : list Z) : list Z :=
  map (fun c => (c mod 256)%Z) binaryString.

(** The signed 16-bit value of two bytes, low byte first. *)
Definition int16 (lo hi : Z) : Z :=
  let u := (lo + 256 * hi)%Z in
  if (u <? 32768)%Z then u else (u - 65536)%Z.

(** [new Int16Array(data.buffer)]; [None] stands for the RangeError raised
    when the byte length is odd. *)
Fixpoint int16Array (data : list Z) : option (list Z) :=
  match data with
  | [] => Some []
  | [_] => None
  | lo :: hi :: rest => option_map (cons (int16 lo hi)) (int16Array rest)
  end.

(** The inner loop of [decodeAudioData]: the samples of one channel. *)
Definition channelData (dataInt16 : list Z) (numChannels frameCount : nat)
    (channel : nat) : list R :=
  map (fun i => IZR (nth (i * numChannels + channel) dataInt16 0%Z) / 32768)
      (seq 0 frameCount).

(** [decodeAudioData(data, ctx, sampleRate, numChannels)], as the list of
    its channels.  [ctx.createBuffer] rejects a buffer without channels or
    without frames; a fractional frame count is truncated by the buffer. *)
Definition decodeAudioData (data : list Z) (numChannels : nat)
  : option (list (list R)) :=
  match int16Array data with
  | None => None
  | Some dataInt16 =>
      let frameCount := (List.length dataInt16 / numChannels)%nat in
      if (numChannels =? 0)%nat || (frameCount =? 0)%nat then None
      else Some (map (channelData dataInt16 numChannels frameCount)
                     (seq 0 numChannels))
  end.

(** Every value [Math.random()] returns lies in [0, 1). *)
Definition fairDraws (env : Env) : Prop :=
  forall n, 0 <= random env n < 1.

(** Field updates of an entity ([ent.f = v], [{ ...ent, f: v }]). *)
Definition with_x (v : R) (e : Entity) : Entity :=
  mkEntity (ent_id e) v (ent_y e) (ent_z e) (ent_speed e) (ent_type e)
    (ent_description e) (ent_isDead e) (ent_behavior e) (ent_offset e)
    (ent_health e) (ent_isHostile e) (ent_lastFireTime e).
Definition with_z (v : R) (e : Entity) : Entity :=
  mkEntity (ent_id e) (ent_x e) (ent_y e) v (ent_speed e) (ent_type e)
    (ent_description e) (ent_isDead e) (ent_behavior e) (ent_offset e)
    (ent_health e) (ent_isHostile e) (ent_lastFireTime e).
Definition with_isDead (v : bool) (e : Entity) : Entity :=
  mkEntity (ent_id e) (ent_x e) (ent_y e) (ent_z e) (ent_speed e) (ent_type e)
    (ent_description e) v (ent_behavior e) (ent_offset e)
    (ent_health e) (ent_isHostile e) (ent_lastFireTime e).
Definition with_health (v : Z) (e : Entity) : Entity :=
  mkEntity (ent_id e) (ent_x e) (ent_y e) (ent_z e) (ent_speed e) (ent_type e)
    (ent_description e) (ent_isDead e) (ent_behavior e) (ent_offset e)
    v (ent_isHostile e) (ent_lastFireTime e).
Definition with_lastFireTime (v : Z) (e : Entity) : Entity :=
  mkEntity (ent_id e) (ent_x e) (ent_y e) (ent_z e) (ent_speed e) (ent_type e)
    (ent_description e) (ent_isDead e) (ent_behavior e) (ent_offset e)
    (ent_health e) (ent_isHostile e) v.

(** The [count] particles pushed by one [createParticles] call; particle
    [i] takes the draws [d + 2i] and [d + 2i + 1]. *)
Definition burst (rnd : nat -> R) (d : nat) (x y : R) (color : string)
    (count : nat) (size : R) : list Particle :=
  map (fun i => mkParticle x y
                  ((rnd (d + 2 * i)%nat - 0.5) * 10)
                  ((rnd (d + 2 * i + 1)%nat - 0.5) * 10)
                  1 color size)
      (seq 0 count).

(** ** src/index.tsx *)

Module Index.

Definition MAX_PLAYER_HEALTH : Z := 100.

Record State : Type := mkState {
  mission : option Mission;
  entities : list Entity;
  particles : list Particle;
  isLoading : bool;
  gameState : GameState;
  playerHealth : Z;
  shotsFired : nat;
  currentObjIndex : nat;
  mousePos : R * R;
  swayOffset : R * R;
  screenShake : R;
  timers : list Entity;    (* pending setTimeout callbacks: the struck barrel of each *)
  spoken : list string;    (* texts passed to speakSpotter, oldest first *)
  draws : nat;    (* Math.random() calls made so far *)
  halted : bool    (* an exception escaped render: no further frame is scheduled *)
}.

Definition set_mission v s := mkState v (entities s) (particles s)
  (isLoading s) (gameState s) (playerHealth s) (shotsFired s)
  (currentObjIndex s) (mousePos s) (swayOffset s) (screenShake s) (timers s)
  (spoken s) (draws s) (halted s).
Definition set_entities v s := mkState (mission s) v (particles s)
  (isLoading s) (gameState s) (playerHealth s) (shotsFired s)
  (currentObjIndex s) (mousePos s) (swayOffset s) (screenShake s) (timers s)
  (spoken s) (draws s) (halted s).
Definition set_particles v s := mkState (mission s) (entities s) v
  (isLoading s) (gameState s) (playerHealth s) (shotsFired s)
  (currentObjIndex s) (mousePos s) (swayOffset s) (screenShake s) (timers s)
  (spoken s) (draws s) (halted s).
Definition set_isLoading v s := mkState (mission s) (entities s) (particles s)
  v (gameState s) (playerHealth s) (shotsFired s) (currentObjIndex s)
  (mousePos s) (swayOffset s) (screenShake s) (timers s) (spoken s) (draws s)
  (halted s).
Definition set_gameState v s := mkState (mission s) (entities s) (particles s)
  (isLoading s) v (playerHealth s) (shotsFired s) (currentObjIndex s)
  (mousePos s) (swayOffset s) (screenShake s) (timers s) (spoken s) (draws s)
  (halted s).
Definition set_playerHealth v s := mkState (mission s) (entities s)
  (particles s) (isLoading s) (gameState s) v (shotsFired s)
  (currentObjIndex s) (mousePos s) (swayOffset s) (screenShake s) (timers s)
  (spoken s) (draws s) (halted s).
Definition set_shotsFired v s := mkState (mission s) (entities s)
  (particles s) (isLoading s) (gameState s) (playerHealth s) v
  (currentObjIndex s) (mousePos s) (swayOffset s) (screenShake s) (timers s)
  (spoken s) (draws s) (halted s).
Definition set_currentObjIndex v s := mkState (mission s) (entities s)
  (particles s) (isLoading s) (gameState s) (playerHealth s) (shotsFired s) v
  (mousePos s) (swayOffset s) (screenShake s) (timers s) (spoken s) (draws s)
  (halted s).
Definition set_mousePos v s := mkState (mission s) (entities s) (particles s)
  (isLoading s) (gameState s) (playerHealth s) (shotsFired s)
  (currentObjIndex s) v (swayOffset s) (screenShake s) (timers s) (spoken s)
  (draws s) (halted s).
Definition set_swayOffset v s := mkState (mission s) (entities s)
  (particles s) (isLoading s) (gameState s) (playerHealth s) (shotsFired s)
  (currentObjIndex s) (mousePos s) v (screenShake s) (timers s) (spoken s)
  (draws s) (halted s).
Definition set_screenShake v s := mkState (mission s) (entities s)
  (particles s) (isLoading s) (gameState s) (playerHealth s) (shotsFired s)
  (currentObjIndex s) (mousePos s) (swayOffset s) v (timers s) (spoken s)
  (draws s) (halted s).
Definition set_timers v s := mkState (mission s) (entities s) (particles s)
  (isLoading s) (gameState s) (playerHealth s) (shotsFired s)
  (currentObjIndex s) (mousePos s) (swayOffset s) (screenShake s) v (spoken s)
  (draws s) (halted s).
Definition set_spoken v s := mkState (mission s) (entities s) (particles s)
  (isLoading s) (gameState s) (playerHealth s) (shotsFired s)
  (currentObjIndex s) (mousePos s) (swayOffset s) (screenShake s) (timers s) v
  (draws s) (halted s).
Definition set_draws v s := mkState (mission s) (entities s) (particles s)
  (isLoading s) (gameState s) (playerHealth s) (shotsFired s)
  (currentObjIndex s) (mousePos s) (swayOffset s) (screenShake s) (timers s)
  (spoken s) v (halted s).
Definition set_halted v s := mkState (mission s) (entities s) (particles s)
  (isLoading s) (gameState s) (playerHealth s) (shotsFired s)
  (currentObjIndex s) (mousePos s) (swayOffset s) (screenShake s) (timers s)
  (spoken s) (draws s) v.

(** The component's initial state ([useState] and [useRef] initialisers). *)
Definition initial : State :=
  mkState None [] [] true briefingState MAX_PLAYER_HEALTH 0%nat 0%nat
    (0, 0) (0, 0) 0 [] [] 0%nat false.

(** [speakSpotter(text)]: the narration request is fire-and-forget. *)
Definition speakSpotter (text : string) (s : State) : State :=
  set_spoken (spoken s ++ [text]) s.

(** [createParticles(x, y, color, count, size)]. *)
Definition createParticles (env : Env) (x y : R) (color : string)
    (count : nat) (size : R) (s : State) : State :=
  let newParticles := burst (random env) (draws s) x y color count size in
  set_draws (draws s + 2 * count)%nat
    (set_particles (lastn 100 (particles s ++ newParticles)) s).

(** [spawnEntities(missionData)]. *)
Definition spawnEntities (env : Env) (s : State) : State :=
  let d := draws s in
  let r := random env in
  let w := innerWidth env in
  let h := innerHeight env in
  let hvt := mkEntity "hvt-1" (400 + r d * 800) (h / 2) 800 2 HVT
               "The High Value Target" false pacing (r (d + 1)%nat * 10)
               100 false 0 in
  let barrel (i : nat) :=
    mkEntity (match i with
              | 0 => "barrel-0" | 1 => "barrel-1" | 2 => "barrel-2"
              | 3 => "barrel-3" | _ => "barrel-4"
              end)%nat
      (r (d + 2 + 2 * i)%nat * w) (h / 2 + 50)
      (600 + r (d + 3 + 2 * i)%nat * 400) 0 Barrel
      "Explosive chemical drum" false static 0 1 false 0 in
  let guard := mkEntity "guard-1" 200 (h / 2) 700 1.5 Bodyguard
                 "Elite security personnel" false flanking 0 100 true 0 in
  let intel := mkEntity "intel-1" (w / 2 + 100) (h / 2 + 20) 650 0 Intel
                 "Encrypted data drive" false static 0 10 false 0 in
  set_draws (d + 12)%nat
    (set_entities ([hvt] ++ map barrel (seq 0 5) ++ [guard; intel]) s).

(** [generateMission()], with the provider's answer as an input.  The
    [catch] block logs and clears the loading flag. *)
Definition generateMission (env : Env) (reply : Reply) (s : State) : State :=
  let s1 := set_isLoading true s in
  match reply with
  | Parsed data =>
      let s2 := set_mission (Some data) s1 in
      let s3 := spawnEntities env s2 in
      let s4 := set_isLoading false s3 in
      match objectives data with
      | o :: _ =>
          speakSpotter ("Mission: " ++ title data ++ ". Objective one: "
                        ++ obj_description o ++ ".")%string s4
      | [] => set_isLoading false s4   (* objectives[0] is undefined: caught *)
      end
  | Rejected | Unparsable => set_isLoading false s1
  end.

(** The transform of the renderer ([ctx.translate(rx, ry)],
    [ctx.scale(scale, scale)]), lines 337-339. *)
Definition renderProjection (env : Env) (mouse : R * R) (ent : Entity)
  : R * R * R :=
  let scale := 600 / ent_z ent in
  let rx := ent_x ent
            - (fst mouse - innerWidth env / 2) * (1 - 400 / ent_z ent) in
  let ry := ent_y ent
            - (snd mouse - innerHeight env / 2) * (1 - 400 / ent_z ent) in
  (rx, ry, scale).

(** The projection of the hit test, lines 453-455. *)
Definition shootProjection (env : Env) (mouse : R * R) (ent : Entity)
  : R * R * R :=
  let scale := 600 / ent_z ent in
  let rx := ent_x ent
            - (fst mouse - innerWidth env / 2) * (1 - 400 / ent_z ent) in
  let ry := ent_y ent
            - (snd mouse - innerHeight env / 2) * (1 - 400 / ent_z ent) in
  (rx, ry, scale).

(** "AI Behaviors", lines 316-322. *)
Definition behave (time : R) (ent : Entity) : Entity :=
  match ent_behavior ent with
  | pacing => with_x (ent_x ent + sin (time + ent_offset ent) * ent_speed ent) ent
  | flanking =>
      let e1 := with_z (ent_z ent - 0.5) ent in
      let e2 := with_x (ent_x e1 + cos (time * 0.5) * 2) e1 in
      if Rltb (ent_z e2) 400 then with_z 1000 e2 else e2
  | static | erratic => ent
  end.

(** "Return Fire Logic", lines 325-334. *)
Definition returnFire (env : Env) (ent : Entity) (s : State) : Entity * State :=
  if ent_isHostile ent && (2000 <? now env - ent_lastFireTime ent)%Z then
    let ent' := with_lastFireTime (now env) ent in
    let s1 := set_screenShake 15 s in
    let s2 := set_playerHealth (Z.max 0 (playerHealth s1 - 10)) s1 in
    let s3 := createParticles env (innerWidth env / 2) (innerHeight env / 2)
                "#ff0000" 5 4 s2 in
    let rx := ent_x ent' - (fst (mousePos s3) - innerWidth env / 2)
                           * (1 - 400 / ent_z ent') in
    let ry := ent_y ent' - (snd (mousePos s3) - innerHeight env / 2)
                           * (1 - 400 / ent_z ent') in
    (ent', createParticles env rx ry "#ffff00" 10 2 s3)
  else (ent, s).

(** The body of [entities.forEach] in [render], without the drawing. *)
Definition updateEntity (env : Env) (ent : Entity) (s : State) : Entity * State :=
  if ent_isDead ent && negb (isBarrel (ent_type ent)) then (ent, s)
  else if negb (ent_isDead ent) then returnFire env (behave (elapsed env) ent) s
  else (ent, s).

Fixpoint forEachEntity (env : Env) (es : list Entity) (s : State)
  : list Entity * State :=
  match es with
  | [] => ([], s)
  | ent :: rest =>
      let (ent', s1) := updateEntity env ent s in
      let (rest', s2) := forEachEntity env rest s1 in
      (ent' :: rest', s2)
  end.

(** The updater passed to [setParticles] in [render], lines 371-376. *)
Definition advanceParticles (prev : list Particle) : list Particle :=
  map (fun p => mkParticle (p_x p + p_vx p) (p_y p + p_vy p) (p_vx p) (p_vy p)
                  (p_life p - 0.02) (p_color p) (p_size p))
      (filter (fun p => Rltb 0 (p_life p)) prev).

(** One call of [render] either runs to its end or throws while drawing
    the HUD.  The effects made before the throw stay, and the throw leaves
    [render] before [requestAnimationFrame] is reached. *)
Inductive Outcome : Type :=
| Completed (s : State)
| Threw (s : State).

Definition outcomeState (o : Outcome) : State :=
  match o with
  | Completed s => s
  | Threw s => set_halted true s
  end.

(** [render()], for the mission [m] of the running effect.  The health
    tested at the end is the value the effect closed over. *)
Definition render (env : Env) (m : Mission) (s : State) : Outcome :=
  let time := elapsed env in
  let s1 := set_screenShake (screenShake s * 0.9) s in
  let heartbeat := 0.5 + sin (time * 2.5) * 0.2 in
  let sx := sin (time * 0.7) * 12 * heartbeat
            + (random env (draws s1) - 0.5) * screenShake s1 in
  let sy := cos (time * 1.1) * 8 * heartbeat
            + (random env (draws s1 + 1)%nat - 0.5) * screenShake s1 in
  let s2 := set_draws (draws s1 + 2)%nat (set_swayOffset (sx, sy) s1) in
  let (es, s3) := forEachEntity env (entities s2) s2 in
  let s4 := set_entities es s3 in
  let s5 := set_particles (advanceParticles (particles s4)) s4 in
  match nth_error (objectives m) (currentObjIndex s) with
  | None => Threw s5    (* objectives[currentObjIndex] is undefined *)
  | Some _ =>
      if (playerHealth s <=? 0)%Z then
        Completed (speakSpotter "Agent neutralized. Mission failed."
                     (set_gameState failure s5))
      else Completed s5
  end.

(** The bar of the HUD line drawn by [render], line 421;
    [Math.ceil(playerHealth / 10)] of an integer health is
    [(playerHealth + 9) / 10].  [None] stands for the RangeError of
    [repeat] with a negative count. *)
Definition repeatChar (c : Ascii.ascii) (count : Z) : option string :=
  if (count <? 0)%Z then None
  else Some (string_of_list_ascii (repeat c (Z.to_nat count))).

Definition healthBar (playerHealth : Z) : option string :=
  let filled := ((playerHealth + 9) / 10)%Z in
  match repeatChar "#"%char filled, repeatChar "."%char (10 - filled) with
  | Some hashes, Some dots => Some ("[" ++ hashes ++ dots ++ "]")%string
  | _, _ => None
  end.

(** One frame: the effect runs [render] only while playing with a mission. *)
Definition frame (env : Env) (s : State) : Outcome :=
  match gameState s, mission s with
  | playing, Some m => render env m s
  | _, _ => Completed s
  end.

(** [advanceObjective()]; [s0] is the state the click handler closed over. *)
Definition advanceObjective (s0 : State) (s : State) : State :=
  match mission s0 with
  | None => s
  | Some m =>
      let nextIndex := (currentObjIndex s0 + 1)%nat in
      if (List.length (objectives m) <=? nextIndex)%nat then
        speakSpotter "All objectives clear. Area sanitized. Good work."
          (set_gameState success s)
      else
        speakSpotter
          ("Objective complete. Next task: "
           ++ match nth_error (objectives m) nextIndex with
              | Some o => obj_description o
              | None => EmptyString
              end)%string
          (set_currentObjIndex nextIndex s)
  end.

(** The click position, lines 442-445. *)
Definition impact (env : Env) (s : State) : R * R :=
  (innerWidth env / 2 + fst (swayOffset s),
   innerHeight env / 2 + snd (swayOffset s)).

(** [isHit], lines 457-460. *)
Definition isHit (env : Env) (s0 : State) (ent : Entity) : bool :=
  let '(rx, ry, scale) := shootProjection env (mousePos s0) ent in
  let dx := fst (impact env s0) - rx in
  let dy := snd (impact env s0) - ry in
  Rltb (Rabs dx) (25 * scale) && Rltb (Rabs dy) (50 * scale).

(** The chain reaction queued by a barrel hit, lines 472-476. *)
Definition chainReaction (ent : Entity) (currentEntities : list Entity)
  : list Entity :=
  map (fun other =>
         let d := hypot (ent_x ent - ent_x other) (ent_y ent - ent_y other) in
         if Rltb d 300 && negb (String.eqb (ent_id other) (ent_id ent))
         then with_isDead true other
         else other)
      currentEntities.

(** The callback of [entities.map] in [handleShoot]; the accumulator is
    [hitOccurred] and the state. *)
Definition shootEntity (env : Env) (s0 : State) (ent : Entity)
    (acc : bool * State) : Entity * (bool * State) :=
  let currentObj :=
    match mission s0 with
    | Some m => nth_error (objectives m) (currentObjIndex s0)
    | None => None
    end in
  if ent_isDead ent && negb (isBarrel (ent_type ent)) then (ent, acc)
  else if isHit env s0 ent && negb (ent_isDead ent) then
    let s := snd acc in
    let ix := fst (impact env s0) in
    let iy := snd (impact env s0) in
    let s1 := createParticles env ix iy
                (if isBarrel (ent_type ent) then "#ffaa00" else "#ff0000")
                15 2 s in
    let s2 :=
      if isBarrel (ent_type ent) then
        let a := set_screenShake 40 s1 in
        let b := createParticles env ix iy "#ff5500" 40 5 a in
        let c := set_timers (timers b ++ [ent]) b in
        if typeIs destroy currentObj then advanceObjective s0 c else c
      else s1 in
    let s3 := if isIntel (ent_type ent) && typeIs retrieve currentObj
              then advanceObjective s0 s2 else s2 in
    let s4 := if isHVT (ent_type ent) && typeIs eliminate currentObj
              then advanceObjective s0 s3 else s3 in
    (with_health 0 (with_isDead true ent), (true, s4))
  else (ent, acc).

Fixpoint mapShoot (env : Env) (s0 : State) (es : list Entity)
    (acc : bool * State) : list Entity * (bool * State) :=
  match es with
  | [] => ([], acc)
  | ent :: rest =>
      let (ent', acc1) := shootEntity env s0 ent acc in
      let (rest', acc2) := mapShoot env s0 rest acc1 in
      (ent' :: rest', acc2)
  end.

(** [handleShoot()]. *)
Definition handleShoot (env : Env) (s : State) : State :=
  if negb (isPlaying (gameState s)) then s
  else
    let s1 := set_screenShake 10 (set_shotsFired (S (shotsFired s)) s) in
    let '(nextEntities, (hitOccurred, s2)) :=
      mapShoot env s1 (entities s1) (false, s1) in
    let s3 := if hitOccurred then s2
              else createParticles env (fst (impact env s1)) (snd (impact env s1))
                     "#ffffff" 3 1 s2 in
    set_entities nextEntities s3.

(** The oldest pending [setTimeout] callback fires. *)
Definition fireTimer (s : State) : State :=
  match timers s with
  | [] => s
  | ent :: rest =>
      set_timers rest (set_entities (chainReaction ent (entities s)) s)
  end.

(** Vocabulary for the statements: the active objective, the number of
    objectives, the entities a click strikes and the strikes that satisfy
    the active objective. *)
Definition currentObj (s : State) : option Objective :=
  match mission s with
  | Some m => nth_error (objectives m) (currentObjIndex s)
  | None => None
  end.

Definition objectiveCount (s : State) : nat :=
  match mission s with
  | Some m => List.length (objectives m)
  | None => 0%nat
  end.

Definition struck (env : Env) (s : State) (ent : Entity) : bool :=
  isHit env s ent && negb (ent_isDead ent).

Definition satisfyingHit (env : Env) (s : State) (ent : Entity) : bool :=
  struck env s ent && satisfies (ent_type ent) (currentObj s).

(** What can happen to the component: the mission request settles, the
    briefing button is pressed, the pointer moves, a frame is rendered, the
    canvas is clicked, a pending timeout fires.  Nothing happens any more
    once an exception has escaped [render]. *)
Inductive Event : Type :=
| Loaded (env : Env) (reply : Reply)
| Commence
| MouseMove (x y : R)
| Frame (env : Env)
| Click (env : Env)
| Timeout.

Definition step (ev : Event) (s : State) : State :=
  if halted s then s
  else
    match ev with
    | Loaded env reply => if isLoading s then generateMission env reply s else s
    | Commence =>
        if isBriefing (gameState s) && isSome (mission s) && negb (isLoading s)
        then set_gameState playing s else s
    | MouseMove x y => set_mousePos (x, y) s
    | Frame env => outcomeState (frame env s)
    | Click env => handleShoot env s
    | Timeout => fireTimer s
    end.

Definition run (evs : list Event) (s : State) : State :=
  fold_left (fun acc ev => step ev acc) evs s.

Inductive Reachable : State -> Prop :=
| reach_initial : Reachable initial
| reach_step : forall ev s, Reachable s -> Reachable (step ev s).

End Index.

(** ** src/unnamed/part_000 *)

Module Part0.

Definition MAX_PLAYER_HEALTH : Z := 100.

Record State : Type := mkState {
  mission : option Mission;
  isLoading : bool;
  gameState : GameState;
  currentObjIndex : nat;
  healthUI : Z;
  entities : list Entity;      (* entitiesRef.current *)
  particles : list Particle;   (* particlesRef.current *)
  playerHealth : Z;            (* playerHealthRef.current *)
  mousePos : R * R;
  swayOffset : R * R;
  screenShake : R;
  spoken : list string;        (* texts passed to speakSpotter, oldest first *)
  draws : nat                  (* Math.random() calls made so far *)
}.

Definition set_mission v s := mkState v (isLoading s) (gameState s)
  (currentObjIndex s) (healthUI s) (entities s) (particles s) (playerHealth s)
  (mousePos s) (swayOffset s) (screenShake s) (spoken s) (draws s).
Definition set_isLoading v s := mkState (mission s) v (gameState s)
  (currentObjIndex s) (healthUI s) (entities s) (particles s) (playerHealth s)
  (mousePos s) (swayOffset s) (screenShake s) (spoken s) (draws s).
Definition set_gameState v s := mkState (mission s) (isLoading s) v
  (currentObjIndex s) (healthUI s) (entities s) (particles s) (playerHealth s)
  (mousePos s) (swayOffset s) (screenShake s) (spoken s) (draws s).
Definition set_currentObjIndex v s := mkState (mission s) (isLoading s)
  (gameState s) v (healthUI s) (entities s) (particles s) (playerHealth s)
  (mousePos s) (swayOffset s) (screenShake s) (spoken s) (draws s).
Definition set_healthUI v s := mkState (mission s) (isLoading s) (gameState s)
  (currentObjIndex s) v (entities s) (particles s) (playerHealth s)
  (mousePos s) (swayOffset s) (screenShake s) (spoken s) (draws s).
Definition set_entities v s := mkState (mission s) (isLoading s) (gameState s)
  (currentObjIndex s) (healthUI s) v (particles s) (playerHealth s)
  (mousePos s) (swayOffset s) (screenShake s) (spoken s) (draws s).
Definition set_particles v s := mkState (mission s) (isLoading s) (gameState s)
  (currentObjIndex s) (healthUI s) (entities s) v (playerHealth s)
  (mousePos s) (swayOffset s) (screenShake s) (spoken s) (draws s).
Definition set_playerHealth v s := mkState (mission s) (isLoading s)
  (gameState s) (currentObjIndex s) (healthUI s) (entities s) (particles s) v
  (mousePos s) (swayOffset s) (screenShake s) (spoken s) (draws s).
Definition set_mousePos v s := mkState (mission s) (isLoading s) (gameState s)
  (currentObjIndex s) (healthUI s) (entities s) (particles s) (playerHealth s)
  v (swayOffset s) (screenShake s) (spoken s) (draws s).
Definition set_swayOffset v s := mkState (mission s) (isLoading s) (gameState s)
  (currentObjIndex s) (healthUI s) (entities s) (particles s) (playerHealth s)
  (mousePos s) v (screenShake s) (spoken s) (draws s).
Definition set_screenShake v s := mkState (mission s) (isLoading s)
  (gameState s) (currentObjIndex s) (healthUI s) (entities s) (particles s)
  (playerHealth s) (mousePos s) (swayOffset s) v (spoken s) (draws s).
Definition set_spoken v s := mkState (mission s) (isLoading s) (gameState s)
  (currentObjIndex s) (healthUI s) (entities s) (particles s) (playerHealth s)
  (mousePos s) (swayOffset s) (screenShake s) v (draws s).
Definition set_draws v s := mkState (mission s) (isLoading s) (gameState s)
  (currentObjIndex s) (healthUI s) (entities s) (particles s) (playerHealth s)
  (mousePos s) (swayOffset s) (screenShake s) (spoken s) v.

(** The component's initial state; the pointer starts at the window centre. *)
Definition initial (env : Env) : State :=
  mkState None true briefingState 0%nat MAX_PLAYER_HEALTH [] []
    MAX_PLAYER_HEALTH (innerWidth env / 2, innerHeight env / 2) (0, 0) 0
    [] 0%nat.

Definition speakSpotter (text : string) (s : State) : State :=
  set_spoken (spoken s ++ [text]) s.

(** [createParticles(x, y, color, count, size)]: push, then drop the oldest
    entries above 200. *)
Definition createParticles (env : Env) (x y : R) (color : string)
    (count : nat) (size : R) (s : State) : State :=
  let pushed := particles s ++ burst (random env) (draws s) x y color count size in
  set_draws (draws s + 2 * count)%nat
    (set_particles
       (if (200 <? List.length pushed)%nat
        then skipn (List.length pushed - 200) pushed
        else pushed)
       s).

(** [spawnEntities()]. *)
Definition spawnEntities (env : Env) (s : State) : State :=
  let w := innerWidth env in
  let h := innerHeight env in
  let barrel (i : nat) :=
    mkEntity (match i with
              | 0 => "barrel-0" | 1 => "barrel-1" | _ => "barrel-2"
              end)%nat
      (300 + INR i * 400) (h / 2 + 50) 600 0 Barrel "Explosive" false static
      0 1 false 0 in
  set_entities
    ([ mkEntity "hvt-1" 800 (h / 2) 800 2 HVT "Primary Target" false pacing
         0 100 false 0;
       mkEntity "guard-1" 200 (h / 2) 700 1.5 Bodyguard "Security" false
         flanking 0 100 true 0;
       mkEntity "intel-1" (w / 2) (h / 2 + 20) 650 0 Intel "Data" false static
         0 10 false 0 ]
     ++ map barrel (seq 0 3))
    s.

(** The mission installed by the [catch] block of [generateMission]. *)
Definition fallback : Mission :=
  mkMission "SILENT ECHO"
    "API Connection lost. Proceeding with emergency tactical protocols. Clear the sector."
    [ mkObjective "fb-obj-1" eliminate "Eliminate the rooftop guard.";
      mkObjective "fb-obj-2" destroy "Destroy the fuel barrels." ]
    "urban" 5 90.

(** The [catch] block of [generateMission]. *)
Definition installFallback (env : Env) (s : State) : State :=
  spawnEntities env (set_mission (Some fallback) (set_isLoading false s)).

(** [generateMission()], with the provider's answer as an input.  Reading
    [data.objectives[0].description] throws when the list is empty, after
    the mission has been stored; the [catch] block then replaces it. *)
Definition generateMission (env : Env) (reply : Reply) (s : State) : State :=
  let s1 := set_isLoading true s in
  match reply with
  | Parsed data =>
      let s2 := set_mission (Some data) s1 in
      let s3 := spawnEntities env s2 in
      let s4 := set_isLoading false s3 in
      match objectives data with
      | o :: _ =>
          speakSpotter ("Mission: " ++ title data ++ ". Active objective: "
                        ++ obj_description o ++ ".")%string s4
      | [] => installFallback env s4
      end
  | Rejected | Unparsable => installFallback env s1
  end.

(** The transform of the renderer, lines 263-265. *)
Definition renderProjection (env : Env) (mouse : R * R) (ent : Entity)
  : R * R * R :=
  let scale := 600 / ent_z ent in
  let rx := ent_x ent
            - (fst mouse - innerWidth env / 2) * (1 - 400 / ent_z ent) in
  let ry := ent_y ent
            - (snd mouse - innerHeight env / 2) * (1 - 400 / ent_z ent) in
  (rx, ry, scale).

(** The projection of the hit test, lines 309-311. *)
Definition shootProjection (env : Env) (mouse : R * R) (ent : Entity)
  : R * R * R :=
  let rx := ent_x ent
            - (fst mouse - innerWidth env / 2) * (1 - 400 / ent_z ent) in
  let ry := ent_y ent
            - (snd mouse - innerHeight env / 2) * (1 - 400 / ent_z ent) in
  let scale := 600 / ent_z ent in
  (rx, ry, scale).

(** The two behaviour statements, lines 253-254. *)
Definition behave (time : R) (ent : Entity) : Entity :=
  let e1 := match ent_behavior ent with
            | pacing =>
                with_x (ent_x ent + sin (time + ent_offset ent) * ent_speed ent) ent
            | _ => ent
            end in
  match ent_behavior e1 with
  | flanking =>
      let e2 := with_z (ent_z e1 - 0.5) e1 in
      with_x (ent_x e2 + cos (time * 0.5) * 2) e2
  | _ => e1
  end.

(** Hostile fire, lines 255-261. *)
Definition returnFire (env : Env) (ent : Entity) (s : State) : Entity * State :=
  if ent_isHostile ent && (3000 <? now env - ent_lastFireTime ent)%Z then
    let ent' := with_lastFireTime (now env) ent in
    let s1 := set_screenShake 20 s in
    let s2 := set_playerHealth (playerHealth s1 - 10)%Z s1 in
    let s3 := set_healthUI (playerHealth s2) s2 in
    (ent', createParticles env (innerWidth env / 2) (innerHeight env / 2)
             "#ff0000" 5 4 s3)
  else (ent, s).

(** The body of [entitiesRef.current.forEach] in [render], without the
    drawing. *)
Definition updateEntity (env : Env) (ent : Entity) (s : State) : Entity * State :=
  if ent_isDead ent && negb (isBarrel (ent_type ent)) then (ent, s)
  else if negb (ent_isDead ent) then returnFire env (behave (elapsed env) ent) s
  else (ent, s).

Fixpoint forEachEntity (env : Env) (es : list Entity) (s : State)
  : list Entity * State :=
  match es with
  | [] => ([], s)
  | ent :: rest =>
      let (ent', s1) := updateEntity env ent s in
      let (rest', s2) := forEachEntity env rest s1 in
      (ent' :: rest', s2)
  end.

(** "Particle Simulation", lines 276-280: every particle is moved and aged
    in place, then the list is filtered. *)
Definition advanceParticles (ps : list Particle) : list Particle :=
  filter (fun p => Rltb 0 (p_life p))
    (map (fun p => mkParticle (p_x p + p_vx p) (p_y p + p_vy p) (p_vx p)
                     (p_vy p) (p_life p - 0.02) (p_color p) (p_size p))
         ps).

(** [render()]. *)
Definition render (env : Env) (s : State) : State :=
  let time := elapsed env in
  let s1 := set_screenShake (screenShake s * 0.9) s in
  let heartbeat := 0.5 + sin (time * 2.5) * 0.2 in
  let sx := sin (time * 0.7) * 12 * heartbeat
            + (random env (draws s1) - 0.5) * screenShake s1 in
  let sy := cos (time * 1.1) * 8 * heartbeat
            + (random env (draws s1 + 1)%nat - 0.5) * screenShake s1 in
  let s2 := set_draws (draws s1 + 2)%nat (set_swayOffset (sx, sy) s1) in
  let (es, s3) := forEachEntity env (entities s2) s2 in
  let s4 := set_entities es s3 in
  let s5 := set_particles (advanceParticles (particles s4)) s4 in
  if (playerHealth s5 <=? 0)%Z then set_gameState failure s5 else s5.

(** One frame: the effect runs [render] only while playing with a mission. *)
Definition frame (env : Env) (s : State) : State :=
  match gameState s, mission s with
  | playing, Some _ => render env s
  | _, _ => s
  end.

Definition impact (env : Env) (s : State) : R * R :=
  (innerWidth env / 2 + fst (swayOffset s),
   innerHeight env / 2 + snd (swayOffset s)).

(** The test of line 312. *)
Definition isHit (env : Env) (s0 : State) (ent : Entity) : bool :=
  let '(rx, ry, scale) := shootProjection env (mousePos s0) ent in
  Rltb (Rabs (fst (impact env s0) - rx)) (30 * scale)
  && Rltb (Rabs (snd (impact env s0) - ry)) (60 * scale).

(** The body of [entitiesRef.current.forEach] in [handleShoot]; [s0] is the
    state the handler closed over, the accumulator is [hit] and the state. *)
Definition shootEntity (env : Env) (s0 : State) (ent : Entity)
    (acc : bool * State) : Entity * (bool * State) :=
  if ent_isDead ent then (ent, acc)
  else if isHit env s0 ent then
    let s := snd acc in
    let s1 := createParticles env (fst (impact env s0)) (snd (impact env s0))
                "#f00" 15 2 s in
    let obj := match mission s0 with
               | Some m => nth_error (objectives m) (currentObjIndex s0)
               | None => None
               end in
    let count := match mission s0 with
                 | Some m => List.length (objectives m)
                 | None => 0%nat
                 end in
    let s2 :=
      if satisfies (ent_type ent) obj then
        if (count <=? currentObjIndex s0 + 1)%nat then
          speakSpotter "Mission accomplished." (set_gameState success s1)
        else
          speakSpotter
            ("Objective cleared. Moving to next: "
             ++ match mission s0 with
                | Some m =>
                    match nth_error (objectives m) (currentObjIndex s0 + 1) with
                    | Some o => obj_description o
                    | None => EmptyString
                    end
                | None => EmptyString
                end)%string
            (set_currentObjIndex (currentObjIndex s1 + 1)%nat s1)
      else s1 in
    (with_isDead true ent, (true, s2))
  else (ent, acc).

Fixpoint forEachShoot (env : Env) (s0 : State) (es : list Entity)
    (acc : bool * State) : list Entity * (bool * State) :=
  match es with
  | [] => ([], acc)
  | ent :: rest =>
      let (ent', acc1) := shootEntity env s0 ent acc in
      let (rest', acc2) := forEachShoot env s0 rest acc1 in
      (ent' :: rest', acc2)
  end.

(** [handleShoot()]. *)
Definition handleShoot (env : Env) (s : State) : State :=
  if negb (isPlaying (gameState s)) then s
  else
    let s1 := set_screenShake 15 s in
    let '(es, (hit, s2)) := forEachShoot env s1 (entities s1) (false, s1) in
    let s3 := set_entities es s2 in
    if hit then s3
    else createParticles env (fst (impact env s1)) (snd (impact env s1))
           "#fff" 3 1 s3.

(** Vocabulary for the statements, as in [Index]. *)
Definition currentObj (s : State) : option Objective :=
  match mission s with
  | Some m => nth_error (objectives m) (currentObjIndex s)
  | None => None
  end.

Definition objectiveCount (s : State) : nat :=
  match mission s with
  | Some m => List.length (objectives m)
  | None => 0%nat
  end.

Definition struck (env : Env) (s : State) (ent : Entity) : bool :=
  negb (ent_isDead ent) && isHit env s ent.

Definition satisfyingHit (env : Env) (s : State) (ent : Entity) : bool :=
  struck env s ent && satisfies (ent_type ent) (currentObj s).

Inductive Event : Type :=
| Loaded (env : Env) (reply : Reply)
| Commence
| MouseMove (x y : R)
| Frame (env : Env)
| Click (env : Env).

Definition step (ev : Event) (s : State) : State :=
  match ev with
  | Loaded env reply => if isLoading s then generateMission env reply s else s
  | Commence =>
      if isBriefing (gameState s) && isSome (mission s) && negb (isLoading s)
      then set_gameState playing s else s
  | MouseMove x y => set_mousePos (x, y) s
  | Frame env => frame env s
  | Click env => handleShoot env s
  end.

Definition run (evs : list Event) (s : State) : State :=
  fold_left (fun acc ev => step ev acc) evs s.

Inductive Reachable : State -> Prop :=
| reach_initial : forall env, Reachable (initial env)
| reach_step : forall ev s, Reachable s -> Reachable (step ev s).

End Part0.

(** ** Derived notions used in the statements *)

(** Two records describe the same entity with the same fixed data: id,
    category, behaviour, hostility, speed and phase agree, and so does the
    position when the behaviour is [static]. *)
Definition sameKind (e e' : Entity) : Prop :=
  ent_id e' = ent_id e
  /\ ent_type e' = ent_type e
  /\ ent_behavior e' = ent_behavior e
  /\ ent_isHostile e' = ent_isHostile e
  /\ (ent_behavior e = static ->
      ent_x e' = ent_x e /\ ent_y e' = ent_y e /\ ent_z e' = ent_z e).

(** The [k]-th barrel placed by [Part0.spawnEntities]. *)
Definition barrelAt (k : nat) (b : Entity) : Prop :=
  ent_type b = Barrel
  /\ ent_x b = 300 + INR k * 400
  /\ ent_z b = 600
  /\ ent_behavior b = static
  /\ ent_isHostile b = false.

(** The shape of the roster built by [Part0.spawnEntities]: one primary
    target, one guard, one intel item and three barrels in a row. *)
Definition roster (es : list Entity) : Prop :=
  exists h g i b0 b1 b2,
    es = [h; g; i; b0; b1; b2]
    /\ (ent_type h = HVT /\ ent_isHostile h = false)
    /\ ent_type g = Bodyguard
    /\ (ent_type i = Intel /\ ent_isHostile i = false
        /\ ent_behavior i = static)
    /\ barrelAt 0 b0 /\ barrelAt 1 b1 /\ barrelAt 2 b2.

(** A living hostile entity whose cooldown has run out fires in this frame. *)
Definition fires (cooldown : Z) (env : Env) (ent : Entity) : bool :=
  negb (ent_isDead ent) && ent_isHostile ent
  && (cooldown <? now env - ent_lastFireTime ent)%Z.

(** Ageing and moving one particle for one frame. *)
Definition aged (p : Particle) : Particle :=
  mkParticle (p_x p + p_vx p) (p_y p + p_vy p) (p_vx p) (p_vy p)
    (p_life p - 0.02) (p_color p) (p_size p).

(** What a particle list may hold: at most [cap] particles, each with a
    life above [lo] and at most 1. *)
Definition particlesWithin (cap : nat) (lo : R) (ps : list Particle) : Prop :=
  (List.length ps <= cap)%nat /\ Forall (fun p => lo < p_life p <= 1) ps.

(** [e'] is a later record of the entity [e]: the same fixed data, and dead
    when [e] was dead. *)
Definition laterRecord (e e' : Entity) : Prop :=
  sameKind e e' /\ (ent_isDead e = true -> ent_isDead e' = true).

(** The depths between which [index.tsx] keeps its entities. *)
Definition depthInRange (e : Entity) : Prop := 400 <= ent_z e <= 1000.

(** The mission request of the event, if it is one, drew fair random
    numbers. *)
Definition fairEvent (ev : Index.Event) : Prop :=
  match ev with
  | Index.Loaded env _ => fairDraws env
  | _ => True
  end.

(** The record of one entity after the frames with the given inputs, in
    rendering order. *)
Definition index_entityAfter (envs : list Env) (ent : Entity) : Entity :=
  fold_left (fun e env => fst (Index.updateEntity env e Index.initial)) envs ent.

Definition part0_entityAfter (envs : list Env) (ent : Entity) : Entity :=
  fold_left (fun e env => fst (Part0.updateEntity env e (Part0.initial env)))
    envs ent.

(** ** Scenarios *)

(** A millisecond timestamp of the year 2023. *)
Definition epoch : Z := 1700000000000.

(** A 600 by 600 window and a frame rendered in the millisecond in which
    its effect started; every random draw is 0. *)
Definition env0 : Env := mkEnv epoch epoch 600 600 (fun _ => 0).

(** The draws 1/2 for the target's position and 1/10 for its phase. *)
Definition paceDraws (n : nat) : R :=
  match n with 1%nat => 1 / 10 | _ => 1 / 2 end.

Definition envPace : Env := mkEnv epoch epoch 600 600 paceDraws.

(** The inputs of [n] frames of [index.tsx], 16 ms apart.  The effect of
    [index.tsx] lists [particles] among its dependencies and every frame
    sets a new particle list, so every frame belongs to a new effect whose
    [startTime] is the time of the frame. *)
Definition restartedFrames (n : nat) : list Env :=
  map (fun k => mkEnv (epoch + 16 * Z.of_nat k) (epoch + 16 * Z.of_nat k)
                  600 600 paceDraws)
      (seq 0 n).

(** The primary target [Index.spawnEntities] builds from these draws. *)
Definition pacer : Entity :=
  mkEntity "hvt-1" (400 + 1 / 2 * 800) (600 / 2) 800 2 HVT
    "The High Value Target" false pacing (1 / 10 * 10) 100 false 0.

(** A particle as [createParticles] makes it: life 1. *)
Definition spark : Particle := mkParticle 300 300 5 (-5) 1 "#ff0000" 2.

(** A mission whose only objective is to destroy a barrel. *)
Definition sabotage : Mission :=
  mkMission "NIGHT GLASS" "Destroy the fuel drum."
    [ mkObjective "obj-1" destroy "Destroy the explosive drum." ]
    "urban" 5 90.

(** Draws that spread the five barrels of [Index.spawnEntities] over the
    window. *)
Definition depotDraws (n : nat) : R :=
  match n with
  | 1%nat => 0 | 3%nat => 0
  | 4%nat => 1 / 10 | 5%nat => 1 / 4
  | 6%nat => 3 / 10
  | 8%nat => 7 / 10 | 9%nat => 3 / 4
  | 10%nat => 9 / 10
  | _ => 1 / 2
  end.

Definition envDepot : Env := mkEnv epoch epoch 600 600 depotDraws.

(** [index.tsx]: the mission arrives, the player starts and moves the
    pointer to the centre of the window. *)
Definition depotReady : Index.State :=
  Index.run [ Index.Loaded envDepot (Parsed sabotage); Index.Commence;
              Index.MouseMove 300 300 ]
    Index.initial.

(** The first frame is rendered. *)
Definition depotPlay : Index.State :=
  Index.step (Index.Frame envDepot) depotReady.

(** Then the player clicks. *)
Definition depotShot : Index.State :=
  Index.step (Index.Click envDepot) depotPlay.

(** [part_000]: the request fails and the player starts. *)
Definition rowReady : Part0.State :=
  Part0.run [ Part0.Loaded env0 Rejected; Part0.Commence ] (Part0.initial env0).

(** The first frame is rendered; then the player clicks. *)
Definition rowPlay : Part0.State := Part0.step (Part0.Frame env0) rowReady.

Definition rowShot : Part0.State := Part0.step (Part0.Click env0) rowPlay.

(** [part_000]: [n] frames, 10 ms apart, after the start. *)
Definition envAt (k : nat) : Env :=
  mkEnv (epoch + 10 * Z.of_nat k) epoch 600 600 (fun _ => 0).

Definition approach (n : nat) : Part0.State :=
  Part0.run (map (fun k => Part0.Frame (envAt k)) (seq 0 n)) rowReady.


(** Four bytes of 16-bit audio: the samples -32768 and 32767. *)
Definition pcmSample : list Z := [0; 128; 255; 127]%Z.

(** A mission that was parsed without any objective. *)
Definition blank : Mission :=
  mkMission "WHITE NOISE" "No objective was generated." [] "urban" 5 90.

(** [index.tsx]: the blank mission arrives, the player starts and the first
    frame is rendered. *)
Definition blankRun : Index.State :=
  Index.run [ Index.Loaded env0 (Parsed blank); Index.Commence;
              Index.Frame env0 ]
    Index.initial.

(** Scenes with a single target far to the right of the aim point, and a
    game of [part_000] that has been lost. *)
Definition loneTarget : Entity :=
  mkEntity "hvt-1" 800 300 800 2 HVT "Primary Target" false pacing 0 100
    false 0.

Definition indexLone : Index.State := Index.set_entities [loneTarget] depotReady.

Definition part0Lone : Part0.State := Part0.set_entities [loneTarget] rowReady.

Definition part0Over : Part0.State := Part0.set_gameState failure rowReady.

(** [index.tsx]: frames 2001 ms apart after the start of the depot scenario,
    each the first frame of a new effect; every random draw is 1/2. *)
Definition envSiege (k : nat) : Env :=
  mkEnv (epoch + 2001 * Z.of_nat k) (epoch + 2001 * Z.of_nat k) 600 600
    (fun _ => 1 / 2).

Definition siege (n : nat) : Index.State :=
  Index.run (map (fun k => Index.Frame (envSiege k)) (seq 0 n)) depotReady.

(** After ten of these frames the player clicks. *)
Definition siegeShot : Index.State :=
  Index.step (Index.Click envDepot) (siege 10).




(** * Properties *)

#[local] Arguments Z.mul : simpl never.
#[local] Arguments Z.add : simpl never.
#[local] Arguments Z.sub : simpl never.
#[local] Arguments Z.max : simpl never.
#[local] Arguments Z.of_nat : simpl never.
#[local] Arguments Z.leb : simpl never.
#[local] Arguments Z.ltb : simpl never.
#[local] Arguments Nat.leb : simpl never.

Ltac splits := repeat match goal with |- _ /\ _ => split end.
Ltac fin := auto; try tauto; try lia; try congruence.

(** ** Comparisons and lists *)

Lemma Rltb_true_iff (a b : R) : Rltb a b = true <-> a < b.
Proof.
  unfold Rltb. destruct (Rlt_dec a b); split; intros; auto; discriminate.
Qed.

Lemma Rltb_false_iff (a b : R) : Rltb a b = false <-> ~ a < b.
Proof.
  unfold Rltb. destruct (Rlt_dec a b); split; intros; auto;
    try discriminate; contradiction.
Qed.

Lemma Rabs_lt_iff (d c : R) : Rabs d < c <-> - c < d < c.
Proof.
  split.
  - intros H. apply Rabs_def2 in H. lra.
  - intros [H1 H2]. apply Rabs_def1; lra.
Qed.

(** ** Projection and hit test (C1) *)

Lemma index_isHit_insideBox (env : Env) (s : Index.State) (ent : Entity) :
  Index.isHit env s ent = true <->
  insideBox 25 50 (Index.shootProjection env (Index.mousePos s) ent)
    (Index.impact env s).
Proof.
  unfold Index.isHit, insideBox, Index.shootProjection.
  rewrite andb_true_iff, !Rltb_true_iff. reflexivity.
Qed.

Lemma part0_isHit_insideBox (env : Env) (s : Part0.State) (ent : Entity) :
  Part0.isHit env s ent = true <->
  insideBox 30 60 (Part0.shootProjection env (Part0.mousePos s) ent)
    (Part0.impact env s).
Proof.
  unfold Part0.isHit, insideBox, Part0.shootProjection.
  rewrite andb_true_iff, !Rltb_true_iff. reflexivity.
Qed.

(** The entity list returned by the two traversals is computed entity by
    entity. *)
Lemma index_mapShoot_nth (env : Env) (s0 : Index.State) :
  forall es acc i ent,
    nth_error es i = Some ent ->
    exists acc',
      nth_error (fst (Index.mapShoot env s0 es acc)) i
      = Some (fst (Index.shootEntity env s0 ent acc')).
Proof.
  induction es as [|e es IH]; intros acc i ent Hi.
  - destruct i; discriminate.
  - simpl. destruct (Index.shootEntity env s0 e acc) as [e' acc1] eqn:E1.
    destruct (Index.mapShoot env s0 es acc1) as [rest acc2] eqn:E2.
    destruct i as [|i]; simpl in *.
    + injection Hi as <-. exists acc. now rewrite E1.
    + destruct (IH acc1 i ent Hi) as [acc' H]. exists acc'.
      now rewrite E2 in H.
Qed.

Lemma part0_forEachShoot_nth (env : Env) (s0 : Part0.State) :
  forall es acc i ent,
    nth_error es i = Some ent ->
    exists acc',
      nth_error (fst (Part0.forEachShoot env s0 es acc)) i
      = Some (fst (Part0.shootEntity env s0 ent acc')).
Proof.
  induction es as [|e es IH]; intros acc i ent Hi.
  - destruct i; discriminate.
  - simpl. destruct (Part0.shootEntity env s0 e acc) as [e' acc1] eqn:E1.
    destruct (Part0.forEachShoot env s0 es acc1) as [rest acc2] eqn:E2.
    destruct i as [|i]; simpl in *.
    + injection Hi as <-. exists acc. now rewrite E1.
    + destruct (IH acc1 i ent Hi) as [acc' H]. exists acc'.
      now rewrite E2 in H.
Qed.

Lemma index_handleShoot_entities (env : Env) (s : Index.State) :
  Index.gameState s = playing ->
  Index.entities (Index.handleShoot env s)
  = fst (Index.mapShoot env
           (Index.set_screenShake 10
              (Index.set_shotsFired (S (Index.shotsFired s)) s))
           (Index.entities s)
           (false, Index.set_screenShake 10
                     (Index.set_shotsFired (S (Index.shotsFired s)) s))).
Proof.
  intros Hp. unfold Index.handleShoot. rewrite Hp. simpl.
  match goal with |- context [Index.mapShoot ?e ?a ?b ?c] =>
    destruct (Index.mapShoot e a b c) as [next [hit s2]] end.
  simpl. destruct hit; reflexivity.
Qed.

Lemma part0_handleShoot_entities (env : Env) (s : Part0.State) :
  Part0.gameState s = playing ->
  Part0.entities (Part0.handleShoot env s)
  = fst (Part0.forEachShoot env (Part0.set_screenShake 15 s)
           (Part0.entities s) (false, Part0.set_screenShake 15 s)).
Proof.
  intros Hp. unfold Part0.handleShoot. rewrite Hp. simpl.
  match goal with |- context [Part0.forEachShoot ?e ?a ?b ?c] =>
    destruct (Part0.forEachShoot e a b c) as [next [hit s2]] end.
  simpl. destruct hit; reflexivity.
Qed.

(** A click made while playing marks every living entity it strikes. *)
Lemma index_click_kills_struck (env : Env) (s : Index.State) (i : nat)
    (ent : Entity) :
  Index.gameState s = playing ->
  nth_error (Index.entities s) i = Some ent ->
  Index.struck env s ent = true ->
  exists ent',
    nth_error (Index.entities (Index.handleShoot env s)) i = Some ent'
    /\ ent_isDead ent' = true /\ ent_id ent' = ent_id ent.
Proof.
  intros Hp Hi Hs. unfold Index.struck in Hs.
  apply andb_true_iff in Hs. destruct Hs as (Hhit & Hlive).
  apply negb_true_iff in Hlive.
  rewrite (index_handleShoot_entities env s Hp).
  set (s1 := Index.set_screenShake 10 _).
  destruct (index_mapShoot_nth env s1 _ (false, s1) i ent Hi) as [acc' H].
  rewrite H. eexists; split; [reflexivity|].
  change (Index.isHit env s ent) with (Index.isHit env s1 ent) in Hhit.
  unfold Index.shootEntity. rewrite Hlive, Hhit. simpl. split; reflexivity.
Qed.

Lemma part0_click_kills_struck (env : Env) (s : Part0.State) (i : nat)
    (ent : Entity) :
  Part0.gameState s = playing ->
  nth_error (Part0.entities s) i = Some ent ->
  Part0.struck env s ent = true ->
  exists ent',
    nth_error (Part0.entities (Part0.handleShoot env s)) i = Some ent'
    /\ ent_isDead ent' = true /\ ent_id ent' = ent_id ent.
Proof.
  intros Hp Hi Hs. unfold Part0.struck in Hs.
  apply andb_true_iff in Hs. destruct Hs as (Hlive & Hhit).
  apply negb_true_iff in Hlive.
  rewrite (part0_handleShoot_entities env s Hp).
  set (s1 := Part0.set_screenShake 15 s).
  destruct (part0_forEachShoot_nth env s1 _ (false, s1) i ent Hi) as [acc' H].
  rewrite H. eexists; split; [reflexivity|].
  change (Part0.isHit env s ent) with (Part0.isHit env s1 ent) in Hhit.
  unfold Part0.shootEntity. rewrite Hlive, Hhit. simpl. split; reflexivity.
Qed.

(** C1. In both versions the renderer and the hit test compute the same
    screen position and the same scale [600 / z] from the same entity,
    pointer and viewport; and when the click point lies inside the box of
    the hit test centred on the renderer's projection of a living entity,
    [handleShoot] returns that entity marked dead. *)
Theorem render_and_hit_test_agree :
  (forall env mouse ent,
      Index.renderProjection env mouse ent = Index.shootProjection env mouse ent
      /\ snd (Index.renderProjection env mouse ent) = 600 / ent_z ent)
  /\ (forall env mouse ent,
      Part0.renderProjection env mouse ent = Part0.shootProjection env mouse ent
      /\ snd (Part0.renderProjection env mouse ent) = 600 / ent_z ent)
  /\ (forall env s i ent,
      Index.gameState s = playing ->
      nth_error (Index.entities s) i = Some ent ->
      ent_isDead ent = false ->
      insideBox 25 50 (Index.renderProjection env (Index.mousePos s) ent)
        (Index.impact env s) ->
      exists ent',
        nth_error (Index.entities (Index.handleShoot env s)) i = Some ent'
        /\ ent_isDead ent' = true /\ ent_id ent' = ent_id ent)
  /\ (forall env s i ent,
      Part0.gameState s = playing ->
      nth_error (Part0.entities s) i = Some ent ->
      ent_isDead ent = false ->
      insideBox 30 60 (Part0.renderProjection env (Part0.mousePos s) ent)
        (Part0.impact env s) ->
      exists ent',
        nth_error (Part0.entities (Part0.handleShoot env s)) i = Some ent'
        /\ ent_isDead ent' = true /\ ent_id ent' = ent_id ent).
Proof.
  splits.
  - intros; split; reflexivity.
  - intros; split; reflexivity.
  - intros env s i ent Hp Hi Hlive Hbox.
    apply (index_click_kills_struck env s i ent Hp Hi).
    unfold Index.struck. rewrite Hlive, andb_true_r.
    apply index_isHit_insideBox. exact Hbox.
  - intros env s i ent Hp Hi Hlive Hbox.
    apply (part0_click_kills_struck env s i ent Hp Hi).
    unfold Part0.struck. rewrite Hlive. simpl.
    apply part0_isHit_insideBox. exact Hbox.
Qed.

(** ** Clicks outside play (C10) *)

Lemma index_handleShoot_idle (env : Env) (s : Index.State) :
  Index.gameState s <> playing -> Index.handleShoot env s = s.
Proof.
  intros Hg. unfold Index.handleShoot.
  destruct (Index.gameState s); try reflexivity. now elim Hg.
Qed.

Lemma part0_handleShoot_idle (env : Env) (s : Part0.State) :
  Part0.gameState s <> playing -> Part0.handleShoot env s = s.
Proof.
  intros Hg. unfold Part0.handleShoot.
  destruct (Part0.gameState s); try reflexivity. now elim Hg.
Qed.

(** C10. A click received while the game state is not [playing] leaves the
    whole state of either version unchanged: entities, particles, shot
    counter and screen shake included. *)
Theorem handleShoot_not_playing_unchanged :
  (forall env s, Index.gameState s <> playing -> Index.handleShoot env s = s)
  /\ (forall env s, Part0.gameState s <> playing -> Part0.handleShoot env s = s).
Proof.
  split; intros env s Hg.
  - now apply index_handleShoot_idle.
  - now apply part0_handleShoot_idle.
Qed.

(** ** The objective index (C4) *)

Lemma index_shootEntity_progress (env : Env) (s0 : Index.State) (ent : Entity)
    (h : bool) (s : Index.State) :
  let s' := snd (snd (Index.shootEntity env s0 ent (h, s))) in
  let last := (Index.objectiveCount s0 <=? Index.currentObjIndex s0 + 1)%nat in
  Index.currentObjIndex s'
  = (if Index.satisfyingHit env s0 ent && negb last
     then (Index.currentObjIndex s0 + 1)%nat else Index.currentObjIndex s)
  /\ Index.gameState s'
     = (if Index.satisfyingHit env s0 ent && last
        then success else Index.gameState s)
  /\ Index.playerHealth s' = Index.playerHealth s
  /\ Index.mission s' = Index.mission s
  /\ Index.isLoading s' = Index.isLoading s.
Proof.
  unfold Index.shootEntity, Index.satisfyingHit, Index.struck, satisfies,
    Index.currentObj, Index.objectiveCount, Index.advanceObjective.
  destruct (Index.mission s0) as [m|] eqn:Hm; simpl.
  - destruct (ent_isDead ent) eqn:Hd; destruct (ent_type ent) eqn:Ht; simpl;
      destruct (Index.isHit env s0 ent) eqn:Hh; simpl;
      try (repeat split; reflexivity);
      destruct (nth_error (objectives m) (Index.currentObjIndex s0)) as [o|];
      simpl; try (repeat split; reflexivity);
      destruct (obj_type o); simpl; try (repeat split; reflexivity);
      destruct (Datatypes.length (objectives m) <=? Index.currentObjIndex s0 + 1)%nat;
      simpl; repeat split; reflexivity.
  - destruct (ent_isDead ent) eqn:Hd; destruct (ent_type ent) eqn:Ht; simpl;
      destruct (Index.isHit env s0 ent) eqn:Hh; simpl;
      repeat split; reflexivity.
Qed.

Lemma index_mapShoot_progress (env : Env) (s0 : Index.State) :
  forall es h s,
    let s' := snd (snd (Index.mapShoot env s0 es (h, s))) in
    let last := (Index.objectiveCount s0 <=? Index.currentObjIndex s0 + 1)%nat in
    let sat := existsb (Index.satisfyingHit env s0) es in
    Index.currentObjIndex s'
    = (if sat && negb last
       then (Index.currentObjIndex s0 + 1)%nat else Index.currentObjIndex s)
    /\ Index.gameState s' = (if sat && last then success else Index.gameState s)
    /\ Index.playerHealth s' = Index.playerHealth s
    /\ Index.mission s' = Index.mission s
    /\ Index.isLoading s' = Index.isLoading s.
Proof.
  induction es as [|e es IH]; intros h s; simpl.
  - repeat split; reflexivity.
  - pose proof (index_shootEntity_progress env s0 e h s) as He.
    destruct (Index.shootEntity env s0 e (h, s)) as [e' [h1 s1]] eqn:E1.
    specialize (IH h1 s1).
    destruct (Index.mapShoot env s0 es (h1, s1)) as [rest [h2 s2]] eqn:E2.
    simpl in *.
    destruct He as (He1 & He2 & He3 & He4 & He5).
    destruct IH as (I1 & I2 & I3 & I4 & I5).
    rewrite I1, I2, I3, I4, I5, He1, He2, He3, He4, He5.
    destruct (Index.satisfyingHit env s0 e);
      destruct (existsb (Index.satisfyingHit env s0) es);
      destruct (Index.objectiveCount s0 <=? Index.currentObjIndex s0 + 1)%nat;
      simpl; repeat split; reflexivity.
Qed.

(** What one click does to the objective index, the game state and the
    health in [index.tsx]. *)
Lemma index_handleShoot_progress (env : Env) (s : Index.State) :
  Index.gameState s = playing ->
  let s' := Index.handleShoot env s in
  let last := (Index.objectiveCount s <=? Index.currentObjIndex s + 1)%nat in
  let sat := existsb (Index.satisfyingHit env s) (Index.entities s) in
  Index.currentObjIndex s'
  = (if sat && negb last
     then (Index.currentObjIndex s + 1)%nat else Index.currentObjIndex s)
  /\ Index.gameState s' = (if sat && last then success else playing)
  /\ Index.playerHealth s' = Index.playerHealth s
  /\ Index.mission s' = Index.mission s
  /\ Index.isLoading s' = Index.isLoading s.
Proof.
  intros Hp. cbv zeta. unfold Index.handleShoot. rewrite Hp.
  cbn [isPlaying negb].
  set (s1 := Index.set_screenShake 10 _).
  pose proof (index_mapShoot_progress env s1 (Index.entities s1) false s1) as H.
  destruct (Index.mapShoot env s1 (Index.entities s1) (false, s1))
    as [next [hit s2]] eqn:E.
  simpl in H. destruct H as (H1 & H2 & H3 & H4 & H5).
  change (existsb (Index.satisfyingHit env s1) (Index.entities s1))
    with (existsb (Index.satisfyingHit env s) (Index.entities s)) in *.
  change (Index.objectiveCount s1) with (Index.objectiveCount s) in *.
  change (Index.currentObjIndex s1) with (Index.currentObjIndex s) in *.
  change (Index.gameState s1) with (Index.gameState s) in *.
  rewrite Hp in H2.
  destruct hit; cbn -[Nat.leb]; rewrite H1, H2, H3, H4, H5; repeat split; reflexivity.
Qed.

Lemma index_shootEntity_halted (env : Env) (s0 : Index.State) (ent : Entity)
    (acc : bool * Index.State) :
  Index.halted (snd (snd (Index.shootEntity env s0 ent acc)))
  = Index.halted (snd acc).
Proof.
  unfold Index.shootEntity, Index.advanceObjective.
  destruct (Index.mission s0);
    repeat match goal with |- context [if ?c then _ else _] => destruct c end;
    reflexivity.
Qed.

Lemma index_mapShoot_halted (env : Env) (s0 : Index.State) :
  forall es acc,
    Index.halted (snd (snd (Index.mapShoot env s0 es acc)))
    = Index.halted (snd acc).
Proof.
  induction es as [|e es IH]; intros acc; simpl; [reflexivity|].
  pose proof (index_shootEntity_halted env s0 e acc) as He.
  destruct (Index.shootEntity env s0 e acc) as [e' acc1].
  specialize (IH acc1).
  destruct (Index.mapShoot env s0 es acc1) as [rest acc2].
  simpl in *. congruence.
Qed.

Lemma index_handleShoot_halted (env : Env) (s : Index.State) :
  Index.halted (Index.handleShoot env s) = Index.halted s.
Proof.
  unfold Index.handleShoot.
  destruct (negb (isPlaying (Index.gameState s))); [reflexivity|].
  set (s1 := Index.set_screenShake 10 _).
  pose proof (index_mapShoot_halted env s1 (Index.entities s1) (false, s1)) as H.
  destruct (Index.mapShoot env s1 (Index.entities s1) (false, s1))
    as [next [hit s2]].
  simpl in *. destruct hit; simpl; exact H.
Qed.

Lemma part0_shootEntity_progress (env : Env) (s0 : Part0.State) (ent : Entity)
    (h : bool) (s : Part0.State) :
  let s' := snd (snd (Part0.shootEntity env s0 ent (h, s))) in
  let last := (Part0.objectiveCount s0 <=? Part0.currentObjIndex s0 + 1)%nat in
  Part0.currentObjIndex s'
  = (if Part0.satisfyingHit env s0 ent && negb last
     then (Part0.currentObjIndex s + 1)%nat else Part0.currentObjIndex s)
  /\ Part0.gameState s'
     = (if Part0.satisfyingHit env s0 ent && last
        then success else Part0.gameState s)
  /\ Part0.playerHealth s' = Part0.playerHealth s
  /\ Part0.mission s' = Part0.mission s
  /\ Part0.isLoading s' = Part0.isLoading s.
Proof.
  unfold Part0.shootEntity, Part0.satisfyingHit, Part0.struck,
    Part0.currentObj, Part0.objectiveCount.
  destruct (ent_isDead ent); simpl; [repeat split; reflexivity|].
  destruct (Part0.isHit env s0 ent); simpl; [|repeat split; reflexivity].
  destruct (satisfies (ent_type ent) _); simpl; [|repeat split; reflexivity].
  destruct (_ <=? _)%nat; simpl; repeat split; reflexivity.
Qed.

Lemma part0_forEachShoot_progress (env : Env) (s0 : Part0.State) :
  forall es h s,
    let s' := snd (snd (Part0.forEachShoot env s0 es (h, s))) in
    let last := (Part0.objectiveCount s0 <=? Part0.currentObjIndex s0 + 1)%nat in
    let sats := filter (Part0.satisfyingHit env s0) es in
    Part0.currentObjIndex s'
    = (if last then Part0.currentObjIndex s
       else (Part0.currentObjIndex s + List.length sats)%nat)
    /\ Part0.gameState s'
       = (if existsb (Part0.satisfyingHit env s0) es && last
          then success else Part0.gameState s)
    /\ Part0.playerHealth s' = Part0.playerHealth s
    /\ Part0.mission s' = Part0.mission s
    /\ Part0.isLoading s' = Part0.isLoading s.
Proof.
  induction es as [|e es IH]; intros h s; simpl.
  - destruct (_ <=? _)%nat; repeat split; auto with arith.
  - pose proof (part0_shootEntity_progress env s0 e h s) as He.
    destruct (Part0.shootEntity env s0 e (h, s)) as [e' [h1 s1]] eqn:E1.
    specialize (IH h1 s1).
    destruct (Part0.forEachShoot env s0 es (h1, s1)) as [rest [h2 s2]] eqn:E2.
    simpl in *.
    destruct He as (He1 & He2 & He3 & He4 & He5).
    destruct IH as (I1 & I2 & I3 & I4 & I5).
    rewrite I1, I2, I3, I4, I5, He1, He2, He3, He4, He5.
    destruct (Part0.satisfyingHit env s0 e);
      destruct (existsb (Part0.satisfyingHit env s0) es);
      destruct (Part0.objectiveCount s0 <=? Part0.currentObjIndex s0 + 1)%nat;
      simpl; repeat split; try reflexivity; lia.
Qed.

(** What one click does in [part_000]: the index grows by the number of
    satisfying strikes unless the active objective is the last one. *)
Lemma part0_handleShoot_progress (env : Env) (s : Part0.State) :
  Part0.gameState s = playing ->
  let s' := Part0.handleShoot env s in
  let last := (Part0.objectiveCount s <=? Part0.currentObjIndex s + 1)%nat in
  let sats := filter (Part0.satisfyingHit env s) (Part0.entities s) in
  Part0.currentObjIndex s'
  = (if last then Part0.currentObjIndex s
     else (Part0.currentObjIndex s + List.length sats)%nat)
  /\ Part0.gameState s'
     = (if existsb (Part0.satisfyingHit env s) (Part0.entities s) && last
        then success else playing)
  /\ Part0.playerHealth s' = Part0.playerHealth s
  /\ Part0.mission s' = Part0.mission s
  /\ Part0.isLoading s' = Part0.isLoading s.
Proof.
  intros Hp. cbv zeta. unfold Part0.handleShoot. rewrite Hp.
  cbn [isPlaying negb].
  set (s1 := Part0.set_screenShake 15 s).
  pose proof (part0_forEachShoot_progress env s1 (Part0.entities s1) false s1) as H.
  destruct (Part0.forEachShoot env s1 (Part0.entities s1) (false, s1))
    as [next [hit s2]] eqn:E.
  simpl in H. destruct H as (H1 & H2 & H3 & H4 & H5).
  change (Part0.satisfyingHit env s1) with (Part0.satisfyingHit env s) in *.
  change (Part0.entities s1) with (Part0.entities s) in *.
  change (Part0.objectiveCount s1) with (Part0.objectiveCount s) in *.
  change (Part0.currentObjIndex s1) with (Part0.currentObjIndex s) in *.
  change (Part0.gameState s1) with (Part0.gameState s) in *.
  rewrite Hp in H2.
  destruct hit; cbn -[Nat.leb]; rewrite H1, H2, H3, H4, H5; repeat split; reflexivity.
Qed.

(** ** Frames *)

Lemma index_behave_fixed (time : R) (ent : Entity) :
  sameKind ent (Index.behave time ent)
  /\ ent_isDead (Index.behave time ent) = ent_isDead ent
  /\ ent_lastFireTime (Index.behave time ent) = ent_lastFireTime ent.
Proof.
  unfold Index.behave, sameKind.
  destruct (ent_behavior ent) eqn:Hb; simpl;
    try destruct (Rltb _ _); simpl; rewrite ?Hb;
    repeat split; auto; try discriminate.
Qed.

Lemma part0_behave_fixed (time : R) (ent : Entity) :
  sameKind ent (Part0.behave time ent)
  /\ ent_isDead (Part0.behave time ent) = ent_isDead ent
  /\ ent_lastFireTime (Part0.behave time ent) = ent_lastFireTime ent.
Proof.
  unfold Part0.behave, sameKind.
  destruct (ent_behavior ent) eqn:Hb; simpl; rewrite ?Hb; simpl;
    repeat split; auto; try discriminate.
Qed.

Lemma index_updateEntity_state (env : Env) (ent : Entity) (s : Index.State) :
  let s' := snd (Index.updateEntity env ent s) in
  Index.mission s' = Index.mission s
  /\ Index.isLoading s' = Index.isLoading s
  /\ Index.gameState s' = Index.gameState s
  /\ Index.currentObjIndex s' = Index.currentObjIndex s
  /\ Index.playerHealth s'
     = (if fires 2000 env ent
        then Z.max 0 (Index.playerHealth s - 10) else Index.playerHealth s).
Proof.
  unfold Index.updateEntity, Index.returnFire, fires.
  destruct (index_behave_fixed (elapsed env) ent) as ((_ & _ & _ & Hh & _) & _ & Hl).
  rewrite Hh, Hl.
  destruct (ent_isDead ent); destruct (isBarrel (ent_type ent)); simpl;
    try (repeat split; reflexivity);
    destruct (ent_isHostile ent); simpl; try (repeat split; reflexivity);
    destruct (2000 <? now env - ent_lastFireTime ent)%Z; simpl;
    repeat split; reflexivity.
Qed.

Lemma index_forEachEntity_state (env : Env) :
  forall es s,
    let s' := snd (Index.forEachEntity env es s) in
    Index.mission s' = Index.mission s
    /\ Index.isLoading s' = Index.isLoading s
    /\ Index.gameState s' = Index.gameState s
    /\ Index.currentObjIndex s' = Index.currentObjIndex s
    /\ ((0 <= Index.playerHealth s)%Z ->
        (0 <= Index.playerHealth s' <= Index.playerHealth s)%Z).
Proof.
  induction es as [|e es IH]; intros s; simpl.
  - repeat split; auto; lia.
  - pose proof (index_updateEntity_state env e s) as He.
    destruct (Index.updateEntity env e s) as [e' s1].
    specialize (IH s1).
    destruct (Index.forEachEntity env es s1) as [rest s2].
    simpl in *. destruct He as (He1 & He5 & He2 & He3 & He4).
    destruct IH as (I1 & I5 & I2 & I3 & I4).
    rewrite I1, I2, I3, I5, He1, He2, He3, He5. split; [|split; [|split; [|split]]]; auto.
    intros H0. rewrite He4 in I4. destruct (fires 2000 env e); lia.
Qed.

Lemma part0_updateEntity_state (env : Env) (ent : Entity) (s : Part0.State) :
  let s' := snd (Part0.updateEntity env ent s) in
  Part0.mission s' = Part0.mission s
  /\ Part0.isLoading s' = Part0.isLoading s
  /\ Part0.gameState s' = Part0.gameState s
  /\ Part0.currentObjIndex s' = Part0.currentObjIndex s
  /\ Part0.playerHealth s'
     = (if fires 3000 env ent
        then Part0.playerHealth s - 10 else Part0.playerHealth s)%Z.
Proof.
  unfold Part0.updateEntity, Part0.returnFire, fires.
  destruct (part0_behave_fixed (elapsed env) ent) as ((_ & _ & _ & Hh & _) & _ & Hl).
  rewrite Hh, Hl.
  destruct (ent_isDead ent); destruct (isBarrel (ent_type ent)); simpl;
    try (repeat split; reflexivity);
    destruct (ent_isHostile ent); simpl; try (repeat split; reflexivity);
    destruct (3000 <? now env - ent_lastFireTime ent)%Z; simpl;
    repeat split; reflexivity.
Qed.

Lemma part0_forEachEntity_state (env : Env) :
  forall es s,
    let s' := snd (Part0.forEachEntity env es s) in
    Part0.mission s' = Part0.mission s
    /\ Part0.isLoading s' = Part0.isLoading s
    /\ Part0.gameState s' = Part0.gameState s
    /\ Part0.currentObjIndex s' = Part0.currentObjIndex s
    /\ Part0.playerHealth s'
       = (Part0.playerHealth s
          - 10 * Z.of_nat (List.length (filter (fires 3000 env) es)))%Z.
Proof.
  induction es as [|e es IH]; intros s; simpl.
  - repeat split; auto; lia.
  - pose proof (part0_updateEntity_state env e s) as He.
    destruct (Part0.updateEntity env e s) as [e' s1].
    specialize (IH s1).
    destruct (Part0.forEachEntity env es s1) as [rest s2].
    simpl in *. destruct He as (He1 & He5 & He2 & He3 & He4).
    destruct IH as (I1 & I5 & I2 & I3 & I4).
    rewrite I1, I2, I3, I4, I5, He1, He2, He3, He4, He5. repeat split; auto.
    destruct (fires 3000 env e); cbn [List.length]; lia.
Qed.

(** The entity list after a traversal is computed entity by entity, and the
    new record of an entity does not depend on the state. *)
Lemma index_updateEntity_fst (env : Env) (ent : Entity) (s s' : Index.State) :
  fst (Index.updateEntity env ent s) = fst (Index.updateEntity env ent s').
Proof.
  unfold Index.updateEntity, Index.returnFire.
  repeat match goal with |- context [if ?c then _ else _] => destruct c end;
    reflexivity.
Qed.

Lemma part0_updateEntity_fst (env : Env) (ent : Entity) (s s' : Part0.State) :
  fst (Part0.updateEntity env ent s) = fst (Part0.updateEntity env ent s').
Proof.
  unfold Part0.updateEntity, Part0.returnFire.
  repeat match goal with |- context [if ?c then _ else _] => destruct c end;
    reflexivity.
Qed.

Lemma index_forEachEntity_fst (env : Env) (s0 : Index.State) :
  forall es s,
    fst (Index.forEachEntity env es s)
    = map (fun e => fst (Index.updateEntity env e s0)) es.
Proof.
  induction es as [|e es IH]; intros s; simpl; [reflexivity|].
  rewrite (index_updateEntity_fst env e s0 s).
  destruct (Index.updateEntity env e s) as [e' s1].
  specialize (IH s1).
  destruct (Index.forEachEntity env es s1) as [rest s2].
  simpl in *. now rewrite IH.
Qed.

Lemma part0_forEachEntity_fst (env : Env) (s0 : Part0.State) :
  forall es s,
    fst (Part0.forEachEntity env es s)
    = map (fun e => fst (Part0.updateEntity env e s0)) es.
Proof.
  induction es as [|e es IH]; intros s; simpl; [reflexivity|].
  rewrite (part0_updateEntity_fst env e s0 s).
  destruct (Part0.updateEntity env e s) as [e' s1].
  specialize (IH s1).
  destruct (Part0.forEachEntity env es s1) as [rest s2].
  simpl in *. now rewrite IH.
Qed.

Lemma index_forEachEntity_log (env : Env) :
  forall es s,
    let s' := snd (Index.forEachEntity env es s) in
    Index.spoken s' = Index.spoken s
    /\ Index.halted s' = Index.halted s
    /\ Index.timers s' = Index.timers s.
Proof.
  induction es as [|e es IH]; intros s; simpl; [auto|].
  assert (He : Index.spoken (snd (Index.updateEntity env e s)) = Index.spoken s
               /\ Index.halted (snd (Index.updateEntity env e s)) = Index.halted s
               /\ Index.timers (snd (Index.updateEntity env e s)) = Index.timers s).
  { unfold Index.updateEntity, Index.returnFire.
    repeat match goal with |- context [if ?c then _ else _] => destruct c end;
      simpl; auto. }
  destruct (Index.updateEntity env e s) as [e' s1].
  specialize (IH s1).
  destruct (Index.forEachEntity env es s1) as [rest s2].
  simpl in *. destruct He as (E1 & E2 & E3). destruct IH as (I1 & I2 & I3).
  rewrite I1, I2, I3. auto.
Qed.

(** What one frame of [index.tsx] does to the fields the claims are about. *)
Lemma index_frame_effect (env : Env) (s : Index.State) :
  let s' := Index.outcomeState (Index.frame env s) in
  Index.mission s' = Index.mission s
  /\ Index.currentObjIndex s' = Index.currentObjIndex s
  /\ Index.isLoading s' = Index.isLoading s
  /\ ((0 <= Index.playerHealth s)%Z ->
      (0 <= Index.playerHealth s' <= Index.playerHealth s)%Z)
  /\ Index.gameState s'
     = (if isPlaying (Index.gameState s) && isSome (Index.currentObj s)
           && (Index.playerHealth s <=? 0)%Z
        then failure else Index.gameState s)
  /\ Index.halted s'
     = (Index.halted s
        || (isPlaying (Index.gameState s) && isSome (Index.mission s)
            && negb (isSome (Index.currentObj s))))
  /\ Index.spoken s'
     = (if isPlaying (Index.gameState s) && isSome (Index.currentObj s)
           && (Index.playerHealth s <=? 0)%Z
        then Index.spoken s ++ ["Agent neutralized. Mission failed."]
        else Index.spoken s).
Proof.
  cbv zeta. unfold Index.frame, Index.currentObj.
  destruct (Index.gameState s) eqn:Hg; simpl;
    try (rewrite orb_false_r; splits; solve [auto | lia]).
  destruct (Index.mission s) as [m|] eqn:Hm; simpl;
    try (rewrite orb_false_r; splits; solve [auto | lia]).
  unfold Index.render.
  set (s2 := Index.set_draws _ _).
  pose proof (index_forEachEntity_state env (Index.entities s2) s2) as H.
  pose proof (index_forEachEntity_log env (Index.entities s2) s2) as L.
  destruct (Index.forEachEntity env (Index.entities s2) s2) as [es s3].
  simpl in H, L. destruct H as (H1 & H5 & H2 & H3 & H4).
  destruct L as (L1 & L2 & L3).
  destruct (nth_error (objectives m) (Index.currentObjIndex s)) as [o|]; simpl.
  - destruct (Index.playerHealth s <=? 0)%Z; simpl;
      rewrite ?H1, ?H2, ?H3, ?H5, ?L1, ?L2, ?orb_false_r; splits; auto.
  - rewrite ?H1, ?H2, ?H3, ?H5, ?L1, ?L2, ?orb_true_r; splits; auto.
Qed.

Lemma part0_frame_effect (env : Env) (s : Part0.State) :
  Part0.gameState s = playing ->
  Part0.mission s <> None ->
  let s' := Part0.frame env s in
  Part0.mission s' = Part0.mission s
  /\ Part0.currentObjIndex s' = Part0.currentObjIndex s
  /\ Part0.isLoading s' = Part0.isLoading s
  /\ Part0.playerHealth s'
     = (Part0.playerHealth s
        - 10 * Z.of_nat (List.length
                           (filter (fires 3000 env) (Part0.entities s))))%Z
  /\ Part0.gameState s'
     = (if (Part0.playerHealth s' <=? 0)%Z then failure else playing)
  /\ Part0.entities s'
     = map (fun e => fst (Part0.updateEntity env e s)) (Part0.entities s).
Proof.
  intros Hg Hm. cbv zeta. unfold Part0.frame. rewrite Hg.
  destruct (Part0.mission s) as [m|] eqn:Hm'; [|contradiction].
  unfold Part0.render.
  set (s2 := Part0.set_draws _ _).
  pose proof (part0_forEachEntity_state env (Part0.entities s2) s2) as H.
  pose proof (part0_forEachEntity_fst env s (Part0.entities s2) s2) as Hf.
  destruct (Part0.forEachEntity env (Part0.entities s2) s2) as [es s3].
  simpl in H, Hf. destruct H as (H1 & H5 & H2 & H3 & H4).
  simpl.
  destruct (Part0.playerHealth s3 <=? 0)%Z eqn:Hz; simpl;
    rewrite ?Hz, ?H1, ?H2, ?H3, ?H5, ?Hm', ?Hg; repeat split; auto.
Qed.

Lemma part0_frame_idle (env : Env) (s : Part0.State) :
  Part0.gameState s <> playing \/ Part0.mission s = None ->
  Part0.frame env s = s.
Proof.
  unfold Part0.frame. intros [H|H].
  - destruct (Part0.gameState s); try reflexivity. now elim H.
  - rewrite H. destruct (Part0.gameState s); reflexivity.
Qed.

Lemma index_frame_idle (env : Env) (s : Index.State) :
  Index.gameState s <> playing \/ Index.mission s = None ->
  Index.frame env s = Index.Completed s.
Proof.
  unfold Index.frame. intros [H|H].
  - destruct (Index.gameState s); try reflexivity. now elim H.
  - rewrite H. destruct (Index.gameState s); reflexivity.
Qed.

(** ** The roster of [part_000] keeps its shape *)

Lemma sameKind_barrelAt (k : nat) (e e' : Entity) :
  sameKind e e' -> barrelAt k e -> barrelAt k e'.
Proof.
  intros (Hi & Ht & Hb & Hh & Hs) (Bt & Bx & Bz & Bb & Bh).
  destruct (Hs Bb) as (Hx & Hy & Hz).
  unfold barrelAt. rewrite Ht, Hx, Hz, Hb, Hh. auto.
Qed.

Lemma roster_sameKind (es es' : list Entity) :
  roster es -> Forall2 sameKind es es' -> roster es'.
Proof.
  intros (h & g & i & b0 & b1 & b2 & -> & (Hh1 & Hh2) & Hg & (Hi1 & Hi2 & Hi3)
          & B0 & B1 & B2) HF.
  inversion HF as [|? h' ? r1 Sh F1]; subst; clear HF.
  inversion F1 as [|? g' ? r2 Sg F2]; subst; clear F1.
  inversion F2 as [|? i' ? r3 Si F3]; subst; clear F2.
  inversion F3 as [|? c0 ? r4 S0 F4]; subst; clear F3.
  inversion F4 as [|? c1 ? r5 S1 F5]; subst; clear F4.
  inversion F5 as [|? c2 ? r6 S2 F6]; subst; clear F5.
  inversion F6; subst; clear F6.
  exists h', g', i', c0, c1, c2. split; [reflexivity|].
  pose proof (sameKind_barrelAt _ _ _ S0 B0).
  pose proof (sameKind_barrelAt _ _ _ S1 B1).
  pose proof (sameKind_barrelAt _ _ _ S2 B2).
  destruct Sh as (_ & Sh2 & _ & Sh4 & _).
  destruct Sg as (_ & Sg2 & _).
  destruct Si as (_ & Si2 & Si3 & Si4 & _).
  rewrite Sh2, Sh4, Sg2, Si2, Si3, Si4. auto 10.
Qed.

Lemma part0_updateEntity_sameKind (env : Env) (ent : Entity) (s : Part0.State) :
  sameKind ent (fst (Part0.updateEntity env ent s)).
Proof.
  destruct (part0_behave_fixed (elapsed env) ent) as (Hk & _).
  unfold Part0.updateEntity, Part0.returnFire.
  repeat match goal with |- context [if ?c then _ else _] => destruct c end;
    simpl; auto; unfold sameKind in *; simpl; try tauto.
Qed.

Lemma part0_shootEntity_sameKind (env : Env) (s0 : Part0.State) (ent : Entity)
    (acc : bool * Part0.State) :
  sameKind ent (fst (Part0.shootEntity env s0 ent acc)).
Proof.
  unfold Part0.shootEntity.
  repeat match goal with |- context [if ?c then _ else _] => destruct c end;
    simpl; unfold sameKind; simpl; tauto.
Qed.

Lemma part0_forEachShoot_sameKind (env : Env) (s0 : Part0.State) :
  forall es acc, Forall2 sameKind es (fst (Part0.forEachShoot env s0 es acc)).
Proof.
  induction es as [|e es IH]; intros acc; simpl; [constructor|].
  pose proof (part0_shootEntity_sameKind env s0 e acc) as He.
  destruct (Part0.shootEntity env s0 e acc) as [e' acc1].
  specialize (IH acc1).
  destruct (Part0.forEachShoot env s0 es acc1) as [rest acc2].
  simpl in *. constructor; assumption.
Qed.

Lemma Forall2_map_self {A : Type} (P : A -> A -> Prop) (f : A -> A) (l : list A) :
  (forall a, P a (f a)) -> Forall2 P l (map f l).
Proof. intros H. induction l; simpl; constructor; auto. Qed.

Lemma part0_spawn_roster (env : Env) (s : Part0.State) :
  roster (Part0.entities (Part0.spawnEntities env s)).
Proof.
  unfold Part0.spawnEntities. simpl.
  do 6 eexists. split; [reflexivity|].
  unfold barrelAt; simpl. repeat split; lra.
Qed.

(** Under the roster of [part_000] at most one entity fires per frame. *)
Lemma roster_fires_once (env : Env) (es : list Entity) :
  es = [] \/ roster es ->
  (List.length (filter (fires 3000 env) es) <= 1)%nat.
Proof.
  intros [->|(h & g & i & b0 & b1 & b2 & -> & (_ & Hh) & _ & (_ & Hi & _)
               & B0 & B1 & B2)]; [simpl; lia|].
  destruct B0 as (_ & _ & _ & _ & H0).
  destruct B1 as (_ & _ & _ & _ & H1).
  destruct B2 as (_ & _ & _ & _ & H2).
  unfold fires. simpl. rewrite Hh, Hi, H0, H1, H2.
  rewrite !andb_false_r. simpl.
  destruct (_ && _ && _); simpl; lia.
Qed.

(** Two different barrels of the row are never struck by the same click. *)
Lemma barrels_not_both_hit (env : Env) (s : Part0.State) (j k : nat)
    (b b' : Entity) :
  barrelAt j b -> barrelAt k b' -> (j < k <= 2)%nat ->
  Part0.isHit env s b = true -> Part0.isHit env s b' = true -> False.
Proof.
  intros (_ & Bx & Bz & _) (_ & Bx' & Bz' & _) Hjk.
  unfold Part0.isHit, Part0.shootProjection.
  rewrite Bx, Bz, Bx', Bz'.
  rewrite !andb_true_iff, !Rltb_true_iff, !Rabs_lt_iff.
  set (t := (fst (Part0.mousePos s) - innerWidth env / 2) * (1 - 400 / 600)).
  intros ((H1 & H2) & _) ((H3 & H4) & _).
  assert (Hd : INR j + 1 <= INR k).
  { rewrite <- S_INR. apply le_INR. lia. }
  lra.
Qed.

(** Under the roster of [part_000] a click makes at most one satisfying
    strike. *)
Lemma roster_one_satisfying (env : Env) (s : Part0.State) :
  Part0.entities s = [] \/ roster (Part0.entities s) ->
  (List.length (filter (Part0.satisfyingHit env s) (Part0.entities s)) <= 1)%nat.
Proof.
  intros [->|(h & g & i & b0 & b1 & b2 & -> & (Hh & _) & Hg & (Hi & _)
               & B0 & B1 & B2)]; [simpl; lia|].
  pose proof (barrels_not_both_hit env s 0 1 b0 b1 B0 B1) as X01.
  pose proof (barrels_not_both_hit env s 0 2 b0 b2 B0 B2) as X02.
  pose proof (barrels_not_both_hit env s 1 2 b1 b2 B1 B2) as X12.
  destruct B0 as (T0 & _). destruct B1 as (T1 & _). destruct B2 as (T2 & _).
  unfold Part0.satisfyingHit, Part0.struck, satisfies, typeIs.
  cbn [filter]. rewrite Hh, Hg, Hi, T0, T1, T2.
  cbn [isBarrel isIntel isHVT andb orb].
  destruct (Part0.currentObj s) as [o|]; [destruct (obj_type o)|];
    rewrite ?andb_false_r, ?andb_true_r, ?orb_false_r; cbn [List.length];
    try lia.
  - destruct (Part0.isHit env s b0); destruct (Part0.isHit env s b1);
      destruct (Part0.isHit env s b2);
      try (exfalso; (apply X01 || apply X02 || apply X12); auto; lia);
      rewrite ?andb_false_r;
      destruct (negb (ent_isDead b0)); destruct (negb (ent_isDead b1));
      destruct (negb (ent_isDead b2)); cbn; lia.
  - destruct (negb (ent_isDead h) && Part0.isHit env s h); cbn; lia.
  - destruct (negb (ent_isDead i) && Part0.isHit env s i); cbn; lia.
Qed.

(** ** Invariants of the reachable states *)

Lemma index_generateMission_effect (env : Env) (reply : Reply) (s : Index.State) :
  let s' := Index.generateMission env reply s in
  Index.playerHealth s' = Index.playerHealth s
  /\ Index.currentObjIndex s' = Index.currentObjIndex s
  /\ Index.gameState s' = Index.gameState s
  /\ Index.isLoading s' = false.
Proof.
  unfold Index.generateMission.
  destruct reply as [| |data]; simpl; auto.
  destruct (objectives data); simpl; auto.
Qed.

Lemma part0_generateMission_effect (env : Env) (reply : Reply) (s : Part0.State) :
  let s' := Part0.generateMission env reply s in
  Part0.playerHealth s' = Part0.playerHealth s
  /\ Part0.currentObjIndex s' = Part0.currentObjIndex s
  /\ Part0.gameState s' = Part0.gameState s
  /\ Part0.isLoading s' = false
  /\ roster (Part0.entities s').
Proof.
  unfold Part0.generateMission, Part0.installFallback.
  destruct reply as [| |data]; simpl;
    try (splits; auto; try tauto; apply (part0_spawn_roster env s)).
  destruct (objectives data); simpl;
    splits; auto; try tauto; apply (part0_spawn_roster env s).
Qed.

Lemma index_reachable_inv (s : Index.State) :
  Index.Reachable s ->
  (0 <= Index.playerHealth s <= 100)%Z
  /\ (Index.currentObjIndex s <= Index.objectiveCount s - 1)%nat
  /\ (Index.isLoading s = true ->
      Index.gameState s = briefingState /\ Index.currentObjIndex s = 0%nat
      /\ Index.playerHealth s = 100%Z)
  /\ (Index.halted s = false -> Index.objectiveCount s = 0%nat ->
      Index.playerHealth s = 100%Z).
Proof.
  induction 1 as [|ev s Hr (Hh & Hi & Hl & Hj)].
  - simpl. unfold Index.MAX_PLAYER_HEALTH. splits; auto; lia.
  - unfold Index.step. destruct (Index.halted s) eqn:Hhalt; [splits; fin|].
    specialize (Hj eq_refl).
    destruct ev as [env reply| |x y|env|env|].
    + destruct (Index.isLoading s) eqn:Hload;
        [|splits; fin].
      destruct (index_generateMission_effect env reply s) as (G1 & G2 & G3 & G4).
      destruct (Hl eq_refl) as (Hb & H0 & H100).
      rewrite G1, G2, G3, G4, H0. splits; fin; discriminate.
    + destruct (isBriefing _ && _ && negb (Index.isLoading s)) eqn:E;
        simpl; [|splits; fin].
      splits; fin.
      intros HL. rewrite HL in E. rewrite andb_false_r in E. discriminate.
    + simpl. splits; fin.
    + destruct (index_frame_effect env s)
        as (F1 & F2 & F3 & F4 & F5 & F6 & F7).
      unfold Index.objectiveCount in *. rewrite F1, F2, F3, F5, F6.
      split; [specialize (F4 (proj1 Hh)); lia|]. split; [auto|]. split.
      * intros HL. destruct (Hl HL) as (Hb & H0 & H100). rewrite Hb. simpl.
        splits; fin. specialize (F4 (proj1 Hh)).
        revert F4. unfold Index.frame. rewrite Hb. simpl. lia.
      * rewrite Hhalt. simpl. unfold Index.currentObj.
        destruct (Index.gameState s) eqn:Hg; simpl;
          try (intros _ Hc; specialize (Hj Hc);
               revert F4; unfold Index.frame; rewrite Hg; simpl; lia).
        destruct (Index.mission s) as [m|] eqn:Hm; simpl.
        -- destruct (nth_error (objectives m) (Index.currentObjIndex s)) eqn:En;
             simpl; [|discriminate].
           intros _ Hc. apply length_zero_iff_nil in Hc. rewrite Hc in En.
           destruct (Index.currentObjIndex s); discriminate.
        -- intros _ Hc. specialize (Hj Hc).
           revert F4; unfold Index.frame; rewrite Hg, Hm; simpl; lia.
    + destruct (Index.gameState s) eqn:Hg;
        try (rewrite (index_handleShoot_idle env s)
               by (rewrite Hg; discriminate); rewrite ?Hg; splits; fin).
      destruct (index_handleShoot_progress env s Hg) as (P1 & P2 & P3 & P4 & P5).
      assert (P6 : Index.halted (Index.handleShoot env s) = Index.halted s).
      { apply index_handleShoot_halted. }
      unfold Index.objectiveCount in *. rewrite P1, P3, P4, P5.
      split; [auto|]. split; [|split].
      * destruct (existsb _ _); simpl; auto.
        destruct (_ <=? _)%nat eqn:E; simpl; auto.
        apply Nat.leb_gt in E. lia.
      * intros HL. destruct (Hl HL) as (Hb & _). congruence.
      * auto.
    + unfold Index.fireTimer. destruct (Index.timers s); simpl; splits; fin.
Qed.

Lemma part0_reachable_inv (s : Part0.State) :
  Part0.Reachable s ->
  (Part0.entities s = [] \/ roster (Part0.entities s))
  /\ (exists k, (k <= 10)%nat
                /\ Part0.playerHealth s = (100 - 10 * Z.of_nat k)%Z)
  /\ ((Part0.playerHealth s <= 0)%Z -> Part0.gameState s = failure)
  /\ (Part0.currentObjIndex s <= Part0.objectiveCount s - 1)%nat
  /\ (Part0.isLoading s = true ->
      Part0.gameState s = briefingState /\ Part0.currentObjIndex s = 0%nat).
Proof.
  induction 1 as [env|ev s Hr (He & (k & Hk & Hh) & Hf & Hi & Hl)].
  - simpl. unfold Part0.MAX_PLAYER_HEALTH.
    splits; auto; try tauto; try lia. exists 0%nat. split; lia.
  - destruct ev as [env reply| |x y|env|env]; simpl.
    + destruct (Part0.isLoading s) eqn:Hload;
        [|splits; auto; try tauto; try (exists k; auto); try congruence].
      destruct (part0_generateMission_effect env reply s)
        as (G1 & G2 & G3 & G4 & G5).
      destruct (Hl eq_refl) as (Hb & H0).
      rewrite G1, G2, G3, G4, H0.
      splits; auto; try tauto; try lia; try discriminate. exists k; auto.
    + destruct (isBriefing _ && _ && negb (Part0.isLoading s)) eqn:E;
        simpl; [|splits; auto; try tauto; exists k; auto].
      apply andb_true_iff in E. destruct E as (E1 & E2).
      apply andb_true_iff in E1. destruct E1 as (E0 & E1).
      splits; auto; try tauto; try tauto.
      * exists k; auto.
      * intros Hz. specialize (Hf Hz). rewrite Hf in E0. discriminate.
      * intros HL. rewrite HL in E2. discriminate.
    + splits; auto; try tauto; try tauto. exists k; auto.
    + destruct (Part0.gameState s) eqn:Hg;
        try (rewrite (part0_frame_idle env s)
               by (left; rewrite Hg; discriminate);
             rewrite ?Hg; splits; auto; try tauto; exists k; auto).
      destruct (Part0.mission s) as [m|] eqn:Hm;
        [|rewrite (part0_frame_idle env s) by (right; exact Hm);
          rewrite ?Hg; splits; auto; try tauto; exists k; auto].
      assert (Hm' : Part0.mission s <> None) by (rewrite Hm; discriminate).
      destruct (part0_frame_effect env s Hg Hm')
        as (F1 & F2 & F3 & F4 & F5 & F6).
      pose proof (roster_fires_once env _ He) as Hn.
      set (n := List.length (filter (fires 3000 env) (Part0.entities s))) in *.
      assert (Hpos : (0 < Part0.playerHealth s)%Z).
      { destruct (Z_lt_le_dec 0 (Part0.playerHealth s)) as [|Hz]; auto.
        specialize (Hf Hz). congruence. }
      unfold Part0.objectiveCount in *. rewrite F1, F2, F3, F5, F6.
      split; [|split; [|split; [|split]]].
      * destruct He as [->|He]; [left; reflexivity|right].
        apply (roster_sameKind _ _ He), Forall2_map_self.
        intros a. apply part0_updateEntity_sameKind.
      * exists (k + n)%nat. split; lia.
      * intros Hz. apply Z.leb_le in Hz. now rewrite Hz.
      * auto.
      * intros HL. destruct (Hl HL) as (Hb & _). congruence.
    + destruct (Part0.gameState s) eqn:Hg;
        try (rewrite (part0_handleShoot_idle env s)
               by (rewrite Hg; discriminate);
             rewrite ?Hg; splits; auto; try tauto; exists k; auto).
      destruct (part0_handleShoot_progress env s Hg)
        as (P1 & P2 & P3 & P4 & P5).
      pose proof (roster_one_satisfying env s He) as Hn.
      assert (Hpos : (0 < Part0.playerHealth s)%Z).
      { destruct (Z_lt_le_dec 0 (Part0.playerHealth s)) as [|Hz]; auto.
        specialize (Hf Hz). congruence. }
      unfold Part0.objectiveCount in *. rewrite P1, P3, P4, P5.
      split; [|split; [|split; [|split]]].
      * rewrite (part0_handleShoot_entities env s Hg).
        destruct He as [He|He].
        -- left. rewrite He. reflexivity.
        -- right. apply (roster_sameKind _ _ He).
           apply part0_forEachShoot_sameKind.
      * exists k; auto.
      * intros Hz. lia.
      * destruct (_ <=? _)%nat eqn:E; auto.
        apply Nat.leb_gt in E. lia.
      * intros HL. destruct (Hl HL) as (Hb & _). congruence.
Qed.

(** ** Health and the failure transition *)

Lemma index_failure_absorbing (ev : Index.Event) (s : Index.State) :
  Index.gameState s = failure -> Index.gameState (Index.step ev s) = failure.
Proof.
  intros Hg. unfold Index.step. destruct (Index.halted s); [exact Hg|].
  destruct ev as [env reply| |x y|env|env|].
  - destruct (Index.isLoading s); [|exact Hg].
    destruct (index_generateMission_effect env reply s) as (_ & _ & G & _).
    now rewrite G.
  - rewrite Hg. simpl. exact Hg.
  - exact Hg.
  - rewrite (index_frame_idle env s) by (left; rewrite Hg; discriminate).
    exact Hg.
  - rewrite (index_handleShoot_idle env s) by (rewrite Hg; discriminate).
    exact Hg.
  - unfold Index.fireTimer. destruct (Index.timers s); exact Hg.
Qed.

Lemma part0_failure_absorbing (ev : Part0.Event) (s : Part0.State) :
  Part0.gameState s = failure -> Part0.gameState (Part0.step ev s) = failure.
Proof.
  intros Hg. destruct ev as [env reply| |x y|env|env]; simpl.
  - destruct (Part0.isLoading s); [|exact Hg].
    destruct (part0_generateMission_effect env reply s) as (_ & _ & G & _).
    now rewrite G.
  - rewrite Hg. simpl. exact Hg.
  - exact Hg.
  - rewrite (part0_frame_idle env s) by (left; rewrite Hg; discriminate).
    exact Hg.
  - rewrite (part0_handleShoot_idle env s) by (rewrite Hg; discriminate).
    exact Hg.
Qed.

(** In [index.tsx] the frame that starts with no health left ends the game
    and announces it. *)
Lemma index_failure_trigger (env : Env) (s : Index.State) :
  Index.Reachable s ->
  Index.halted s = false ->
  Index.gameState s = playing ->
  (Index.playerHealth s <= 0)%Z ->
  Index.gameState (Index.step (Index.Frame env) s) = failure
  /\ Index.spoken (Index.step (Index.Frame env) s)
     = Index.spoken s ++ ["Agent neutralized. Mission failed."]
  /\ Index.halted (Index.step (Index.Frame env) s) = false.
Proof.
  intros Hr Hhalt Hg Hz.
  destruct (index_reachable_inv s Hr) as (Hh & Hi & Hl & Hj).
  specialize (Hj Hhalt).
  assert (Hc : Index.objectiveCount s <> 0%nat) by (intros Hc; specialize (Hj Hc); lia).
  assert (Hobj : isSome (Index.currentObj s) = true
                 /\ isSome (Index.mission s) = true).
  { unfold Index.currentObj, Index.objectiveCount in *.
    destruct (Index.mission s) as [m|]; [|congruence].
    destruct (nth_error (objectives m) (Index.currentObjIndex s)) eqn:En;
      [simpl; auto|].
    apply nth_error_None in En. lia. }
  destruct Hobj as (Ho & Hm).
  unfold Index.step. rewrite Hhalt.
  destruct (index_frame_effect env s) as (_ & _ & _ & _ & F5 & F6 & F7).
  rewrite F5, F6, F7, Hg, Ho, Hm, Hhalt.
  apply Z.leb_le in Hz. rewrite Hz. simpl. auto.
Qed.

(** X24. In every reachable state of either version the player's health
    lies between 0 and the maximum 100.  In [index.tsx] every deduction is
    floored at 0; in [part_000] a game that is still being played has at
    least 10 health left, so a deduction never goes below 0.  A frame of
    [index.tsx] that starts with no health left sets the game state to
    [failure] and announces it once; in [part_000] no reachable state has
    health 0 and another game state than [failure].  After that a frame
    changes nothing, and no event leaves [failure]. *)
Theorem health_bounded_failure_once :
  (forall s, Index.Reachable s ->
     (0 <= Index.playerHealth s <= Index.MAX_PLAYER_HEALTH)%Z)
  /\ (forall s, Part0.Reachable s ->
     (0 <= Part0.playerHealth s <= Part0.MAX_PLAYER_HEALTH)%Z)
  /\ (forall env ent s, fires 2000 env ent = true ->
     Index.playerHealth (snd (Index.updateEntity env ent s))
     = Z.max 0 (Index.playerHealth s - 10))
  /\ (forall s, Part0.Reachable s -> Part0.gameState s = playing ->
     (10 <= Part0.playerHealth s)%Z)
  /\ (forall env s,
     Index.Reachable s -> Index.halted s = false ->
     Index.gameState s = playing -> (Index.playerHealth s <= 0)%Z ->
     Index.gameState (Index.step (Index.Frame env) s) = failure
     /\ Index.spoken (Index.step (Index.Frame env) s)
        = Index.spoken s ++ ["Agent neutralized. Mission failed."])
  /\ (forall s, Part0.Reachable s -> (Part0.playerHealth s <= 0)%Z ->
     Part0.gameState s = failure)
  /\ (forall env s, Index.gameState s = failure ->
     Index.step (Index.Frame env) s = s)
  /\ (forall env s, Part0.gameState s = failure ->
     Part0.step (Part0.Frame env) s = s)
  /\ (forall ev s, Index.gameState s = failure ->
     Index.gameState (Index.step ev s) = failure)
  /\ (forall ev s, Part0.gameState s = failure ->
     Part0.gameState (Part0.step ev s) = failure).
Proof.
  splits.
  - intros s Hr. destruct (index_reachable_inv s Hr) as (Hh & _).
    unfold Index.MAX_PLAYER_HEALTH. exact Hh.
  - intros s Hr.
    destruct (part0_reachable_inv s Hr) as (_ & (k & Hk & Hh) & _).
    unfold Part0.MAX_PLAYER_HEALTH. lia.
  - intros env ent s Hf.
    destruct (index_updateEntity_state env ent s) as (_ & _ & _ & _ & H).
    now rewrite H, Hf.
  - intros s Hr Hg.
    destruct (part0_reachable_inv s Hr) as (_ & (k & Hk & Hh) & Hf & _).
    destruct (Z_lt_le_dec 0 (Part0.playerHealth s)) as [Hp|Hz]; [lia|].
    specialize (Hf Hz). congruence.
  - intros env s Hr Hh Hg Hz.
    destruct (index_failure_trigger env s Hr Hh Hg Hz) as (H1 & H2 & _). auto.
  - intros s Hr Hz. now apply (part0_reachable_inv s Hr).
  - intros env s Hg. unfold Index.step.
    destruct (Index.halted s); [reflexivity|].
    now rewrite (index_frame_idle env s) by (left; rewrite Hg; discriminate).
  - intros env s Hg. simpl.
    now rewrite (part0_frame_idle env s) by (left; rewrite Hg; discriminate).
  - intros ev s. apply index_failure_absorbing.
  - intros ev s. apply part0_failure_absorbing.
Qed.

(** ** The objective index over whole runs (C4) *)






(** ** A failed mission request (C5) *)

Lemma index_no_mission_stuck (evs : list Index.Event) :
  forall s,
    Index.mission s = None -> Index.gameState s = briefingState ->
    Index.isLoading s = false ->
    Index.mission (Index.run evs s) = None
    /\ Index.gameState (Index.run evs s) = briefingState.
Proof.
  unfold Index.run.
  induction evs as [|ev evs IH]; intros s Hm Hg Hl; simpl; [auto|].
  apply IH; unfold Index.step; destruct (Index.halted s); auto;
    destruct ev as [env reply| |x y|env|env|]; rewrite ?Hl, ?Hm, ?Hg; simpl;
    auto;
    try (rewrite (index_frame_idle env s) by (left; rewrite Hg; discriminate);
         auto);
    try (rewrite (index_handleShoot_idle env s) by (rewrite Hg; discriminate);
         auto);
    unfold Index.fireTimer; destruct (Index.timers s); simpl; auto.
Qed.

(** What [part_000] does with a failed request: the fallback mission is
    installed, the roster is spawned and the game can be started. *)
Lemma part0_failed_request_installs_fallback (env : Env) (reply : Reply) :
  reply = Rejected \/ reply = Unparsable
  \/ (exists data, reply = Parsed data /\ objectives data = []) ->
  let s := Part0.step (Part0.Loaded env reply) (Part0.initial env) in
  Part0.mission s = Some Part0.fallback
  /\ Part0.isLoading s = false
  /\ Part0.entities s
     = Part0.entities (Part0.spawnEntities env (Part0.initial env))
  /\ List.length (objectives Part0.fallback) = 2%nat
  /\ Part0.gameState (Part0.step Part0.Commence s) = playing.
Proof.
  intros [->|[->|(data & -> & Hd)]]; cbv zeta; simpl;
    unfold Part0.generateMission; rewrite ?Hd; simpl; splits; reflexivity.
Qed.

(** C5 (the code of [index.tsx] at a failed request).  When the provider
    rejects the request or answers with text that is not JSON, [index.tsx]
    only clears the loading flag: no mission is installed and no entity is
    spawned, and whatever happens afterwards the game stays in the
    briefing state without a mission. *)
Theorem index_failed_request_no_fallback :
  forall env reply,
    reply = Rejected \/ reply = Unparsable ->
    let s := Index.step (Index.Loaded env reply) Index.initial in
    Index.mission s = None
    /\ Index.entities s = []
    /\ Index.isLoading s = false
    /\ (forall evs,
          Index.mission (Index.run evs s) = None
          /\ Index.gameState (Index.run evs s) = briefingState).
Proof.
  intros env reply [->| ->]; cbv zeta; simpl; splits; auto;
    intros evs; apply index_no_mission_stuck; reflexivity.
Qed.

(** ** What a frame does to one entity *)

Lemma index_updateEntity_living (env : Env) (ent : Entity) (s : Index.State) :
  ent_isDead ent = false ->
  let ent' := fst (Index.updateEntity env ent s) in
  ent_isDead ent' = false
  /\ sameKind ent ent'
  /\ ent_speed ent' = ent_speed ent /\ ent_offset ent' = ent_offset ent
  /\ ent_x ent' = ent_x (Index.behave (elapsed env) ent)
  /\ ent_y ent' = ent_y ent
  /\ ent_z ent' = ent_z (Index.behave (elapsed env) ent)
  /\ ent_lastFireTime ent'
     = (if fires 2000 env ent then now env else ent_lastFireTime ent).
Proof.
  intros Hd. cbv zeta.
  destruct (index_behave_fixed (elapsed env) ent) as (Hk & Hd' & Hl).
  assert (Hs : ent_speed (Index.behave (elapsed env) ent) = ent_speed ent
               /\ ent_offset (Index.behave (elapsed env) ent) = ent_offset ent
               /\ ent_y (Index.behave (elapsed env) ent) = ent_y ent).
  { unfold Index.behave. destruct (ent_behavior ent); simpl;
      try destruct (Rltb _ _); simpl; auto. }
  destruct Hs as (Hs & Ho & Hy).
  pose proof Hk as (_ & _ & _ & Hh & _).
  unfold Index.updateEntity, Index.returnFire, fires.
  rewrite Hd, Hh, Hl. simpl.
  destruct (ent_isHostile ent && (2000 <? now env - ent_lastFireTime ent)%Z);
    simpl; splits; auto; try congruence;
    unfold sameKind in *; simpl; tauto.
Qed.

Lemma part0_updateEntity_living (env : Env) (ent : Entity) (s : Part0.State) :
  ent_isDead ent = false ->
  let ent' := fst (Part0.updateEntity env ent s) in
  ent_isDead ent' = false
  /\ sameKind ent ent'
  /\ ent_speed ent' = ent_speed ent /\ ent_offset ent' = ent_offset ent
  /\ ent_x ent' = ent_x (Part0.behave (elapsed env) ent)
  /\ ent_y ent' = ent_y ent
  /\ ent_z ent' = ent_z (Part0.behave (elapsed env) ent)
  /\ ent_lastFireTime ent'
     = (if fires 3000 env ent then now env else ent_lastFireTime ent).
Proof.
  intros Hd. cbv zeta.
  destruct (part0_behave_fixed (elapsed env) ent) as (Hk & Hd' & Hl).
  assert (Hs : ent_speed (Part0.behave (elapsed env) ent) = ent_speed ent
               /\ ent_offset (Part0.behave (elapsed env) ent) = ent_offset ent
               /\ ent_y (Part0.behave (elapsed env) ent) = ent_y ent).
  { unfold Part0.behave. destruct (ent_behavior ent) eqn:Hb; simpl;
      rewrite ?Hb; simpl; auto. }
  destruct Hs as (Hs & Ho & Hy).
  pose proof Hk as (_ & _ & _ & Hh & _).
  unfold Part0.updateEntity, Part0.returnFire, fires.
  rewrite Hd, Hh, Hl. simpl.
  destruct (ent_isHostile ent && (3000 <? now env - ent_lastFireTime ent)%Z);
    simpl; splits; auto; try congruence;
    unfold sameKind in *; simpl; tauto.
Qed.

Lemma index_updateEntity_dead (env : Env) (ent : Entity) (s : Index.State) :
  ent_isDead ent = true -> Index.updateEntity env ent s = (ent, s).
Proof.
  intros Hd. unfold Index.updateEntity. rewrite Hd. simpl.
  destruct (negb (isBarrel (ent_type ent))); reflexivity.
Qed.

Lemma part0_updateEntity_dead (env : Env) (ent : Entity) (s : Part0.State) :
  ent_isDead ent = true -> Part0.updateEntity env ent s = (ent, s).
Proof.
  intros Hd. unfold Part0.updateEntity. rewrite Hd. simpl.
  destruct (negb (isBarrel (ent_type ent))); reflexivity.
Qed.

(** The entities after one frame of [index.tsx]. *)
Lemma index_frame_entities (env : Env) (s : Index.State) :
  Index.gameState s = playing -> Index.mission s <> None ->
  Index.entities (Index.outcomeState (Index.frame env s))
  = map (fun e => fst (Index.updateEntity env e s)) (Index.entities s).
Proof.
  intros Hg Hm. unfold Index.frame. rewrite Hg.
  destruct (Index.mission s) as [m|]; [|contradiction].
  unfold Index.render.
  set (s2 := Index.set_draws _ _).
  pose proof (index_forEachEntity_fst env s (Index.entities s2) s2) as Hf.
  destruct (Index.forEachEntity env (Index.entities s2) s2) as [es s3].
  simpl in Hf.
  destruct (nth_error (objectives m) (Index.currentObjIndex s)); simpl;
    [destruct (Index.playerHealth s <=? 0)%Z; simpl|]; exact Hf.
Qed.

(** ** Particles (C7) *)

Lemma aged_iter_life (n : nat) (p : Particle) :
  p_life (Nat.iter n aged p) = p_life p - INR n * 0.02.
Proof.
  induction n as [|n IH].
  - simpl. lra.
  - rewrite S_INR. simpl. rewrite IH. lra.
Qed.

Lemma index_advance_app (a b : list Particle) :
  Index.advanceParticles (a ++ b)
  = Index.advanceParticles a ++ Index.advanceParticles b.
Proof. unfold Index.advanceParticles. now rewrite filter_app, map_app. Qed.

Lemma part0_advance_app (a b : list Particle) :
  Part0.advanceParticles (a ++ b)
  = Part0.advanceParticles a ++ Part0.advanceParticles b.
Proof. unfold Part0.advanceParticles. now rewrite map_app, filter_app. Qed.

Lemma index_advance_single (p : Particle) :
  Index.advanceParticles [p] = if Rltb 0 (p_life p) then [aged p] else [].
Proof.
  unfold Index.advanceParticles. simpl. destruct (Rltb 0 (p_life p)); reflexivity.
Qed.

Lemma part0_advance_single (p : Particle) :
  Part0.advanceParticles [p]
  = if Rltb 0 (p_life p - 0.02) then [aged p] else [].
Proof.
  unfold Part0.advanceParticles. simpl.
  destruct (Rltb 0 (p_life p - 0.02)); reflexivity.
Qed.

(** After a frame of [part_000] every particle left has positive life. *)
Lemma part0_advance_alive (ps : list Particle) :
  Forall (fun p => 0 < p_life p) (Part0.advanceParticles ps).
Proof.
  unfold Part0.advanceParticles. apply Forall_forall. intros p Hp.
  apply filter_In in Hp. destruct Hp as (_ & Hp). now apply Rltb_true_iff.
Qed.

(** In [part_000] a particle of life [L] is in the list after [n] frames
    exactly when [L - n * 0.02] is still positive. *)
Lemma part0_particle_lifetime (p : Particle) (n : nat) :
  0 < p_life p ->
  Nat.iter n Part0.advanceParticles [p]
  = if Rltb 0 (p_life p - INR n * 0.02) then [Nat.iter n aged p] else [].
Proof.
  intros Hp. induction n as [|n IH].
  - simpl. replace (p_life p - 0 * 0.02) with (p_life p) by lra.
    apply (Rltb_true_iff 0) in Hp. now rewrite Hp.
  - change (Nat.iter (S n) Part0.advanceParticles [p])
      with (Part0.advanceParticles (Nat.iter n Part0.advanceParticles [p])).
    change (Nat.iter (S n) aged p) with (aged (Nat.iter n aged p)).
    rewrite IH, S_INR.
    destruct (Rltb 0 (p_life p - INR n * 0.02)) eqn:E.
    + rewrite part0_advance_single, aged_iter_life.
      replace (p_life p - INR n * 0.02 - 0.02)
        with (p_life p - (INR n + 1) * 0.02) by lra.
      reflexivity.
    + apply Rltb_false_iff in E.
      assert (E' : Rltb 0 (p_life p - (INR n + 1) * 0.02) = false).
      { apply Rltb_false_iff. lra. }
      now rewrite E'.
Qed.

(** In [index.tsx] the filter sees the life of the frame before: the
    particle is still in the list after frame [n + 1] when [L - n * 0.02]
    was positive. *)
Lemma index_particle_lifetime (p : Particle) (n : nat) :
  Nat.iter (S n) Index.advanceParticles [p]
  = if Rltb 0 (p_life p - INR n * 0.02) then [Nat.iter (S n) aged p] else [].
Proof.
  induction n as [|n IH].
  - simpl. rewrite index_advance_single.
    replace (p_life p - 0 * 0.02) with (p_life p) by lra. reflexivity.
  - change (Nat.iter (S (S n)) Index.advanceParticles [p])
      with (Index.advanceParticles (Nat.iter (S n) Index.advanceParticles [p])).
    rewrite IH, (S_INR n).
    destruct (Rltb 0 (p_life p - INR n * 0.02)) eqn:E.
    + rewrite index_advance_single, aged_iter_life, S_INR. reflexivity.
    + apply Rltb_false_iff in E.
      assert (E' : Rltb 0 (p_life p - (INR n + 1) * 0.02) = false).
      { apply Rltb_false_iff. lra. }
      now rewrite E'.
Qed.

(** C7 (the code of [index.tsx] at a fresh particle).  A particle starts
    with life 1 and loses 0.02 per frame, so its life is 0 after 50
    frames.  In [index.tsx] it is still in the list then, with life 0, and
    the 51st frame removes it; in [part_000] the 50th frame removes it. *)
Theorem index_spent_particle_lingers :
  forall x y vx vy color size,
    let p := mkParticle x y vx vy 1 color size in
    (exists q, Nat.iter 50 Index.advanceParticles [p] = [q] /\ p_life q = 0)
    /\ Nat.iter 51 Index.advanceParticles [p] = []
    /\ Nat.iter 50 Part0.advanceParticles [p] = [].
Proof.
  intros x y vx vy color size p.
  assert (H49 : INR 49 = 49) by (rewrite INR_IZR_INZ; reflexivity).
  assert (H50 : INR 50 = 50) by (rewrite INR_IZR_INZ; reflexivity).
  splits.
  - exists (Nat.iter 50 aged p). split.
    + rewrite (index_particle_lifetime p 49), H49.
      assert (E : Rltb 0 (p_life p - 49 * 0.02) = true).
      { apply Rltb_true_iff. simpl. lra. }
      now rewrite E.
    + rewrite aged_iter_life, H50. simpl. lra.
  - rewrite (index_particle_lifetime p 50), H50.
    assert (E : Rltb 0 (p_life p - 50 * 0.02) = false).
    { apply Rltb_false_iff. simpl. lra. }
    now rewrite E.
  - rewrite (part0_particle_lifetime p 50) by (simpl; lra). rewrite H50.
    assert (E : Rltb 0 (p_life p - 50 * 0.02) = false).
    { apply Rltb_false_iff. simpl. lra. }
    now rewrite E.
Qed.

(** ** Pacing *)

Lemma index_pacing_step (env : Env) (ent : Entity) (s : Index.State) :
  ent_isDead ent = false -> ent_behavior ent = pacing ->
  ent_x (fst (Index.updateEntity env ent s))
  = ent_x ent + sin (elapsed env + ent_offset ent) * ent_speed ent.
Proof.
  intros Hd Hb.
  destruct (index_updateEntity_living env ent s Hd)
    as (_ & _ & _ & _ & Hx & _).
  rewrite Hx. unfold Index.behave. rewrite Hb. reflexivity.
Qed.

Lemma part0_pacing_step (env : Env) (ent : Entity) (s : Part0.State) :
  ent_isDead ent = false -> ent_behavior ent = pacing ->
  ent_x (fst (Part0.updateEntity env ent s))
  = ent_x ent + sin (elapsed env + ent_offset ent) * ent_speed ent.
Proof.
  intros Hd Hb.
  destruct (part0_updateEntity_living env ent s Hd)
    as (_ & _ & _ & _ & Hx & _).
  rewrite Hx. unfold Part0.behave. rewrite Hb. simpl. rewrite Hb. reflexivity.
Qed.

Lemma sine_step_bound (a v : R) : Rabs (sin a * v) <= Rabs v.
Proof.
  rewrite Rabs_mult.
  assert (H : Rabs (sin a) <= 1).
  { apply Rabs_le. destruct (SIN_bound a). lra. }
  pose proof (Rabs_pos v). nra.
Qed.

Lemma index_pacing_band (envs : list Env) :
  forall ent,
    ent_isDead ent = false -> ent_behavior ent = pacing ->
    Rabs (ent_x (index_entityAfter envs ent) - ent_x ent)
    <= INR (List.length envs) * Rabs (ent_speed ent).
Proof.
  unfold index_entityAfter.
  induction envs as [|env envs IH]; intros ent Hd Hb.
  - simpl. rewrite Rminus_diag, Rabs_R0. lra.
  - cbn [fold_left List.length]. rewrite S_INR.
    destruct (index_updateEntity_living env ent Index.initial Hd)
      as (Hd' & (_ & _ & Hb' & _) & Hs & _).
    cbv zeta in *.
    set (ent' := fst (Index.updateEntity env ent Index.initial)) in *.
    specialize (IH ent' Hd' (eq_trans Hb' Hb)).
    rewrite Hs in IH.
    pose proof (index_pacing_step env ent Index.initial Hd Hb) as Hx.
    fold ent' in Hx.
    pose proof (sine_step_bound (elapsed env + ent_offset ent) (ent_speed ent)).
    replace (ent_x (fold_left _ envs ent') - ent_x ent)
      with ((ent_x (fold_left
                      (fun e env0 => fst (Index.updateEntity env0 e Index.initial))
                      envs ent') - ent_x ent')
            + sin (elapsed env + ent_offset ent) * ent_speed ent)
      by (rewrite Hx; ring).
    eapply Rle_trans; [apply Rabs_triang|]. lra.
Qed.

Lemma part0_pacing_band (envs : list Env) :
  forall ent,
    ent_isDead ent = false -> ent_behavior ent = pacing ->
    Rabs (ent_x (part0_entityAfter envs ent) - ent_x ent)
    <= INR (List.length envs) * Rabs (ent_speed ent).
Proof.
  unfold part0_entityAfter.
  induction envs as [|env envs IH]; intros ent Hd Hb.
  - simpl. rewrite Rminus_diag, Rabs_R0. lra.
  - cbn [fold_left List.length]. rewrite S_INR.
    destruct (part0_updateEntity_living env ent (Part0.initial env) Hd)
      as (Hd' & (_ & _ & Hb' & _) & Hs & _).
    cbv zeta in *.
    set (ent' := fst (Part0.updateEntity env ent (Part0.initial env))) in *.
    specialize (IH ent' Hd' (eq_trans Hb' Hb)).
    rewrite Hs in IH.
    pose proof (part0_pacing_step env ent (Part0.initial env) Hd Hb) as Hx.
    fold ent' in Hx.
    pose proof (sine_step_bound (elapsed env + ent_offset ent) (ent_speed ent)).
    replace (ent_x (fold_left _ envs ent') - ent_x ent)
      with ((ent_x (fold_left
                      (fun e env0 =>
                         fst (Part0.updateEntity env0 e (Part0.initial env0)))
                      envs ent') - ent_x ent')
            + sin (elapsed env + ent_offset ent) * ent_speed ent)
      by (rewrite Hx; ring).
    eapply Rle_trans; [apply Rabs_triang|]. lra.
Qed.

Lemma sin_1_pos : 0 < sin 1.
Proof.
  apply sin_gt_0; [lra|]. pose proof PI2_1. lra.
Qed.

Lemma pacer_drift (envs : list Env) :
  forall ent,
    Forall (fun env => elapsed env = 0) envs ->
    ent_isDead ent = false -> ent_behavior ent = pacing ->
    ent_offset ent = 1 / 10 * 10 -> ent_speed ent = 2 ->
    ent_x (index_entityAfter envs ent)
    = ent_x ent + INR (List.length envs) * (sin 1 * 2).
Proof.
  unfold index_entityAfter.
  induction envs as [|env envs IH]; intros ent Hall Hd Hb Ho Hs.
  - simpl. lra.
  - cbn [fold_left List.length]. rewrite S_INR.
    inversion Hall as [|? ? He Hall']; subst.
    destruct (index_updateEntity_living env ent Index.initial Hd)
      as (Hd' & (_ & _ & Hb' & _) & Hs' & Ho' & _).
    cbv zeta in *.
    pose proof (index_pacing_step env ent Index.initial Hd Hb) as Hx.
    set (ent' := fst (Index.updateEntity env ent Index.initial)) in *.
    rewrite (IH ent' Hall' Hd' (eq_trans Hb' Hb) (eq_trans Ho' Ho)
               (eq_trans Hs' Hs)).
    rewrite Hx, He, Ho, Hs.
    replace (0 + 1 / 10 * 10) with 1 by lra. ring.
Qed.

Lemma restartedFrames_elapsed (n : nat) :
  Forall (fun env => elapsed env = 0) (restartedFrames n)
  /\ List.length (restartedFrames n) = n.
Proof.
  unfold restartedFrames. split.
  - apply Forall_forall. intros env Hin. apply in_map_iff in Hin.
    destruct Hin as (k & <- & _). unfold elapsed. simpl.
    rewrite Z.sub_diag. unfold Rdiv. apply Rmult_0_l.
  - now rewrite length_map, length_seq.
Qed.

(** The target of the scenario is the one [Index.spawnEntities] builds. *)
Lemma pacer_spawned (data : Mission) :
  nth_error
    (Index.entities
       (Index.step (Index.Loaded envPace (Parsed data)) Index.initial)) 0
  = Some pacer.
Proof.
  unfold Index.step, Index.generateMission. simpl.
  destruct (objectives data); reflexivity.
Qed.

(** C8 (the code of [index.tsx] at the spawned primary target).  Every
    frame of [index.tsx] is rendered at elapsed time 0, because its effect
    is restarted by the particle update of the frame before.  The target,
    spawned with phase 1, therefore moves by [2 * sin 1 > 0] in every frame
    and always in the same direction: no band around its spawn position
    contains it for all time. *)
Lemma pacing_leaves_every_band :
  ~ exists B : R, forall n : nat,
      Rabs (ent_x (index_entityAfter (restartedFrames n) pacer) - ent_x pacer)
      <= B.
Proof.
  intros (B & HB).
  pose proof sin_1_pos as Hs.
  destruct (INR_archimed (sin 1 * 2) B) as (n & Hn); [lra|].
  specialize (HB n).
  destruct (restartedFrames_elapsed n) as (Hall & Hlen).
  rewrite (pacer_drift (restartedFrames n) pacer Hall) in HB by reflexivity.
  rewrite Hlen in HB.
  replace (ent_x pacer + INR n * (sin 1 * 2) - ent_x pacer)
    with (INR n * (sin 1 * 2)) in HB by ring.
  rewrite Rabs_right in HB; [lra|].
  apply Rle_ge. apply Rmult_le_pos; [apply pos_INR|lra].
Qed.

(** The step of one frame.  In both versions a frame adds
    [sin (time + offset) * speed] to the [x] of a living pacing entity:
    the sine gives the step, not the position.  So [x] changes by at most
    [|speed|] per frame, and after [n] frames it is within [n * |speed|]
    of where it started. *)
Theorem pacing_step_is_bounded_sine :
  (forall env ent s,
     ent_isDead ent = false -> ent_behavior ent = pacing ->
     ent_x (fst (Index.updateEntity env ent s))
     = ent_x ent + sin (elapsed env + ent_offset ent) * ent_speed ent
     /\ Rabs (ent_x (fst (Index.updateEntity env ent s)) - ent_x ent)
        <= Rabs (ent_speed ent))
  /\ (forall env ent s,
     ent_isDead ent = false -> ent_behavior ent = pacing ->
     ent_x (fst (Part0.updateEntity env ent s))
     = ent_x ent + sin (elapsed env + ent_offset ent) * ent_speed ent
     /\ Rabs (ent_x (fst (Part0.updateEntity env ent s)) - ent_x ent)
        <= Rabs (ent_speed ent))
  /\ (forall envs ent,
     ent_isDead ent = false -> ent_behavior ent = pacing ->
     Rabs (ent_x (index_entityAfter envs ent) - ent_x ent)
     <= INR (List.length envs) * Rabs (ent_speed ent))
  /\ (forall envs ent,
     ent_isDead ent = false -> ent_behavior ent = pacing ->
     Rabs (ent_x (part0_entityAfter envs ent) - ent_x ent)
     <= INR (List.length envs) * Rabs (ent_speed ent)).
Proof.
  splits.
  - intros env ent s Hd Hb. rewrite (index_pacing_step env ent s Hd Hb).
    split; [reflexivity|].
    replace (ent_x ent + sin (elapsed env + ent_offset ent) * ent_speed ent
             - ent_x ent)
      with (sin (elapsed env + ent_offset ent) * ent_speed ent) by ring.
    apply sine_step_bound.
  - intros env ent s Hd Hb. rewrite (part0_pacing_step env ent s Hd Hb).
    split; [reflexivity|].
    replace (ent_x ent + sin (elapsed env + ent_offset ent) * ent_speed ent
             - ent_x ent)
      with (sin (elapsed env + ent_offset ent) * ent_speed ent) by ring.
    apply sine_step_bound.
  - intros envs ent. apply index_pacing_band.
  - intros envs ent. apply part0_pacing_band.
Qed.

(** ** Aim, timers and the chain reaction *)

Lemma index_forEachEntity_aim (env : Env) :
  forall es s,
    let s' := snd (Index.forEachEntity env es s) in
    Index.swayOffset s' = Index.swayOffset s
    /\ Index.mousePos s' = Index.mousePos s.
Proof.
  induction es as [|e es IH]; intros s; simpl; [auto|].
  assert (He : Index.swayOffset (snd (Index.updateEntity env e s))
               = Index.swayOffset s
               /\ Index.mousePos (snd (Index.updateEntity env e s))
                  = Index.mousePos s).
  { unfold Index.updateEntity, Index.returnFire.
    repeat match goal with |- context [if ?c then _ else _] => destruct c end;
      simpl; auto. }
  destruct (Index.updateEntity env e s) as [e' s1].
  specialize (IH s1).
  destruct (Index.forEachEntity env es s1) as [rest s2].
  simpl in *. destruct He as (E1 & E2). destruct IH as (I1 & I2).
  rewrite I1, I2. auto.
Qed.

Lemma part0_forEachEntity_aim (env : Env) :
  forall es s,
    let s' := snd (Part0.forEachEntity env es s) in
    Part0.swayOffset s' = Part0.swayOffset s
    /\ Part0.mousePos s' = Part0.mousePos s.
Proof.
  induction es as [|e es IH]; intros s; simpl; [auto|].
  assert (He : Part0.swayOffset (snd (Part0.updateEntity env e s))
               = Part0.swayOffset s
               /\ Part0.mousePos (snd (Part0.updateEntity env e s))
                  = Part0.mousePos s).
  { unfold Part0.updateEntity, Part0.returnFire.
    repeat match goal with |- context [if ?c then _ else _] => destruct c end;
      simpl; auto. }
  destruct (Part0.updateEntity env e s) as [e' s1].
  specialize (IH s1).
  destruct (Part0.forEachEntity env es s1) as [rest s2].
  simpl in *. destruct He as (E1 & E2). destruct IH as (I1 & I2).
  rewrite I1, I2. auto.
Qed.

(** The aim point after a frame: the sway computed by that frame. *)
Lemma index_frame_aim (env : Env) (s : Index.State) :
  Index.gameState s = playing -> Index.mission s <> None ->
  let s' := Index.outcomeState (Index.frame env s) in
  let heartbeat := 0.5 + sin (elapsed env * 2.5) * 0.2 in
  Index.swayOffset s'
  = (sin (elapsed env * 0.7) * 12 * heartbeat
     + (random env (Index.draws s) - 0.5) * (Index.screenShake s * 0.9),
     cos (elapsed env * 1.1) * 8 * heartbeat
     + (random env (Index.draws s + 1)%nat - 0.5) * (Index.screenShake s * 0.9))
  /\ Index.mousePos s' = Index.mousePos s
  /\ Index.timers s' = Index.timers s.
Proof.
  intros Hg Hm. cbv zeta. unfold Index.frame. rewrite Hg.
  destruct (Index.mission s) as [m|]; [|contradiction].
  unfold Index.render.
  set (s2 := Index.set_draws _ _).
  pose proof (index_forEachEntity_aim env (Index.entities s2) s2) as Ha.
  pose proof (index_forEachEntity_log env (Index.entities s2) s2) as Hl.
  destruct (Index.forEachEntity env (Index.entities s2) s2) as [es s3].
  simpl in Ha, Hl. destruct Ha as (A1 & A2). destruct Hl as (_ & _ & L3).
  destruct (nth_error (objectives m) (Index.currentObjIndex s)); simpl;
    [destruct (Index.playerHealth s <=? 0)%Z; simpl|];
    rewrite A1, A2, L3; auto.
Qed.

Lemma part0_frame_aim (env : Env) (s : Part0.State) :
  Part0.gameState s = playing -> Part0.mission s <> None ->
  let s' := Part0.frame env s in
  let heartbeat := 0.5 + sin (elapsed env * 2.5) * 0.2 in
  Part0.swayOffset s'
  = (sin (elapsed env * 0.7) * 12 * heartbeat
     + (random env (Part0.draws s) - 0.5) * (Part0.screenShake s * 0.9),
     cos (elapsed env * 1.1) * 8 * heartbeat
     + (random env (Part0.draws s + 1)%nat - 0.5) * (Part0.screenShake s * 0.9))
  /\ Part0.mousePos s' = Part0.mousePos s.
Proof.
  intros Hg Hm. cbv zeta. unfold Part0.frame. rewrite Hg.
  destruct (Part0.mission s) as [m|]; [|contradiction].
  unfold Part0.render.
  set (s2 := Part0.set_draws _ _).
  pose proof (part0_forEachEntity_aim env (Part0.entities s2) s2) as Ha.
  destruct (Part0.forEachEntity env (Part0.entities s2) s2) as [es s3].
  simpl in Ha. destruct Ha as (A1 & A2).
  simpl. destruct (Part0.playerHealth s3 <=? 0)%Z; simpl;
    rewrite A1, A2; auto.
Qed.

(** A click leaves an entity it does not strike as it was. *)
Lemma index_shootEntity_spares (env : Env) (s0 : Index.State) (ent : Entity)
    (acc : bool * Index.State) :
  Index.struck env s0 ent = false ->
  Index.shootEntity env s0 ent acc = (ent, acc).
Proof.
  unfold Index.struck, Index.shootEntity. intros H. rewrite H.
  destruct (ent_isDead ent && negb (isBarrel (ent_type ent))); reflexivity.
Qed.

Lemma part0_shootEntity_spares (env : Env) (s0 : Part0.State) (ent : Entity)
    (acc : bool * Part0.State) :
  Part0.struck env s0 ent = false ->
  Part0.shootEntity env s0 ent acc = (ent, acc).
Proof.
  unfold Part0.struck, Part0.shootEntity. intros H.
  destruct (ent_isDead ent); [reflexivity|]. simpl in H. now rewrite H.
Qed.

Lemma index_click_spares (env : Env) (s : Index.State) (i : nat) (ent : Entity) :
  nth_error (Index.entities s) i = Some ent ->
  Index.struck env s ent = false ->
  nth_error (Index.entities (Index.handleShoot env s)) i = Some ent.
Proof.
  intros Hi Hs.
  destruct (Index.gameState s) eqn:Hg;
    try (rewrite (index_handleShoot_idle env s) by (rewrite Hg; discriminate);
         exact Hi).
  rewrite (index_handleShoot_entities env s Hg).
  set (s1 := Index.set_screenShake 10 _).
  destruct (index_mapShoot_nth env s1 _ (false, s1) i ent Hi) as [acc' H].
  rewrite H. now rewrite (index_shootEntity_spares env s1 ent acc').
Qed.

Lemma part0_click_spares (env : Env) (s : Part0.State) (i : nat) (ent : Entity) :
  nth_error (Part0.entities s) i = Some ent ->
  Part0.struck env s ent = false ->
  nth_error (Part0.entities (Part0.handleShoot env s)) i = Some ent.
Proof.
  intros Hi Hs.
  destruct (Part0.gameState s) eqn:Hg;
    try (rewrite (part0_handleShoot_idle env s) by (rewrite Hg; discriminate);
         exact Hi).
  rewrite (part0_handleShoot_entities env s Hg).
  set (s1 := Part0.set_screenShake 15 s).
  destruct (part0_forEachShoot_nth env s1 _ (false, s1) i ent Hi) as [acc' H].
  rewrite H. now rewrite (part0_shootEntity_spares env s1 ent acc').
Qed.

(** The timeouts queued by a click of [index.tsx]: one per struck barrel. *)
Lemma index_shootEntity_timers (env : Env) (s0 : Index.State) (ent : Entity)
    (h : bool) (s : Index.State) :
  Index.timers (snd (snd (Index.shootEntity env s0 ent (h, s))))
  = Index.timers s
    ++ (if Index.struck env s0 ent && isBarrel (ent_type ent) then [ent] else []).
Proof.
  unfold Index.shootEntity, Index.struck, Index.advanceObjective.
  destruct (ent_isDead ent); destruct (isBarrel (ent_type ent)) eqn:Hb;
    destruct (Index.isHit env s0 ent); simpl;
    rewrite ?app_nil_r; try reflexivity;
    destruct (Index.mission s0);
    repeat match goal with |- context [if ?c then _ else _] => destruct c end;
    simpl; rewrite ?app_nil_r; reflexivity.
Qed.

Lemma index_mapShoot_timers (env : Env) (s0 : Index.State) :
  forall es h s,
    Index.timers (snd (snd (Index.mapShoot env s0 es (h, s))))
    = Index.timers s
      ++ filter (fun e => Index.struck env s0 e && isBarrel (ent_type e)) es.
Proof.
  induction es as [|e es IH]; intros h s; simpl; [now rewrite app_nil_r|].
  pose proof (index_shootEntity_timers env s0 e h s) as He.
  destruct (Index.shootEntity env s0 e (h, s)) as [e' [h1 s1]].
  specialize (IH h1 s1).
  destruct (Index.mapShoot env s0 es (h1, s1)) as [rest [h2 s2]].
  simpl in *. rewrite IH, He.
  destruct (Index.struck env s0 e && isBarrel (ent_type e)); simpl;
    now rewrite <- app_assoc.
Qed.

Lemma index_handleShoot_timers (env : Env) (s : Index.State) :
  Index.gameState s = playing ->
  Index.timers (Index.handleShoot env s)
  = Index.timers s
    ++ filter (fun e => Index.struck env s e && isBarrel (ent_type e))
         (Index.entities s).
Proof.
  intros Hg. unfold Index.handleShoot. rewrite Hg. cbn [isPlaying negb].
  set (s1 := Index.set_screenShake 10 _).
  pose proof (index_mapShoot_timers env s1 (Index.entities s1) false s1) as H.
  destruct (Index.mapShoot env s1 (Index.entities s1) (false, s1))
    as [next [hit s2]].
  simpl in H. destruct hit; simpl; exact H.
Qed.

(** The chain reaction changes nothing but death flags, and sets the flag
    of exactly the entities with another id that are closer than 300 to
    the barrel in the plane of [x] and [y]. *)
Lemma chainReaction_nth (barrel : Entity) (es : list Entity) (i : nat)
    (other : Entity) :
  nth_error es i = Some other ->
  nth_error (Index.chainReaction barrel es) i
  = Some (if Rltb (hypot (ent_x barrel - ent_x other)
                     (ent_y barrel - ent_y other)) 300
             && negb (String.eqb (ent_id other) (ent_id barrel))
          then with_isDead true other else other).
Proof.
  intros H. unfold Index.chainReaction. now rewrite nth_error_map, H.
Qed.

Lemma hypot_lt (a b c : R) : 0 < c -> a * a + b * b < c * c -> hypot a b < c.
Proof.
  intros Hc H. unfold hypot.
  rewrite <- (sqrt_square c) by lra.
  apply sqrt_lt_1; nra.
Qed.

Lemma hypot_ge (a b c : R) : 0 <= c -> c * c <= a * a + b * b -> c <= hypot a b.
Proof.
  intros Hc H. unfold hypot.
  rewrite <- (sqrt_square c) at 1 by lra.
  apply sqrt_le_1; nra.
Qed.

(** ** The deferred chain reaction (C9) *)

Lemma elapsed_same_ms (env : Env) : now env = startTime env -> elapsed env = 0.
Proof.
  intros H. unfold elapsed. rewrite H, Z.sub_diag. unfold Rdiv.
  apply Rmult_0_l.
Qed.

Lemma index_step_frame (env : Env) (s : Index.State) :
  Index.halted s = false ->
  Index.step (Index.Frame env) s = Index.outcomeState (Index.frame env s).
Proof. intros H. unfold Index.step. now rewrite H. Qed.

Lemma index_step_click (env : Env) (s : Index.State) :
  Index.halted s = false ->
  Index.step (Index.Click env) s = Index.handleShoot env s.
Proof. intros H. unfold Index.step. now rewrite H. Qed.

Lemma index_step_timeout (s : Index.State) :
  Index.halted s = false -> Index.step Index.Timeout s = Index.fireTimer s.
Proof. intros H. unfold Index.step. now rewrite H. Qed.

Lemma depotReady_facts :
  Index.gameState depotReady = playing
  /\ Index.mission depotReady = Some sabotage
  /\ Index.currentObjIndex depotReady = 0%nat
  /\ Index.halted depotReady = false
  /\ Index.mousePos depotReady = (300, 300)
  /\ Index.screenShake depotReady = 0
  /\ Index.timers depotReady = []
  /\ Index.playerHealth depotReady = 100%Z
  /\ Index.entities depotReady
     = [ mkEntity "hvt-1" (400 + 1 / 2 * 800) (600 / 2) 800 2 HVT
           "The High Value Target" false pacing (0 * 10) 100 false 0;
         mkEntity "barrel-0" (1 / 2 * 600) (600 / 2 + 50) (600 + 0 * 400) 0
           Barrel "Explosive chemical drum" false static 0 1 false 0;
         mkEntity "barrel-1" (1 / 10 * 600) (600 / 2 + 50) (600 + 1 / 4 * 400) 0
           Barrel "Explosive chemical drum" false static 0 1 false 0;
         mkEntity "barrel-2" (3 / 10 * 600) (600 / 2 + 50) (600 + 1 / 2 * 400) 0
           Barrel "Explosive chemical drum" false static 0 1 false 0;
         mkEntity "barrel-3" (7 / 10 * 600) (600 / 2 + 50) (600 + 3 / 4 * 400) 0
           Barrel "Explosive chemical drum" false static 0 1 false 0;
         mkEntity "barrel-4" (9 / 10 * 600) (600 / 2 + 50) (600 + 1 / 2 * 400) 0
           Barrel "Explosive chemical drum" false static 0 1 false 0;
         mkEntity "guard-1" 200 (600 / 2) 700 1.5 Bodyguard
           "Elite security personnel" false flanking 0 100 true 0;
         mkEntity "intel-1" (600 / 2 + 100) (600 / 2 + 20) 650 0 Intel
           "Encrypted data drive" false static 0 10 false 0 ].
Proof. splits; reflexivity. Qed.

Lemma depotPlay_facts :
  Index.gameState depotPlay = playing
  /\ Index.mission depotPlay = Some sabotage
  /\ Index.currentObjIndex depotPlay = 0%nat
  /\ Index.halted depotPlay = false
  /\ Index.mousePos depotPlay = (300, 300)
  /\ Index.swayOffset depotPlay = (0, 4)
  /\ Index.timers depotPlay = [].
Proof.
  destruct depotReady_facts as (Hg & Hm & Hi & Hh & Hmouse & Hshake & Ht & Hp & _).
  assert (Hm' : Index.mission depotReady <> None) by (rewrite Hm; discriminate).
  unfold depotPlay. rewrite (index_step_frame envDepot depotReady Hh).
  destruct (index_frame_effect envDepot depotReady)
    as (F1 & F2 & _ & _ & F5 & F6 & _).
  destruct (index_frame_aim envDepot depotReady Hg Hm') as (A1 & A2 & A3).
  rewrite F1, F2, F5, F6, A1, A2, A3.
  unfold Index.currentObj. rewrite Hg, Hm, Hi, Hh, Hmouse, Hshake, Ht, Hp.
  split; [reflexivity|]. split; [reflexivity|]. split; [reflexivity|].
  split; [reflexivity|]. split; [reflexivity|]. split; [|reflexivity].
  rewrite (elapsed_same_ms envDepot eq_refl).
  rewrite !Rmult_0_l, sin_0, cos_0.
  f_equal; lra.
Qed.
Lemma index_updateEntity_inert (env : Env) (ent : Entity) (s : Index.State) :
  ent_behavior ent = static -> ent_isHostile ent = false ->
  fst (Index.updateEntity env ent s) = ent.
Proof.
  intros Hb Hh. unfold Index.updateEntity, Index.returnFire, Index.behave.
  rewrite Hb, Hh. simpl.
  destruct (ent_isDead ent); simpl; try reflexivity.
  destruct (negb (isBarrel (ent_type ent))); reflexivity.
Qed.

Lemma part0_updateEntity_inert (env : Env) (ent : Entity) (s : Part0.State) :
  ent_behavior ent = static -> ent_isHostile ent = false ->
  fst (Part0.updateEntity env ent s) = ent.
Proof.
  intros Hb Hh. unfold Part0.updateEntity, Part0.returnFire, Part0.behave.
  rewrite Hb. simpl. rewrite Hb, Hh. simpl.
  destruct (ent_isDead ent); simpl; try reflexivity.
  destruct (negb (isBarrel (ent_type ent))); reflexivity.
Qed.

(** The roster of the scenario after the first frame: the target and the
    guard have moved, the rest is as spawned. *)
Lemma depotPlay_entities :
  exists hvt1 guard1,
    Index.entities depotPlay
    = [ hvt1;
        mkEntity "barrel-0" (1 / 2 * 600) (600 / 2 + 50) (600 + 0 * 400) 0
          Barrel "Explosive chemical drum" false static 0 1 false 0;
        mkEntity "barrel-1" (1 / 10 * 600) (600 / 2 + 50) (600 + 1 / 4 * 400) 0
          Barrel "Explosive chemical drum" false static 0 1 false 0;
        mkEntity "barrel-2" (3 / 10 * 600) (600 / 2 + 50) (600 + 1 / 2 * 400) 0
          Barrel "Explosive chemical drum" false static 0 1 false 0;
        mkEntity "barrel-3" (7 / 10 * 600) (600 / 2 + 50) (600 + 3 / 4 * 400) 0
          Barrel "Explosive chemical drum" false static 0 1 false 0;
        mkEntity "barrel-4" (9 / 10 * 600) (600 / 2 + 50) (600 + 1 / 2 * 400) 0
          Barrel "Explosive chemical drum" false static 0 1 false 0;
        guard1;
        mkEntity "intel-1" (600 / 2 + 100) (600 / 2 + 20) 650 0 Intel
          "Encrypted data drive" false static 0 10 false 0 ]
    /\ (ent_type hvt1 = HVT /\ ent_isDead hvt1 = false
        /\ ent_x hvt1 = 800 /\ ent_y hvt1 = 300 /\ ent_z hvt1 = 800)
    /\ (ent_type guard1 = Bodyguard /\ ent_isDead guard1 = false
        /\ ent_id guard1 = "guard-1"
        /\ ent_x guard1 = 202 /\ ent_y guard1 = 300 /\ ent_z guard1 = 699.5).
Proof.
  destruct depotReady_facts as (Hg & Hm & _ & Hh & _ & _ & _ & _ & He).
  assert (Hm' : Index.mission depotReady <> None) by (rewrite Hm; discriminate).
  unfold depotPlay. rewrite (index_step_frame envDepot depotReady Hh).
  rewrite (index_frame_entities envDepot depotReady Hg Hm'), He.
  cbn [map].
  repeat match goal with
         | |- context [fst (Index.updateEntity envDepot ?e depotReady)] =>
             rewrite (index_updateEntity_inert envDepot e depotReady)
               by reflexivity
         end.
  do 2 eexists. split; [reflexivity|].
  split.
  - match goal with |- context [Index.updateEntity envDepot ?e depotReady] =>
      destruct (index_updateEntity_living envDepot e depotReady eq_refl)
        as (Hd & (_ & Ht & _) & _ & _ & Hx & Hy & Hz & _) end.
    cbv zeta in *. rewrite Ht, Hd, Hx, Hy, Hz.
    unfold Index.behave. simpl.
    rewrite (elapsed_same_ms envDepot eq_refl).
    replace (0 + 0 * 10) with 0 by lra. rewrite sin_0.
    splits; auto; lra.
  - match goal with |- context [Index.updateEntity envDepot ?e depotReady] =>
      destruct (index_updateEntity_living envDepot e depotReady eq_refl)
        as (Hd & (Hi & Ht & _) & _ & _ & Hx & Hy & Hz & _) end.
    cbv zeta in *. rewrite Ht, Hd, Hi, Hx, Hy, Hz.
    unfold Index.behave. simpl.
    rewrite (elapsed_same_ms envDepot eq_refl).
    assert (E : Rltb (700 - 0.5) 400 = false) by (apply Rltb_false_iff; lra).
    rewrite E. simpl. rewrite Rmult_0_l, cos_0.
    splits; auto; lra.
Qed.

Ltac hit_false :=
  apply andb_false_iff; (left + right); apply Rltb_false_iff;
  rewrite Rabs_lt_iff; lra.

Ltac hit_true :=
  apply andb_true_iff; split; apply Rltb_true_iff; rewrite Rabs_lt_iff; lra.

(** The click of the scenario strikes the first barrel only; it completes
    the only objective, and the chain reaction of the barrel is pending. *)
Lemma depotShot_facts :
  Index.gameState depotShot = success
  /\ Index.halted depotShot = false
  /\ Index.timers depotShot
     = [ mkEntity "barrel-0" (1 / 2 * 600) (600 / 2 + 50) (600 + 0 * 400) 0
           Barrel "Explosive chemical drum" false static 0 1 false 0 ]
  /\ exists guard1,
       nth_error (Index.entities depotShot) 6 = Some guard1
       /\ ent_isDead guard1 = false /\ ent_id guard1 = "guard-1"
       /\ ent_x guard1 = 202 /\ ent_y guard1 = 300.
Proof.
  destruct depotPlay_facts as (Hg & Hm & Hi & Hh & Hmouse & Hsway & Ht).
  destruct depotPlay_entities
    as (hvt1 & guard1 & He & (T1 & D1 & X1 & Y1 & Z1)
        & (T2 & D2 & I2 & X2 & Y2 & Z2)).
  unfold depotShot. rewrite (index_step_click envDepot depotPlay Hh).
  assert (Hhit : forall e,
             Index.isHit envDepot depotPlay e
             = Rltb (Rabs (600 / 2 + 0
                           - (ent_x e - (300 - 600 / 2) * (1 - 400 / ent_z e))))
                  (25 * (600 / ent_z e))
               && Rltb (Rabs (600 / 2 + 4
                              - (ent_y e - (300 - 600 / 2) * (1 - 400 / ent_z e))))
                    (50 * (600 / ent_z e))).
  { intros e. unfold Index.isHit, Index.shootProjection, Index.impact.
    rewrite Hmouse, Hsway. reflexivity. }
  assert (S0 : Index.struck envDepot depotPlay hvt1 = false).
  { unfold Index.struck. rewrite Hhit, X1, Y1, Z1.
    apply andb_false_iff. left. hit_false. }
  assert (S6 : Index.struck envDepot depotPlay guard1 = false).
  { unfold Index.struck. rewrite Hhit, X2, Y2, Z2.
    apply andb_false_iff. left. hit_false. }
  set (b0 := mkEntity "barrel-0" _ _ _ _ _ _ _ _ _ _ _ _) in *.
  set (b1 := mkEntity "barrel-1" _ _ _ _ _ _ _ _ _ _ _ _) in *.
  set (b2 := mkEntity "barrel-2" _ _ _ _ _ _ _ _ _ _ _ _) in *.
  set (b3 := mkEntity "barrel-3" _ _ _ _ _ _ _ _ _ _ _ _) in *.
  set (b4 := mkEntity "barrel-4" _ _ _ _ _ _ _ _ _ _ _ _) in *.
  set (intel := mkEntity "intel-1" _ _ _ _ _ _ _ _ _ _ _ _) in *.
  assert (S1 : Index.struck envDepot depotPlay b0 = true).
  { unfold Index.struck. rewrite Hhit. subst b0. simpl.
    rewrite andb_true_r. hit_true. }
  assert (S2 : Index.struck envDepot depotPlay b1 = false).
  { unfold Index.struck. rewrite Hhit. subst b1. simpl.
    rewrite andb_true_r. hit_false. }
  assert (S3 : Index.struck envDepot depotPlay b2 = false).
  { unfold Index.struck. rewrite Hhit. subst b2. simpl.
    rewrite andb_true_r. hit_false. }
  assert (S4 : Index.struck envDepot depotPlay b3 = false).
  { unfold Index.struck. rewrite Hhit. subst b3. simpl.
    rewrite andb_true_r. hit_false. }
  assert (S5 : Index.struck envDepot depotPlay b4 = false).
  { unfold Index.struck. rewrite Hhit. subst b4. simpl.
    rewrite andb_true_r. hit_false. }
  assert (S7 : Index.struck envDepot depotPlay intel = false).
  { unfold Index.struck. rewrite Hhit. subst intel. simpl.
    rewrite andb_true_r. hit_false. }
  splits.
  - destruct (index_handleShoot_progress envDepot depotPlay Hg)
      as (_ & P2 & _).
    rewrite P2.
    assert (Hsat : existsb (Index.satisfyingHit envDepot depotPlay)
                     (Index.entities depotPlay) = true).
    { apply existsb_exists. exists b0. split.
      - rewrite He. simpl. auto.
      - unfold Index.satisfyingHit, Index.currentObj.
        rewrite S1, Hm, Hi. reflexivity. }
    rewrite Hsat. unfold Index.objectiveCount. rewrite Hm, Hi. reflexivity.
  - rewrite index_handleShoot_halted. exact Hh.
  - rewrite (index_handleShoot_timers envDepot depotPlay Hg), Ht, He.
    cbn [filter app]. rewrite S0, S1, S2, S3, S4, S5, S6, S7. reflexivity.
  - exists guard1. split; [|auto].
    apply index_click_spares; [|exact S6].
    rewrite He. reflexivity.
Qed.

(** Counterexample to C9 as stated: in [index.tsx] the player destroys the
    barrel that completes the last objective, so the game state is
    [success]; the timeout queued by that hit then fires and marks the
    guard, who was alive, as dead. *)
Lemma timeout_kills_after_success :
  Index.gameState depotShot = success
  /\ (exists guard1,
        nth_error (Index.entities depotShot) 6 = Some guard1
        /\ ent_isDead guard1 = false)
  /\ (exists guard2,
        nth_error (Index.entities (Index.step Index.Timeout depotShot)) 6
        = Some guard2
        /\ ent_isDead guard2 = true)
  /\ Index.gameState (Index.step Index.Timeout depotShot) = success.
Proof.
  destruct depotShot_facts as (Hg & Hh & Ht & guard1 & Hn & Hd & Hi & Hx & Hy).
  splits; auto.
  - exists guard1. auto.
  - rewrite (index_step_timeout depotShot Hh).
    unfold Index.fireTimer. rewrite Ht.
    cbn [Index.entities Index.set_timers Index.set_entities].
    rewrite (chainReaction_nth _ _ 6 guard1 Hn).
    cbn [ent_x ent_y ent_id].
    rewrite Hx, Hy, Hi.
    assert (E : Rltb (hypot (1 / 2 * 600 - 202) (600 / 2 + 50 - 300)) 300 = true).
    { apply Rltb_true_iff. apply hypot_lt; lra. }
    rewrite E. simpl. eexists. split; reflexivity.
  - rewrite (index_step_timeout depotShot Hh).
    unfold Index.fireTimer. rewrite Ht. exact Hg.
Qed.

(** C9, amended.  In [index.tsx] a pending chain-reaction callback takes
    effect in whatever game state it fires: it marks as dead every entity
    with another id that is closer than 300 to the struck barrel in the
    plane of [x] and [y], leaves every other entity as it is, and changes
    neither the game state nor the objective index, the health or the
    mission. *)
Theorem timeout_applies_in_every_game_state :
  forall s barrel rest,
    Index.halted s = false ->
    Index.timers s = barrel :: rest ->
    let s' := Index.step Index.Timeout s in
    Index.timers s' = rest
    /\ Index.gameState s' = Index.gameState s
    /\ Index.currentObjIndex s' = Index.currentObjIndex s
    /\ Index.playerHealth s' = Index.playerHealth s
    /\ Index.mission s' = Index.mission s
    /\ List.length (Index.entities s') = List.length (Index.entities s)
    /\ forall i other,
         nth_error (Index.entities s) i = Some other ->
         nth_error (Index.entities s') i
         = Some (if Rltb (hypot (ent_x barrel - ent_x other)
                            (ent_y barrel - ent_y other)) 300
                    && negb (String.eqb (ent_id other) (ent_id barrel))
                 then with_isDead true other else other).
Proof.
  intros s barrel rest Hh Ht. cbv zeta.
  unfold Index.step, Index.fireTimer. rewrite Hh, Ht. simpl.
  splits; auto.
  - unfold Index.chainReaction. apply length_map.
  - intros i other Hi. now apply chainReaction_nth.
Qed.

(** ** The chain reaction (C6) *)

(** In [index.tsx] the chain reaction of a barrel kills, among the living
    entities, exactly those with another id closer than 300 to it. *)
Lemma index_chain_reaction_exact (barrel : Entity) (es : list Entity)
    (i : nat) (other : Entity) :
  nth_error es i = Some other -> ent_isDead other = false ->
  exists other',
    nth_error (Index.chainReaction barrel es) i = Some other'
    /\ ent_id other' = ent_id other
    /\ (ent_isDead other' = true <->
        hypot (ent_x barrel - ent_x other) (ent_y barrel - ent_y other) < 300
        /\ ent_id other <> ent_id barrel).
Proof.
  intros Hi Hd. rewrite (chainReaction_nth barrel es i other Hi).
  eexists. split; [reflexivity|].
  destruct (Rltb _ 300) eqn:E; destruct (String.eqb _ _) eqn:E2;
    cbn [andb negb]; (split; [reflexivity|]).
  - apply String.eqb_eq in E2. rewrite Hd. split; [discriminate|].
    intros (_ & Hne). contradiction.
  - apply Rltb_true_iff in E. apply String.eqb_neq in E2.
    cbn [ent_isDead with_isDead]. split; auto.
  - apply Rltb_false_iff in E. rewrite Hd. split; [discriminate|].
    intros (Hlt & _). contradiction.
  - apply Rltb_false_iff in E. rewrite Hd. split; [discriminate|].
    intros (Hlt & _). contradiction.
Qed.

(** In [part_000] a frame changes no death flag. *)
Lemma part0_frame_keeps_flags (env : Env) (s : Part0.State) (i : nat)
    (ent : Entity) :
  nth_error (Part0.entities s) i = Some ent ->
  exists ent',
    nth_error (Part0.entities (Part0.frame env s)) i = Some ent'
    /\ ent_isDead ent' = ent_isDead ent
    /\ ent_id ent' = ent_id ent.
Proof.
  intros Hi.
  destruct (Part0.gameState s) eqn:Hg;
    try (rewrite (part0_frame_idle env s) by (left; rewrite Hg; discriminate);
         exists ent; auto).
  destruct (Part0.mission s) as [m|] eqn:Hm;
    [|rewrite (part0_frame_idle env s) by (right; exact Hm); exists ent; auto].
  assert (Hm' : Part0.mission s <> None) by (rewrite Hm; discriminate).
  destruct (part0_frame_effect env s Hg Hm') as (_ & _ & _ & _ & _ & F).
  rewrite F, nth_error_map, Hi. simpl. eexists. split; [reflexivity|].
  destruct (ent_isDead ent) eqn:Hd.
  - rewrite (part0_updateEntity_dead env ent s Hd). simpl. auto.
  - destruct (part0_updateEntity_living env ent s Hd)
      as (Hd' & (Hid & _) & _). cbv zeta in *. rewrite Hd'. auto.
Qed.

Lemma part0_frames_keep_alive (envs : list Env) :
  forall s i ent,
    nth_error (Part0.entities s) i = Some ent -> ent_isDead ent = false ->
    exists ent',
      nth_error (Part0.entities (Part0.run (map Part0.Frame envs) s)) i
      = Some ent'
      /\ ent_isDead ent' = false /\ ent_id ent' = ent_id ent.
Proof.
  unfold Part0.run.
  induction envs as [|env envs IH]; intros s i ent Hi Hd; simpl.
  - exists ent. auto.
  - destruct (part0_frame_keeps_flags env s i ent Hi) as (e1 & H1 & D1 & I1).
    destruct (IH (Part0.frame env s) i e1 H1 (eq_trans D1 Hd))
      as (e2 & H2 & D2 & I2).
    exists e2. splits; auto. congruence.
Qed.

Lemma rowReady_facts :
  Part0.gameState rowReady = playing
  /\ Part0.mission rowReady = Some Part0.fallback
  /\ Part0.mousePos rowReady = (600 / 2, 600 / 2)
  /\ Part0.screenShake rowReady = 0
  /\ Part0.playerHealth rowReady = 100%Z
  /\ Part0.entities rowReady
     = [ mkEntity "hvt-1" 800 (600 / 2) 800 2 HVT "Primary Target" false
           pacing 0 100 false 0;
         mkEntity "guard-1" 200 (600 / 2) 700 1.5 Bodyguard "Security"
           false flanking 0 100 true 0;
         mkEntity "intel-1" (600 / 2) (600 / 2 + 20) 650 0 Intel "Data"
           false static 0 10 false 0;
         mkEntity "barrel-0" (300 + INR 0 * 400) (600 / 2 + 50) 600 0
           Barrel "Explosive" false static 0 1 false 0;
         mkEntity "barrel-1" (300 + INR 1 * 400) (600 / 2 + 50) 600 0
           Barrel "Explosive" false static 0 1 false 0;
         mkEntity "barrel-2" (300 + INR 2 * 400) (600 / 2 + 50) 600 0
           Barrel "Explosive" false static 0 1 false 0 ].
Proof. splits; reflexivity. Qed.

Lemma rowReady_roster : roster (Part0.entities rowReady).
Proof.
  destruct rowReady_facts as (_ & _ & _ & _ & _ & He). rewrite He.
  do 6 eexists. split; [reflexivity|].
  unfold barrelAt; cbn [ent_type ent_isHostile ent_behavior ent_x ent_z].
  splits; reflexivity.
Qed.

Lemma part0_step_frame (env : Env) (s : Part0.State) :
  Part0.step (Part0.Frame env) s = Part0.frame env s.
Proof. reflexivity. Qed.

Lemma part0_step_click (env : Env) (s : Part0.State) :
  Part0.step (Part0.Click env) s = Part0.handleShoot env s.
Proof. reflexivity. Qed.

Lemma rowPlay_facts :
  Part0.gameState rowPlay = playing
  /\ Part0.mission rowPlay = Some Part0.fallback
  /\ Part0.mousePos rowPlay = (600 / 2, 600 / 2)
  /\ Part0.swayOffset rowPlay = (0, 4)
  /\ exists hvt1 guard1,
       Part0.entities rowPlay
       = [ hvt1; guard1;
           mkEntity "intel-1" (600 / 2) (600 / 2 + 20) 650 0 Intel "Data"
             false static 0 10 false 0;
           mkEntity "barrel-0" (300 + INR 0 * 400) (600 / 2 + 50) 600 0 Barrel
             "Explosive" false static 0 1 false 0;
           mkEntity "barrel-1" (300 + INR 1 * 400) (600 / 2 + 50) 600 0 Barrel
             "Explosive" false static 0 1 false 0;
           mkEntity "barrel-2" (300 + INR 2 * 400) (600 / 2 + 50) 600 0 Barrel
             "Explosive" false static 0 1 false 0 ]
       /\ (ent_type guard1 = Bodyguard /\ ent_isDead guard1 = false
           /\ ent_id guard1 = "guard-1"
           /\ ent_x guard1 = 202 /\ ent_y guard1 = 300 /\ ent_z guard1 = 699.5).
Proof.
  destruct rowReady_facts as (Hg & Hm & Hmouse & Hshake & Hp & He).
  assert (Hm' : Part0.mission rowReady <> None) by (rewrite Hm; discriminate).
  pose proof rowReady_roster as Hr.
  unfold rowPlay. rewrite part0_step_frame.
  destruct (part0_frame_effect env0 rowReady Hg Hm')
    as (F1 & _ & _ & F4 & F5 & F6).
  destruct (part0_frame_aim env0 rowReady Hg Hm') as (A1 & A2).
  pose proof (roster_fires_once env0 _ (or_intror Hr)) as Hn.
  rewrite F1, F5, F6, A1, A2, Hm, Hmouse, Hshake.
  split; [|split; [reflexivity|split; [reflexivity|split]]].
  - assert (Hh : (0 < Part0.playerHealth (Part0.frame env0 rowReady))%Z).
    { rewrite F4, Hp. lia. }
    apply Z.leb_gt in Hh. now rewrite Hh.
  - rewrite (elapsed_same_ms env0 eq_refl).
    rewrite !Rmult_0_l, sin_0, cos_0.
    f_equal; lra.
  - rewrite He. cbn [map].
    repeat match goal with
           | |- context [fst (Part0.updateEntity env0 ?e rowReady)] =>
               rewrite (part0_updateEntity_inert env0 e rowReady)
                 by reflexivity
           end.
    do 2 eexists. split; [reflexivity|].
    match goal with
    | |- context [Part0.updateEntity env0
                    (mkEntity "guard-1" ?a ?b ?c ?d ?e ?f ?g ?h ?i ?j ?k ?l)
                    rowReady] =>
        destruct (part0_updateEntity_living env0
                    (mkEntity "guard-1" a b c d e f g h i j k l)
                    rowReady eq_refl)
          as (Hd & (Hi & Ht & _) & _ & _ & Hx & Hy & Hz & _)
    end.
    cbv zeta in *. rewrite Ht, Hd, Hi, Hx, Hy, Hz.
    unfold Part0.behave.
    cbn [ent_behavior with_x with_z ent_x ent_y ent_z ent_type ent_id].
    rewrite (elapsed_same_ms env0 eq_refl), Rmult_0_l, cos_0.
    splits; try reflexivity; lra.
Qed.

(** C6 (the code of [part_000] at a barrel hit).  After the failed request
    and the first frame, the click strikes the first barrel, which stands
    less than 300 from the living guard.  [part_000] queues nothing: the
    barrel is marked dead by the click, and the guard is alive after the
    click and after any number of further frames. *)
Theorem part0_barrel_hit_spares_neighbour :
  exists barrel guard,
    nth_error (Part0.entities rowPlay) 3 = Some barrel
    /\ nth_error (Part0.entities rowPlay) 1 = Some guard
    /\ ent_type barrel = Barrel /\ ent_isDead barrel = false
    /\ Part0.struck env0 rowPlay barrel = true
    /\ ent_isDead guard = false /\ ent_id guard <> ent_id barrel
    /\ hypot (ent_x barrel - ent_x guard) (ent_y barrel - ent_y guard) < 300
    /\ (exists barrel',
          nth_error (Part0.entities rowShot) 3 = Some barrel'
          /\ ent_isDead barrel' = true)
    /\ forall envs,
         exists guard',
           nth_error
             (Part0.entities (Part0.run (map Part0.Frame envs) rowShot)) 1
           = Some guard'
           /\ ent_isDead guard' = false /\ ent_id guard' = ent_id guard.
Proof.
  destruct rowPlay_facts
    as (Hg & Hm & Hmouse & Hsway & hvt1 & guard1 & He
        & (T2 & D2 & I2 & X2 & Y2 & Z2)).
  assert (Hhit : forall e,
             Part0.isHit env0 rowPlay e
             = Rltb (Rabs (600 / 2 + 0
                           - (ent_x e
                              - (600 / 2 - 600 / 2) * (1 - 400 / ent_z e))))
                  (30 * (600 / ent_z e))
               && Rltb (Rabs (600 / 2 + 4
                              - (ent_y e
                                 - (600 / 2 - 600 / 2) * (1 - 400 / ent_z e))))
                    (60 * (600 / ent_z e))).
  { intros e. unfold Part0.isHit, Part0.shootProjection, Part0.impact.
    rewrite Hmouse, Hsway. reflexivity. }
  set (b0 := mkEntity "barrel-0" _ _ _ _ _ _ _ _ _ _ _ _) in *.
  assert (S1 : Part0.struck env0 rowPlay b0 = true).
  { unfold Part0.struck. rewrite Hhit. subst b0. simpl. hit_true. }
  assert (S2 : Part0.struck env0 rowPlay guard1 = false).
  { unfold Part0.struck. rewrite Hhit, D2, X2, Y2, Z2. simpl. hit_false. }
  assert (N3 : nth_error (Part0.entities rowPlay) 3 = Some b0)
    by (rewrite He; reflexivity).
  assert (N1 : nth_error (Part0.entities rowPlay) 1 = Some guard1)
    by (rewrite He; reflexivity).
  exists b0, guard1. splits; auto.
  - rewrite I2. subst b0. simpl. discriminate.
  - rewrite X2, Y2. subst b0. simpl. apply hypot_lt; lra.
  - destruct (part0_click_kills_struck env0 rowPlay 3 b0 Hg N3 S1)
      as (b' & Hb & Db & _).
    exists b'. unfold rowShot. rewrite part0_step_click. auto.
  - intros envs.
    apply part0_frames_keep_alive; [|exact D2].
    unfold rowShot. rewrite part0_step_click.
    apply part0_click_spares; assumption.
Qed.

(** ** Depth (C2) *)

(** In [index.tsx] the behaviour step keeps a positive depth positive, and
    puts a flanking entity at depth 400 or more. *)
Lemma index_behave_depth (time : R) (ent : Entity) :
  (0 < ent_z ent -> 0 < ent_z (Index.behave time ent))
  /\ (ent_behavior ent = flanking -> 400 <= ent_z (Index.behave time ent)).
Proof.
  unfold Index.behave. destruct (ent_behavior ent) eqn:Hb; simpl;
    try (split; [auto|discriminate]).
  destruct (Rltb (ent_z ent - 0.5) 400) eqn:E; simpl.
  - split; intros; lra.
  - apply Rltb_false_iff in E. split; intros; lra.
Qed.

(** So a frame of [index.tsx] keeps every depth positive. *)
Lemma index_frame_depth (env : Env) (s : Index.State) :
  Forall (fun e => 0 < ent_z e) (Index.entities s) ->
  Forall (fun e => 0 < ent_z e)
    (Index.entities (Index.outcomeState (Index.frame env s))).
Proof.
  intros H.
  destruct (Index.gameState s) eqn:Hg;
    try (rewrite (index_frame_idle env s) by (left; rewrite Hg; discriminate);
         exact H).
  destruct (Index.mission s) as [m|] eqn:Hm;
    [|rewrite (index_frame_idle env s) by (right; exact Hm); exact H].
  assert (Hm' : Index.mission s <> None) by (rewrite Hm; discriminate).
  rewrite (index_frame_entities env s Hg Hm').
  apply Forall_map. revert H. apply Forall_impl. intros e Hz.
  destruct (ent_isDead e) eqn:Hd.
  - now rewrite (index_updateEntity_dead env e s Hd).
  - destruct (index_updateEntity_living env e s Hd)
      as (_ & _ & _ & _ & _ & _ & Hz' & _).
    cbv zeta in *. rewrite Hz'. now apply index_behave_depth.
Qed.

Lemma part0_run_reachable (evs : list Part0.Event) :
  forall s, Part0.Reachable s -> Part0.Reachable (Part0.run evs s).
Proof.
  unfold Part0.run. induction evs as [|ev evs IH]; intros s Hr; simpl; auto.
  apply IH. now constructor.
Qed.

Lemma index_run_reachable (evs : list Index.Event) :
  forall s, Index.Reachable s -> Index.Reachable (Index.run evs s).
Proof.
  unfold Index.run. induction evs as [|ev evs IH]; intros s Hr; simpl; auto.
  apply IH. now constructor.
Qed.

(** In the roster of [part_000] only the guard can fire. *)
Lemma roster_fires_guard (env : Env) (es : list Entity) (g : Entity) :
  roster es -> nth_error es 1 = Some g ->
  List.length (filter (fires 3000 env) es)
  = if fires 3000 env g then 1%nat else 0%nat.
Proof.
  intros (h & g' & i & b0 & b1 & b2 & -> & (_ & Hh) & _ & (_ & Hi & _)
          & B0 & B1 & B2) Hn.
  simpl in Hn. injection Hn as ->.
  destruct B0 as (_ & _ & _ & _ & H0).
  destruct B1 as (_ & _ & _ & _ & H1).
  destruct B2 as (_ & _ & _ & _ & H2).
  assert (Fh : fires 3000 env h = false)
    by (unfold fires; rewrite Hh; now rewrite andb_false_r).
  assert (Fi : fires 3000 env i = false)
    by (unfold fires; rewrite Hi; now rewrite andb_false_r).
  assert (F0 : fires 3000 env b0 = false)
    by (unfold fires; rewrite H0; now rewrite andb_false_r).
  assert (F1 : fires 3000 env b1 = false)
    by (unfold fires; rewrite H1; now rewrite andb_false_r).
  assert (F2 : fires 3000 env b2 = false)
    by (unfold fires; rewrite H2; now rewrite andb_false_r).
  cbn [filter]. rewrite Fh, Fi, F0, F1, F2.
  destruct (fires 3000 env g); reflexivity.
Qed.

Lemma approach_step (n : nat) :
  approach (S n) = Part0.frame (envAt n) (approach n).
Proof.
  unfold approach, Part0.run.
  rewrite seq_S, map_app, fold_left_app. reflexivity.
Qed.

(** The guard of [part_000] comes half a unit closer in every frame, and
    the game lasts long enough for it to reach the camera plane. *)
Lemma approach_inv (n : nat) :
  (n <= 1400)%nat ->
  Part0.gameState (approach n) = playing
  /\ Part0.mission (approach n) <> None
  /\ roster (Part0.entities (approach n))
  /\ exists g f,
       nth_error (Part0.entities (approach n)) 1 = Some g
       /\ ent_id g = "guard-1" /\ ent_isDead g = false
       /\ ent_behavior g = flanking /\ ent_isHostile g = true
       /\ ent_z g = 700 - INR n * 0.5
       /\ Part0.playerHealth (approach n) = (100 - 10 * f)%Z
       /\ ((n = 0%nat /\ f = 0 /\ ent_lastFireTime g = 0)
           \/ (1 <= f
               /\ epoch + 3001 * (f - 1) <= ent_lastFireTime g
                  <= epoch + 10 * (Z.of_nat n - 1)))%Z.
Proof.
  induction n as [|n IH]; intros Hn.
  - destruct rowReady_facts as (Hg & Hm & _ & _ & Hp & He).
    change (approach 0) with rowReady.
    split; [exact Hg|]. split; [rewrite Hm; discriminate|].
    split; [exact rowReady_roster|].
    eexists. exists 0%Z. rewrite He.
    split; [reflexivity|]. split; [reflexivity|]. split; [reflexivity|].
    split; [reflexivity|]. split; [reflexivity|].
    split; [cbn [ent_z INR]; lra|]. split; [exact Hp|].
    left. splits; reflexivity.
  - destruct IH as (Hg & Hm & Hr & g & f & Hi & Hid & Hd & Hb & Hh & Hz & Hp & Hf);
      [lia|].
    rewrite approach_step.
    destruct (part0_frame_effect (envAt n) (approach n) Hg Hm)
      as (F1 & _ & _ & F4 & F5 & F6).
    rewrite (roster_fires_guard (envAt n) _ g Hr Hi) in F4.
    destruct (part0_updateEntity_living (envAt n) g (approach n) Hd)
      as (Hd' & (Hid' & _ & Hb' & Hh' & _) & _ & _ & _ & _ & Hz' & Hl').
    cbv zeta in *.
    assert (Hfire : fires 3000 (envAt n) g
                    = (3000 <? epoch + 10 * Z.of_nat n - ent_lastFireTime g)%Z).
    { unfold fires. rewrite Hd, Hh. reflexivity. }
    assert (Hbound :
              exists f',
                Part0.playerHealth (Part0.frame (envAt n) (approach n))
                = (100 - 10 * f')%Z
                /\ (1 <= f' <= 5)%Z
                /\ (epoch + 3001 * (f' - 1)
                    <= ent_lastFireTime
                         (fst (Part0.updateEntity (envAt n) g (approach n)))
                    <= epoch + 10 * (Z.of_nat (S n) - 1))%Z).
    { rewrite F4, Hl', Hp, Hfire. cbn [now envAt].
      unfold epoch in *.
      destruct (3000 <? 1700000000000 + 10 * Z.of_nat n - ent_lastFireTime g)%Z
        eqn:E.
      - apply Z.ltb_lt in E. exists (f + 1)%Z. lia.
      - apply Z.ltb_ge in E. exists f. lia. }
    destruct Hbound as (f' & Hp' & Hf' & Hl'').
    rewrite F1, F5, F6. splits; auto.
    + assert (Hpos : (0 < Part0.playerHealth
                             (Part0.frame (envAt n) (approach n)))%Z) by lia.
      apply Z.leb_gt in Hpos. now rewrite Hpos.
    + apply (roster_sameKind _ _ Hr), Forall2_map_self.
      intros a. apply part0_updateEntity_sameKind.
    + exists (fst (Part0.updateEntity (envAt n) g (approach n))), f'.
      splits; auto; try congruence.
      * now rewrite nth_error_map, Hi.
      * rewrite Hz'. unfold Part0.behave. rewrite Hb. cbv iota. rewrite Hb.
        cbn [ent_behavior with_x with_z ent_z]. rewrite Hz, S_INR. lra.
      * right. lia.
Qed.

(** C2 (the code of [part_000] at the spawned guard).  [part_000] moves a
    flanking entity half a unit closer per frame and never moves it back.
    After the failed request and 1400 frames, 10 ms apart, the game is
    still being played and the living guard has depth 0, where the
    renderer divides 600 and 400 by it; one frame later its depth is
    negative. *)
Theorem part0_flanker_reaches_depth_zero :
  Part0.Reachable (approach 1400)
  /\ Part0.gameState (approach 1400) = playing
  /\ (exists g,
        nth_error (Part0.entities (approach 1400)) 1 = Some g
        /\ ent_id g = "guard-1" /\ ent_isDead g = false
        /\ ent_behavior g = flanking /\ ent_z g = 0)
  /\ (exists g,
        nth_error (Part0.entities (Part0.frame (envAt 1400) (approach 1400))) 1
        = Some g
        /\ ent_isDead g = false /\ ent_z g < 0).
Proof.
  destruct (approach_inv 1400 (le_n _))
    as (Hg & Hm & Hr & g & f & Hi & Hid & Hd & Hb & Hh & Hz & _).
  assert (H1400 : INR 1400 = 1400) by (rewrite INR_IZR_INZ; reflexivity).
  split; [|split; [exact Hg|split]].
  - unfold approach, rowReady. apply part0_run_reachable, part0_run_reachable.
    constructor.
  - exists g. split; [exact Hi|]. split; [exact Hid|]. split; [exact Hd|].
    split; [exact Hb|]. rewrite Hz, H1400. lra.
  - destruct (part0_frame_effect (envAt 1400) (approach 1400) Hg Hm)
      as (_ & _ & _ & _ & _ & F6).
    destruct (part0_updateEntity_living (envAt 1400) g (approach 1400) Hd)
      as (Hd' & _ & _ & _ & _ & _ & Hz' & _).
    cbv zeta in *.
    exists (fst (Part0.updateEntity (envAt 1400) g (approach 1400))).
    split; [|split; [exact Hd'|]].
    + rewrite F6, nth_error_map, Hi. reflexivity.
    + rewrite Hz'. unfold Part0.behave. rewrite Hb. cbv iota. rewrite Hb.
      cbn [ent_behavior with_x with_z ent_z]. rewrite Hz, H1400. lra.
Qed.

(** ** Instances of the theorems at the scenarios *)

Lemma rowReady_reachable : Part0.Reachable rowReady.
Proof. unfold rowReady. apply part0_run_reachable. constructor. Qed.

Lemma depotReady_reachable : Index.Reachable depotReady.
Proof. unfold depotReady. apply index_run_reachable. constructor. Qed.

(** C1 at the first barrel of [part_000] before the first frame: the click
    point (300, 300) is inside its box, and the click marks it dead. *)
Lemma render_and_hit_test_agree_witness :
  exists ent',
    nth_error (Part0.entities (Part0.handleShoot env0 rowReady)) 3 = Some ent'
    /\ ent_isDead ent' = true
    /\ ent_id ent'
       = ent_id (mkEntity "barrel-0" (300 + INR 0 * 400) (600 / 2 + 50) 600 0
                   Barrel "Explosive" false static 0 1 false 0).
Proof.
  destruct rowReady_facts as (Hg & _ & Hmouse & _ & _ & He).
  refine (proj2 (proj2 (proj2 render_and_hit_test_agree)) env0 rowReady 3%nat
            (mkEntity "barrel-0" (300 + INR 0 * 400) (600 / 2 + 50) 600 0
               Barrel "Explosive" false static 0 1 false 0) Hg _ eq_refl _).
  - rewrite He. reflexivity.
  - unfold insideBox, Part0.renderProjection, Part0.impact.
    rewrite Hmouse.
    cbn [fst snd ent_x ent_y ent_z innerWidth innerHeight env0
         Part0.swayOffset rowReady INR].
    change (Part0.swayOffset rowReady) with (0, 0).
    cbn [fst snd].
    split; apply Rabs_lt_iff; lra.
Defined.

(** C10 at the two initial states, which are in the briefing state. *)
Lemma handleShoot_not_playing_witness :
  Index.handleShoot env0 Index.initial = Index.initial
  /\ Part0.handleShoot env0 (Part0.initial env0) = Part0.initial env0.
Proof.
  split.
  - apply (proj1 handleShoot_not_playing_unchanged). discriminate.
  - apply (proj2 handleShoot_not_playing_unchanged). discriminate.
Defined.

(** X24 at the states in which the player has just started. *)
Lemma health_bounded_failure_once_witness :
  (0 <= Index.playerHealth depotReady <= Index.MAX_PLAYER_HEALTH)%Z
  /\ (0 <= Part0.playerHealth rowReady <= Part0.MAX_PLAYER_HEALTH)%Z
  /\ (10 <= Part0.playerHealth rowReady)%Z.
Proof.
  destruct health_bounded_failure_once as (H1 & H2 & _ & H4 & _).
  split; [|split].
  - apply H1. exact depotReady_reachable.
  - apply H2. exact rowReady_reachable.
  - apply H4; [exact rowReady_reachable|reflexivity].
Defined.

(** C5 at a rejected request. *)
Lemma index_failed_request_no_fallback_witness :
  Index.mission (Index.step (Index.Loaded env0 Rejected) Index.initial) = None.
Proof.
  apply (index_failed_request_no_fallback env0 Rejected). left. reflexivity.
Defined.

(** The step of one frame at the spawned primary target of [index.tsx]. *)
Lemma pacing_step_is_bounded_sine_witness :
  Rabs (ent_x (fst (Index.updateEntity envPace pacer Index.initial))
        - ent_x pacer)
  <= Rabs (ent_speed pacer).
Proof.
  apply (proj1 pacing_step_is_bounded_sine envPace pacer Index.initial);
    reflexivity.
Defined.

(** C9 at the state after the winning shot. *)
Lemma timeout_applies_in_every_game_state_witness :
  Index.gameState (Index.step Index.Timeout depotShot)
  = Index.gameState depotShot.
Proof.
  destruct depotShot_facts as (_ & Hh & Ht & _).
  apply (timeout_applies_in_every_game_state depotShot _ [] Hh Ht).
Defined.

(** * Further properties of the code *)

(** ** Audio decoding *)

Lemma int16_range (lo hi : Z) :
  (0 <= lo < 256)%Z -> (0 <= hi < 256)%Z ->
  (-32768 <= int16 lo hi < 32768)%Z.
Proof.
  intros Hl Hh. unfold int16.
  destruct (lo + 256 * hi <? 32768)%Z eqn:E.
  - apply Z.ltb_lt in E. lia.
  - apply Z.ltb_ge in E. lia.
Qed.

Lemma decode_bytes (binaryString : list Z) :
  Forall (fun b => (0 <= b < 256)%Z) (decode binaryString).
Proof.
  unfold decode. apply Forall_forall. intros b Hb.
  apply in_map_iff in Hb. destruct Hb as (c & <- & _).
  apply Z.mod_pos_bound. lia.
Qed.

Lemma int16Array_spec :
  forall data,
    Forall (fun b => (0 <= b < 256)%Z) data ->
    match int16Array data with
    | Some l =>
        Nat.even (List.length data) = true
        /\ (2 * List.length l = List.length data)%nat
        /\ Forall (fun v => (-32768 <= v < 32768)%Z) l
    | None => Nat.even (List.length data) = false
    end.
Proof.
  fix IH 1. intros [|lo [|hi rest]] H.
  - simpl. splits; auto.
  - reflexivity.
  - inversion H as [|? ? Hlo H']; subst. inversion H' as [|? ? Hhi H'']; subst.
    specialize (IH rest H'').
    cbn [int16Array]. destruct (int16Array rest) as [l|]; cbn [option_map].
    + destruct IH as (He & Hlen & Hr).
      cbn [List.length]. splits.
      * exact He.
      * lia.
      * constructor; [now apply int16_range|exact Hr].
    + exact IH.
Qed.

Lemma channelData_nth (dataInt16 : list Z) (n frameCount c i : nat) :
  (i < frameCount)%nat ->
  nth_error (channelData dataInt16 n frameCount c) i
  = Some (IZR (nth (i * n + c) dataInt16 0%Z) / 32768).
Proof.
  intros Hi. unfold channelData.
  rewrite nth_error_map, nth_error_seq.
  assert (E : (i <? frameCount)%nat = true) by (apply Nat.ltb_lt; exact Hi).
  rewrite E. reflexivity.
Qed.

(** X1. The samples [decodeAudioData] writes are the 16-bit values of the
    byte pairs, low byte first, divided by 32768: every sample of every
    channel lies in [-1, 1). *)
Theorem decodeAudioData_samples_in_unit_range :
  forall binaryString numChannels channels,
    decodeAudioData (decode binaryString) numChannels = Some channels ->
    Forall (Forall (fun sample => -1 <= sample < 1)) channels.
Proof.
  intros bs n channels H. unfold decodeAudioData in H.
  pose proof (int16Array_spec (decode bs) (decode_bytes bs)) as Hs.
  destruct (int16Array (decode bs)) as [l|]; [|discriminate].
  destruct Hs as (_ & _ & Hr).
  cbv zeta in H.
  destruct ((n =? 0)%nat || (List.length l / n =? 0)%nat); [discriminate|].
  injection H as <-.
  apply Forall_forall. intros ch Hch.
  apply in_map_iff in Hch. destruct Hch as (c & <- & _).
  unfold channelData. apply Forall_forall. intros x Hx.
  apply in_map_iff in Hx. destruct Hx as (i & <- & _).
  assert (Hv : (-32768 <= nth (i * n + c) l 0 < 32768)%Z).
  { destruct (Nat.lt_ge_cases (i * n + c) (List.length l)) as [Hlt|Hge].
    - rewrite Forall_forall in Hr. apply Hr. now apply nth_In.
    - rewrite nth_overflow by exact Hge. lia. }
  destruct Hv as (Hlo & Hhi).
  apply IZR_le in Hlo. apply IZR_lt in Hhi.
  split; lra.
Qed.

(** X2. [decodeAudioData] de-interleaves: with [n] channels and byte data
    of even length, it returns [n] channels of [samples / n] frames each,
    and frame [i] of channel [c] is sample [i * n + c] divided by 32768. *)
Theorem decodeAudioData_deinterleaves :
  forall data numChannels dataInt16 channels,
    int16Array data = Some dataInt16 ->
    decodeAudioData data numChannels = Some channels ->
    List.length channels = numChannels
    /\ forall c channel,
         nth_error channels c = Some channel ->
         List.length channel = (List.length dataInt16 / numChannels)%nat
         /\ forall i,
              (i < List.length dataInt16 / numChannels)%nat ->
              exists v,
                nth_error dataInt16 (i * numChannels + c) = Some v
                /\ nth_error channel i = Some (IZR v / 32768).
Proof.
  intros data n l channels Hl H. unfold decodeAudioData in H.
  rewrite Hl in H. cbv zeta in H.
  destruct ((n =? 0)%nat || (List.length l / n =? 0)%nat) eqn:E; [discriminate|].
  apply orb_false_iff in E. destruct E as (En & _).
  apply Nat.eqb_neq in En.
  injection H as <-. split.
  - now rewrite length_map, length_seq.
  - intros c channel Hc.
    rewrite nth_error_map, nth_error_seq in Hc.
    destruct (c <? n)%nat eqn:Ec; [|discriminate].
    apply Nat.ltb_lt in Ec. simpl in Hc. injection Hc as <-.
    split.
    + unfold channelData. now rewrite length_map, length_seq.
    + intros i Hi.
      assert (Hidx : (i * n + c < List.length l)%nat).
      { pose proof (Nat.div_mod_eq (List.length l) n) as Hd.
        assert ((S i) * n <= n * (List.length l / n))%nat by nia.
        nia. }
      exists (nth (i * n + c) l 0%Z). split.
      * now apply nth_error_nth'.
      * now apply channelData_nth.
Qed.

(** X3. [decodeAudioData] fails on data of odd byte length (the
    [Int16Array] view cannot be made), and on one channel it succeeds for
    every non-empty data of even length, with one sample per byte pair. *)
Theorem decodeAudioData_mono_defined_iff_even :
  forall binaryString,
    (Nat.even (List.length binaryString) = false ->
     forall numChannels,
       decodeAudioData (decode binaryString) numChannels = None)
    /\ (Nat.even (List.length binaryString) = true ->
        binaryString <> [] ->
        exists channel,
          decodeAudioData (decode binaryString) 1 = Some [channel]
          /\ (2 * List.length channel = List.length binaryString)%nat).
Proof.
  intros bs.
  pose proof (int16Array_spec (decode bs) (decode_bytes bs)) as Hs.
  assert (Hlen : List.length (decode bs) = List.length bs)
    by (unfold decode; apply length_map).
  rewrite Hlen in Hs. split.
  - intros Hodd n. unfold decodeAudioData.
    destruct (int16Array (decode bs)) as [l|]; [|reflexivity].
    destruct Hs as (He & _). congruence.
  - intros Heven Hne. unfold decodeAudioData.
    destruct (int16Array (decode bs)) as [l|]; [|congruence].
    destruct Hs as (_ & Hl & _). cbv zeta.
    rewrite Nat.div_1_r.
    assert (Hpos : List.length l <> 0%nat).
    { destruct bs; [contradiction|]. simpl in Hl. lia. }
    apply Nat.eqb_neq in Hpos. rewrite Hpos. cbn [Nat.eqb orb seq map].
    eexists. split; [reflexivity|].
    unfold channelData. rewrite length_map, length_seq. exact Hl.
Qed.

(** ** What the entity loops do to the rest of the state *)

Lemma lastn_length {A : Type} (n : nat) (l : list A) :
  List.length (lastn n l) = Nat.min n (List.length l).
Proof. unfold lastn. rewrite length_skipn. lia. Qed.

Lemma Forall_skipn' {A : Type} (P : A -> Prop) (k : nat) (l : list A) :
  Forall P l -> Forall P (skipn k l).
Proof.
  intros H. rewrite <- (firstn_skipn k l) in H.
  apply Forall_app in H. tauto.
Qed.

Lemma burst_length (rnd : nat -> R) d x y color count size :
  List.length (burst rnd d x y color count size) = count.
Proof. unfold burst. now rewrite length_map, length_seq. Qed.

Lemma burst_life (rnd : nat -> R) d x y color count size :
  Forall (fun p => p_life p = 1) (burst rnd d x y color count size).
Proof.
  unfold burst. apply Forall_forall. intros p Hp.
  apply in_map_iff in Hp. destruct Hp as (i & <- & _). reflexivity.
Qed.

Section IndexThreading.

Variable J : Index.State -> Prop.
Hypothesis J_particles :
  forall env x y color count size s,
    J s -> J (Index.createParticles env x y color count size s).
Hypothesis J_shake15 : forall s, J s -> J (Index.set_screenShake 15 s).
Hypothesis J_shake40 : forall s, J s -> J (Index.set_screenShake 40 s).
Hypothesis J_health : forall v s, J s -> J (Index.set_playerHealth v s).
Hypothesis J_timers : forall v s, J s -> J (Index.set_timers v s).
Hypothesis J_gameState : forall v s, J s -> J (Index.set_gameState v s).
Hypothesis J_index : forall v s, J s -> J (Index.set_currentObjIndex v s).
Hypothesis J_spoken : forall v s, J s -> J (Index.set_spoken v s).

Lemma index_returnFire_keeps (env : Env) (ent : Entity) (s : Index.State) :
  J s -> J (snd (Index.returnFire env ent s)).
Proof.
  intros H. unfold Index.returnFire.
  destruct (ent_isHostile ent && _); [|exact H].
  cbv zeta. cbn [snd].
  apply J_particles, J_particles, J_health, J_shake15, H.
Qed.

Lemma index_updateEntity_keeps (env : Env) (ent : Entity) (s : Index.State) :
  J s -> J (snd (Index.updateEntity env ent s)).
Proof.
  intros H. unfold Index.updateEntity.
  destruct (ent_isDead ent && _); [exact H|].
  destruct (negb (ent_isDead ent)); [|exact H].
  now apply index_returnFire_keeps.
Qed.

Lemma index_forEachEntity_keeps (env : Env) :
  forall es s, J s -> J (snd (Index.forEachEntity env es s)).
Proof.
  induction es as [|e es IH]; intros s H; [exact H|].
  cbn [Index.forEachEntity].
  pose proof (index_updateEntity_keeps env e s H) as He.
  destruct (Index.updateEntity env e s) as [e' s1].
  specialize (IH s1 He).
  destruct (Index.forEachEntity env es s1) as [rest s2]. exact IH.
Qed.

Lemma index_advanceObjective_keeps (s0 s : Index.State) :
  J s -> J (Index.advanceObjective s0 s).
Proof.
  intros H. unfold Index.advanceObjective, Index.speakSpotter.
  destruct (Index.mission s0); [|exact H].
  cbv zeta. destruct (_ <=? _)%nat.
  - apply J_spoken, J_gameState, H.
  - apply J_spoken, J_index, H.
Qed.

Lemma index_shootEntity_keeps (env : Env) (s0 : Index.State) (ent : Entity)
    (acc : bool * Index.State) :
  J (snd acc) -> J (snd (snd (Index.shootEntity env s0 ent acc))).
Proof.
  intros H. unfold Index.shootEntity. cbv zeta.
  destruct (ent_isDead ent && negb _); [exact H|].
  destruct (Index.isHit env s0 ent && _); [|exact H].
  cbn [snd].
  repeat match goal with
         | |- context [if ?c then _ else _] => destruct c
         end;
    repeat first [ apply index_advanceObjective_keeps
                 | apply J_timers
                 | apply J_particles
                 | apply J_shake40
                 | exact H ].
Qed.

Lemma index_mapShoot_keeps (env : Env) (s0 : Index.State) :
  forall es acc, J (snd acc) -> J (snd (snd (Index.mapShoot env s0 es acc))).
Proof.
  induction es as [|e es IH]; intros acc H; [exact H|].
  cbn [Index.mapShoot].
  pose proof (index_shootEntity_keeps env s0 e acc H) as He.
  destruct (Index.shootEntity env s0 e acc) as [e' acc1].
  specialize (IH acc1 He).
  destruct (Index.mapShoot env s0 es acc1) as [rest acc2]. exact IH.
Qed.

End IndexThreading.

Section Part0Threading.

Variable J : Part0.State -> Prop.
Hypothesis J_particles :
  forall env x y color count size s,
    J s -> J (Part0.createParticles env x y color count size s).
Hypothesis J_fire :
  forall s,
    J s ->
    J (Part0.set_healthUI (Part0.playerHealth s - 10)%Z
         (Part0.set_playerHealth (Part0.playerHealth s - 10)%Z
            (Part0.set_screenShake 20 s))).
Hypothesis J_gameState : forall v s, J s -> J (Part0.set_gameState v s).
Hypothesis J_index : forall v s, J s -> J (Part0.set_currentObjIndex v s).
Hypothesis J_spoken : forall v s, J s -> J (Part0.set_spoken v s).

Lemma part0_updateEntity_keeps (env : Env) (ent : Entity) (s : Part0.State) :
  J s -> J (snd (Part0.updateEntity env ent s)).
Proof.
  intros H. unfold Part0.updateEntity.
  destruct (ent_isDead ent && _); [exact H|].
  destruct (negb (ent_isDead ent)); [|exact H].
  unfold Part0.returnFire.
  destruct (ent_isHostile _ && _); [|exact H].
  cbv zeta. cbn [snd]. apply J_particles. exact (J_fire s H).
Qed.

Lemma part0_forEachEntity_keeps (env : Env) :
  forall es s, J s -> J (snd (Part0.forEachEntity env es s)).
Proof.
  induction es as [|e es IH]; intros s H; [exact H|].
  cbn [Part0.forEachEntity].
  pose proof (part0_updateEntity_keeps env e s H) as He.
  destruct (Part0.updateEntity env e s) as [e' s1].
  specialize (IH s1 He).
  destruct (Part0.forEachEntity env es s1) as [rest s2]. exact IH.
Qed.

Lemma part0_shootEntity_keeps (env : Env) (s0 : Part0.State) (ent : Entity)
    (acc : bool * Part0.State) :
  J (snd acc) -> J (snd (snd (Part0.shootEntity env s0 ent acc))).
Proof.
  intros H. unfold Part0.shootEntity, Part0.speakSpotter. cbv zeta.
  destruct (ent_isDead ent); [exact H|].
  destruct (Part0.isHit env s0 ent); [|exact H].
  cbn [snd].
  repeat match goal with
         | |- context [if ?c then _ else _] => destruct c
         end;
    repeat first [ apply J_spoken
                 | apply J_gameState
                 | apply J_index
                 | apply J_particles
                 | exact H ].
Qed.

Lemma part0_forEachShoot_keeps (env : Env) (s0 : Part0.State) :
  forall es acc,
    J (snd acc) -> J (snd (snd (Part0.forEachShoot env s0 es acc))).
Proof.
  induction es as [|e es IH]; intros acc H; [exact H|].
  cbn [Part0.forEachShoot].
  pose proof (part0_shootEntity_keeps env s0 e acc H) as He.
  destruct (Part0.shootEntity env s0 e acc) as [e' acc1].
  specialize (IH acc1 He).
  destruct (Part0.forEachShoot env s0 es acc1) as [rest acc2]. exact IH.
Qed.

End Part0Threading.

(** ** Particles *)

Lemma index_createParticles_within (lo : R) env x y color count size s :
  lo < 1 ->
  particlesWithin 100 lo (Index.particles s) ->
  particlesWithin 100 lo
    (Index.particles (Index.createParticles env x y color count size s)).
Proof.
  intros Hlo (_ & Hl). unfold Index.createParticles. cbn. split.
  - rewrite lastn_length. lia.
  - unfold lastn. apply Forall_skipn'. apply Forall_app. split; [exact Hl|].
    eapply Forall_impl; [|apply burst_life].
    intros p Hp. cbn beta in Hp. rewrite Hp. lra.
Qed.

Lemma part0_createParticles_within (lo : R) env x y color count size s :
  lo < 1 ->
  particlesWithin 200 lo (Part0.particles s) ->
  particlesWithin 200 lo
    (Part0.particles (Part0.createParticles env x y color count size s)).
Proof.
  intros Hlo (Hn & Hl). unfold Part0.createParticles. cbn.
  set (pushed := Part0.particles s ++ burst _ _ _ _ _ _ _).
  assert (Hp : Forall (fun p => lo < p_life p <= 1) pushed).
  { apply Forall_app. split; [exact Hl|].
    eapply Forall_impl; [|apply burst_life].
    intros p Hp. cbn beta in Hp. rewrite Hp. lra. }
  destruct (200 <? List.length pushed)%nat eqn:E.
  - split; [rewrite length_skipn; lia|now apply Forall_skipn'].
  - apply Nat.ltb_ge in E. split; [exact E|exact Hp].
Qed.

Lemma index_advance_within (cap : nat) (lo : R) (ps : list Particle) :
  particlesWithin cap lo ps ->
  particlesWithin cap (-0.02) (Index.advanceParticles ps).
Proof.
  intros (Hn & Hl). unfold Index.advanceParticles. split.
  - rewrite length_map. pose proof (filter_length_le (fun p => Rltb 0 (p_life p)) ps). lia.
  - apply Forall_forall. intros q Hq.
    apply in_map_iff in Hq. destruct Hq as (p & <- & Hp).
    apply filter_In in Hp. destruct Hp as (Hin & Hpos).
    apply Rltb_true_iff in Hpos.
    rewrite Forall_forall in Hl. specialize (Hl p Hin). cbn. lra.
Qed.

Lemma part0_advance_within (cap : nat) (lo : R) (ps : list Particle) :
  particlesWithin cap lo ps ->
  particlesWithin cap 0 (Part0.advanceParticles ps).
Proof.
  intros (Hn & Hl). unfold Part0.advanceParticles. split.
  - pose proof (filter_length_le (fun p => Rltb 0 (p_life p))
                  (map (fun p => mkParticle (p_x p + p_vx p) (p_y p + p_vy p)
                                   (p_vx p) (p_vy p) (p_life p - 0.02)
                                   (p_color p) (p_size p)) ps)) as H.
    rewrite length_map in H. lia.
  - apply Forall_forall. intros q Hq.
    apply filter_In in Hq. destruct Hq as (Hin & Hpos).
    apply Rltb_true_iff in Hpos.
    apply in_map_iff in Hin. destruct Hin as (p & <- & Hp).
    rewrite Forall_forall in Hl. specialize (Hl p Hp). cbn in *. lra.
Qed.

Lemma particlesWithin_weaken (cap : nat) (lo lo' : R) (ps : list Particle) :
  lo <= lo' -> particlesWithin cap lo' ps -> particlesWithin cap lo ps.
Proof.
  intros Hle (Hn & Hl). split; [exact Hn|].
  eapply Forall_impl; [|exact Hl]. intros p Hp. cbn beta in Hp. lra.
Qed.

Lemma index_step_particles (ev : Index.Event) (s : Index.State) :
  particlesWithin 100 (-0.02) (Index.particles s) ->
  particlesWithin 100 (-0.02) (Index.particles (Index.step ev s)).
Proof.
  intros H. unfold Index.step. destruct (Index.halted s); [exact H|].
  set (J := fun t : Index.State =>
              particlesWithin 100 (-0.02) (Index.particles t)).
  assert (Jp : forall env x y color count size t,
             J t -> J (Index.createParticles env x y color count size t)).
  { intros. apply index_createParticles_within; [lra|assumption]. }
  destruct ev as [env reply| |x y|env|env|].
  - destruct (Index.isLoading s); [|exact H].
    unfold Index.generateMission. destruct reply as [| |data]; try exact H.
    cbv zeta. destruct (objectives data); exact H.
  - destruct (_ && _); exact H.
  - exact H.
  - unfold Index.frame.
    destruct (Index.gameState s); try exact H.
    destruct (Index.mission s) as [m|]; [|exact H].
    unfold Index.render. cbv zeta.
    set (s2 := Index.set_draws _ _).
    assert (H2 : J s2) by exact H.
    pose proof (index_forEachEntity_keeps J Jp
                  (fun _ h => h) (fun _ _ h => h) env (Index.entities s2) s2 H2)
      as H3.
    destruct (Index.forEachEntity env (Index.entities s2) s2) as [es s3].
    cbn [snd] in H3.
    assert (H5 : particlesWithin 100 (-0.02)
                   (Index.advanceParticles (Index.particles s3)))
      by (eapply index_advance_within; exact H3).
    destruct (nth_error (objectives m) (Index.currentObjIndex s));
      [destruct (_ <=? _)%Z|]; exact H5.
  - unfold Index.handleShoot.
    destruct (negb _); [exact H|]. cbv zeta.
    set (s1 := Index.set_screenShake 10 _).
    assert (H1 : J (snd (false, s1))) by exact H.
    pose proof (index_mapShoot_keeps J Jp (fun _ h => h) (fun _ _ h => h)
                  (fun _ _ h => h) (fun _ _ h => h) (fun _ _ h => h)
                  env s1 (Index.entities s1) (false, s1) H1) as H2.
    destruct (Index.mapShoot env s1 (Index.entities s1) (false, s1))
      as [next [hit s2]].
    cbn [snd] in H2. destruct hit; [exact H2|].
    exact (Jp _ _ _ _ _ _ _ H2).
  - unfold Index.fireTimer. destruct (Index.timers s); exact H.
Qed.

Lemma part0_step_particles (ev : Part0.Event) (s : Part0.State) :
  particlesWithin 200 0 (Part0.particles s) ->
  particlesWithin 200 0 (Part0.particles (Part0.step ev s)).
Proof.
  intros H. unfold Part0.step.
  set (J := fun t : Part0.State => particlesWithin 200 0 (Part0.particles t)).
  assert (Jp : forall env x y color count size t,
             J t -> J (Part0.createParticles env x y color count size t)).
  { intros. apply part0_createParticles_within; [lra|assumption]. }
  destruct ev as [env reply| |x y|env|env].
  - destruct (Part0.isLoading s); [|exact H].
    unfold Part0.generateMission, Part0.installFallback.
    destruct reply as [| |data]; try exact H.
    cbv zeta. destruct (objectives data); exact H.
  - destruct (_ && _); exact H.
  - exact H.
  - unfold Part0.frame.
    destruct (Part0.gameState s); try exact H.
    destruct (Part0.mission s) as [m|]; [|exact H].
    unfold Part0.render. cbv zeta.
    set (s2 := Part0.set_draws _ _).
    assert (H2 : J s2) by exact H.
    pose proof (part0_forEachEntity_keeps J Jp (fun _ h => h)
                  env (Part0.entities s2) s2 H2) as H3.
    destruct (Part0.forEachEntity env (Part0.entities s2) s2) as [es s3].
    cbn [snd] in H3.
    assert (H5 : particlesWithin 200 0
                   (Part0.advanceParticles (Part0.particles s3)))
      by (eapply part0_advance_within; exact H3).
    destruct (_ <=? _)%Z; exact H5.
  - unfold Part0.handleShoot.
    destruct (negb _); [exact H|]. cbv zeta.
    set (s1 := Part0.set_screenShake 15 s).
    assert (H1 : J (snd (false, s1))) by exact H.
    pose proof (part0_forEachShoot_keeps J Jp (fun _ _ h => h)
                  (fun _ _ h => h) (fun _ _ h => h)
                  env s1 (Part0.entities s1) (false, s1) H1) as H2.
    destruct (Part0.forEachShoot env s1 (Part0.entities s1) (false, s1))
      as [next [hit s2]].
    cbn [snd] in H2. destruct hit; [exact H2|].
    exact (Jp _ _ _ _ _ _ _ H2).
Qed.

(** X4. index.tsx: at every moment the particle list holds at most 100
    particles, and every particle in it has a life above -0.02 and at most
    1 (a particle whose life has run out is still listed for one frame). *)
Theorem index_particles_bounded :
  forall s, Index.Reachable s ->
    particlesWithin 100 (-0.02) (Index.particles s).
Proof.
  intros s H. induction H as [|ev s _ IH].
  - split; [cbn; lia|constructor].
  - now apply index_step_particles.
Qed.

(** X5. part_000: at every moment the particle list holds at most 200
    particles, and every particle in it has a life above 0 and at most 1. *)
Theorem part0_particles_bounded :
  forall s, Part0.Reachable s ->
    particlesWithin 200 0 (Part0.particles s).
Proof.
  intros s H. induction H as [env|ev s _ IH].
  - split; [cbn; lia|constructor].
  - now apply part0_step_particles.
Qed.

(** X6. [createParticles] drops the oldest particles first: when the
    [count] new particles fit under the cap (100 in index.tsx, 200 in
    part_000), the new list is the newest older particles that still fit,
    followed by all [count] new ones in the order they were made. *)
Theorem createParticles_drops_oldest :
  forall env x y color count size,
    (forall s,
       (count <= 100)%nat ->
       Index.particles (Index.createParticles env x y color count size s)
       = lastn (100 - count) (Index.particles s)
         ++ burst (random env) (Index.draws s) x y color count size)
    /\ (forall s,
       (count <= 200)%nat ->
       Part0.particles (Part0.createParticles env x y color count size s)
       = lastn (200 - count) (Part0.particles s)
         ++ burst (random env) (Part0.draws s) x y color count size).
Proof.
  intros env x y color count size. split; intros s Hc.
  - unfold Index.createParticles, Index.set_draws, Index.set_particles.
    cbv zeta. cbn [Index.particles Index.draws]. unfold lastn.
    rewrite length_app, burst_length, skipn_app.
    replace (List.length (Index.particles s) + count - 100
             - List.length (Index.particles s))%nat with 0%nat by lia.
    replace (List.length (Index.particles s) + count - 100)%nat
      with (List.length (Index.particles s) - (100 - count))%nat by lia.
    cbn [skipn]. reflexivity.
  - unfold Part0.createParticles, Part0.set_draws, Part0.set_particles.
    cbv zeta. cbn [Part0.particles Part0.draws]. unfold lastn.
    rewrite length_app, burst_length.
    destruct (200 <? _)%nat eqn:E.
    + rewrite skipn_app.
      apply Nat.ltb_lt in E.
      replace (List.length (Part0.particles s) + count - 200
               - List.length (Part0.particles s))%nat with 0%nat by lia.
      replace (List.length (Part0.particles s) + count - 200)%nat
        with (List.length (Part0.particles s) - (200 - count))%nat by lia.
      cbn [skipn]. reflexivity.
    + apply Nat.ltb_ge in E.
      replace (List.length (Part0.particles s) - (200 - count))%nat
        with 0%nat by lia.
      cbn [skipn]. reflexivity.
Qed.

(** ** The roster after the mission has loaded *)

Lemma sameKind_refl (e : Entity) : sameKind e e.
Proof. unfold sameKind. tauto. Qed.

Lemma sameKind_trans (a b c : Entity) :
  sameKind a b -> sameKind b c -> sameKind a c.
Proof.
  unfold sameKind.
  intros (H1 & H2 & H3 & H4 & H5) (K1 & K2 & K3 & K4 & K5).
  splits; try congruence.
  intros Hs. destruct (H5 Hs) as (X & Y & Z).
  assert (Hb : ent_behavior b = static) by congruence.
  destruct (K5 Hb) as (X' & Y' & Z'). splits; congruence.
Qed.

Lemma laterRecord_refl (e : Entity) : laterRecord e e.
Proof. split; [apply sameKind_refl|tauto]. Qed.

Lemma laterRecord_trans (a b c : Entity) :
  laterRecord a b -> laterRecord b c -> laterRecord a c.
Proof.
  intros (H1 & H2) (K1 & K2). split; [eapply sameKind_trans; eauto|auto].
Qed.

Lemma Forall2_refl' {A : Type} (P : A -> A -> Prop) (l : list A) :
  (forall a, P a a) -> Forall2 P l l.
Proof. intros H. induction l; constructor; auto. Qed.

Lemma Forall2_trans' {A : Type} (P : A -> A -> Prop) :
  (forall a b c, P a b -> P b c -> P a c) ->
  forall l1 l2 l3, Forall2 P l1 l2 -> Forall2 P l2 l3 -> Forall2 P l1 l3.
Proof.
  intros Ht l1 l2 l3 H. revert l3.
  induction H as [|a b l1 l2 Hab _ IH]; intros l3 H3; inversion H3; subst;
    constructor; eauto.
Qed.

Lemma laterRecord_dead (e : Entity) : laterRecord e (with_isDead true e).
Proof. split; [unfold sameKind; cbn; tauto|reflexivity]. Qed.

Lemma index_updateEntity_later (env : Env) (ent : Entity) (s : Index.State) :
  laterRecord ent (fst (Index.updateEntity env ent s)).
Proof.
  destruct (ent_isDead ent) eqn:Hd.
  - rewrite index_updateEntity_dead by exact Hd. apply laterRecord_refl.
  - split; [|congruence].
    apply (index_updateEntity_living env ent s Hd).
Qed.

Lemma part0_updateEntity_later (env : Env) (ent : Entity) (s : Part0.State) :
  laterRecord ent (fst (Part0.updateEntity env ent s)).
Proof.
  destruct (ent_isDead ent) eqn:Hd.
  - rewrite part0_updateEntity_dead by exact Hd. apply laterRecord_refl.
  - split; [|congruence].
    apply (part0_updateEntity_living env ent s Hd).
Qed.

Lemma index_shootEntity_later (env : Env) (s0 : Index.State) (ent : Entity)
    (acc : bool * Index.State) :
  laterRecord ent (fst (Index.shootEntity env s0 ent acc)).
Proof.
  unfold Index.shootEntity. cbv zeta.
  destruct (ent_isDead ent && negb _); [apply laterRecord_refl|].
  destruct (Index.isHit env s0 ent && _); [|apply laterRecord_refl].
  cbn [fst]. split; [unfold sameKind; cbn; tauto|reflexivity].
Qed.

Lemma index_mapShoot_later (env : Env) (s0 : Index.State) :
  forall es acc, Forall2 laterRecord es (fst (Index.mapShoot env s0 es acc)).
Proof.
  induction es as [|e es IH]; intros acc; [constructor|].
  cbn [Index.mapShoot].
  pose proof (index_shootEntity_later env s0 e acc) as He.
  destruct (Index.shootEntity env s0 e acc) as [e' acc1].
  specialize (IH acc1).
  destruct (Index.mapShoot env s0 es acc1) as [rest acc2].
  constructor; assumption.
Qed.

Lemma part0_shootEntity_later (env : Env) (s0 : Part0.State) (ent : Entity)
    (acc : bool * Part0.State) :
  laterRecord ent (fst (Part0.shootEntity env s0 ent acc)).
Proof.
  unfold Part0.shootEntity. cbv zeta.
  destruct (ent_isDead ent); [apply laterRecord_refl|].
  destruct (Part0.isHit env s0 ent); [|apply laterRecord_refl].
  cbn [fst]. apply laterRecord_dead.
Qed.

Lemma part0_forEachShoot_later (env : Env) (s0 : Part0.State) :
  forall es acc,
    Forall2 laterRecord es (fst (Part0.forEachShoot env s0 es acc)).
Proof.
  induction es as [|e es IH]; intros acc; [constructor|].
  cbn [Part0.forEachShoot].
  pose proof (part0_shootEntity_later env s0 e acc) as He.
  destruct (Part0.shootEntity env s0 e acc) as [e' acc1].
  specialize (IH acc1).
  destruct (Part0.forEachShoot env s0 es acc1) as [rest acc2].
  constructor; assumption.
Qed.

Lemma index_step_loaded (ev : Index.Event) (s : Index.State) :
  Index.isLoading s = false ->
  Index.isLoading (Index.step ev s) = false
  /\ Forall2 laterRecord (Index.entities s) (Index.entities (Index.step ev s)).
Proof.
  intros Hl.
  assert (Hrefl : Forall2 laterRecord (Index.entities s) (Index.entities s))
    by (apply Forall2_refl', laterRecord_refl).
  unfold Index.step. destruct (Index.halted s); [now split|].
  destruct ev as [env reply| |x y|env|env|].
  - rewrite Hl. now split.
  - destruct (_ && _); now split.
  - now split.
  - split; [rewrite <- Hl; apply (index_frame_effect env s)|].
    destruct (Index.gameState s) eqn:Hg;
      try (rewrite index_frame_idle by (left; congruence); exact Hrefl).
    destruct (Index.mission s) as [m|] eqn:Hm;
      [|rewrite index_frame_idle by (now right); exact Hrefl].
    rewrite index_frame_entities by congruence.
    apply Forall2_map_self. intros e. apply index_updateEntity_later.
  - destruct (Index.gameState s) eqn:Hg;
      try (rewrite index_handleShoot_idle by congruence; now split).
    split.
    + rewrite <- Hl. apply (index_handleShoot_progress env s Hg).
    + rewrite index_handleShoot_entities by exact Hg.
      apply index_mapShoot_later.
  - unfold Index.fireTimer. destruct (Index.timers s) as [|b rest]; [now split|].
    split; [exact Hl|]. cbn. unfold Index.chainReaction.
    apply Forall2_map_self. intros e.
    destruct (_ && _); [apply laterRecord_dead|apply laterRecord_refl].
Qed.

Lemma part0_step_loaded (ev : Part0.Event) (s : Part0.State) :
  Part0.isLoading s = false ->
  Part0.isLoading (Part0.step ev s) = false
  /\ Forall2 laterRecord (Part0.entities s) (Part0.entities (Part0.step ev s)).
Proof.
  intros Hl.
  assert (Hrefl : Forall2 laterRecord (Part0.entities s) (Part0.entities s))
    by (apply Forall2_refl', laterRecord_refl).
  unfold Part0.step.
  destruct ev as [env reply| |x y|env|env].
  - rewrite Hl. now split.
  - destruct (_ && _); now split.
  - now split.
  - destruct (Part0.gameState s) eqn:Hg;
      try (rewrite part0_frame_idle by (left; congruence); now split).
    destruct (Part0.mission s) as [m|] eqn:Hm;
      [|rewrite part0_frame_idle by (now right); now split].
    assert (Hm' : Part0.mission s <> None) by congruence.
    destruct (part0_frame_effect env s Hg Hm') as (_ & _ & Hl' & _ & _ & He).
    split; [congruence|]. rewrite He.
    apply Forall2_map_self. intros e. apply part0_updateEntity_later.
  - destruct (Part0.gameState s) eqn:Hg;
      try (rewrite part0_handleShoot_idle by congruence; now split).
    split.
    + rewrite <- Hl. apply (part0_handleShoot_progress env s Hg).
    + rewrite part0_handleShoot_entities by exact Hg.
      apply part0_forEachShoot_later.
Qed.

(** X7. index.tsx: once the mission request has settled, no sequence of
    frames, clicks, pointer moves and chain reactions changes the number
    or order of the entities, their ids, categories, behaviours or
    hostility, moves a static entity, or brings a dead entity back. *)
Theorem index_roster_is_stable :
  forall evs s,
    Index.isLoading s = false ->
    Forall2 laterRecord (Index.entities s) (Index.entities (Index.run evs s)).
Proof.
  induction evs as [|ev evs IH]; intros s Hl.
  - apply Forall2_refl', laterRecord_refl.
  - cbn [Index.run fold_left].
    destruct (index_step_loaded ev s Hl) as (Hl' & Hs).
    eapply Forall2_trans'; [exact laterRecord_trans|exact Hs|].
    apply (IH _ Hl').
Qed.

(** X8. part_000: once the mission request has settled, no sequence of
    frames, clicks and pointer moves changes the number or order of the
    entities, their ids, categories, behaviours or hostility, moves a
    static entity, or brings a dead entity back. *)
Theorem part0_roster_is_stable :
  forall evs s,
    Part0.isLoading s = false ->
    Forall2 laterRecord (Part0.entities s) (Part0.entities (Part0.run evs s)).
Proof.
  induction evs as [|ev evs IH]; intros s Hl.
  - apply Forall2_refl', laterRecord_refl.
  - cbn [Part0.run fold_left].
    destruct (part0_step_loaded ev s Hl) as (Hl' & Hs).
    eapply Forall2_trans'; [exact laterRecord_trans|exact Hs|].
    apply (IH _ Hl').
Qed.

(** ** Depth of the entities in index.tsx *)

Lemma index_behave_range (time : R) (ent : Entity) :
  depthInRange ent -> depthInRange (Index.behave time ent).
Proof.
  unfold depthInRange, Index.behave. intros H.
  destruct (ent_behavior ent); try exact H.
  cbv zeta. cbn [ent_z with_x with_z].
  destruct (Rltb (ent_z ent - 0.5) 400) eqn:E; cbn [ent_z with_x with_z].
  - lra.
  - apply Rltb_false_iff in E. lra.
Qed.

Lemma index_updateEntity_range (env : Env) (ent : Entity) (s : Index.State) :
  depthInRange ent -> depthInRange (fst (Index.updateEntity env ent s)).
Proof.
  intros H. destruct (ent_isDead ent) eqn:Hd.
  - now rewrite index_updateEntity_dead.
  - destruct (index_updateEntity_living env ent s Hd)
      as (_ & _ & _ & _ & _ & _ & Hz & _).
    unfold depthInRange. rewrite Hz. now apply index_behave_range.
Qed.

Lemma index_shootEntity_depth (env : Env) (s0 : Index.State) (ent : Entity)
    (acc : bool * Index.State) :
  ent_z (fst (Index.shootEntity env s0 ent acc)) = ent_z ent.
Proof.
  unfold Index.shootEntity. cbv zeta.
  destruct (ent_isDead ent && negb _); [reflexivity|].
  destruct (Index.isHit env s0 ent && _); reflexivity.
Qed.

Lemma index_mapShoot_range (env : Env) (s0 : Index.State) :
  forall es acc,
    Forall depthInRange es ->
    Forall depthInRange (fst (Index.mapShoot env s0 es acc)).
Proof.
  induction es as [|e es IH]; intros acc H; [constructor|].
  inversion H as [|? ? He Hes]; subst.
  cbn [Index.mapShoot].
  pose proof (index_shootEntity_depth env s0 e acc) as Hz.
  destruct (Index.shootEntity env s0 e acc) as [e' acc1].
  specialize (IH acc1 Hes).
  destruct (Index.mapShoot env s0 es acc1) as [rest acc2].
  cbn [fst] in *. constructor; [|exact IH].
  unfold depthInRange in *. rewrite Hz. exact He.
Qed.

Lemma index_spawn_range (env : Env) (s : Index.State) :
  fairDraws env ->
  Forall depthInRange (Index.entities (Index.spawnEntities env s)).
Proof.
  intros Hf. unfold Index.spawnEntities. cbv zeta.
  cbn [Index.entities Index.set_draws Index.set_entities seq map app].
  unfold depthInRange.
  repeat constructor; cbn [ent_z]; try lra;
    match goal with
    | |- context [random env ?n] => pose proof (Hf n); nra
    end.
Qed.

Lemma index_step_range (ev : Index.Event) (s : Index.State) :
  fairEvent ev ->
  Forall depthInRange (Index.entities s) ->
  Forall depthInRange (Index.entities (Index.step ev s)).
Proof.
  intros Hf H. unfold Index.step. destruct (Index.halted s); [exact H|].
  destruct ev as [env reply| |x y|env|env|].
  - destruct (Index.isLoading s); [|exact H].
    unfold Index.generateMission. destruct reply as [| |data]; try exact H.
    cbv zeta.
    pose proof (index_spawn_range env
                  (Index.set_mission (Some data) (Index.set_isLoading true s))
                  Hf) as Hs.
    destruct (objectives data); exact Hs.
  - destruct (_ && _); exact H.
  - exact H.
  - destruct (Index.gameState s) eqn:Hg;
      try (rewrite index_frame_idle by (left; congruence); exact H).
    destruct (Index.mission s) as [m|] eqn:Hm;
      [|rewrite index_frame_idle by (now right); exact H].
    rewrite index_frame_entities by congruence.
    apply Forall_forall. intros e' He'.
    apply in_map_iff in He'. destruct He' as (e & <- & He).
    apply index_updateEntity_range.
    rewrite Forall_forall in H. now apply H.
  - destruct (Index.gameState s) eqn:Hg;
      try (rewrite index_handleShoot_idle by congruence; exact H).
    rewrite index_handleShoot_entities by exact Hg.
    now apply index_mapShoot_range.
  - unfold Index.fireTimer. destruct (Index.timers s) as [|b rest]; [exact H|].
    cbn [Index.entities Index.set_timers Index.set_entities].
    unfold Index.chainReaction.
    apply Forall_forall. intros e' He'.
    apply in_map_iff in He'. destruct He' as (e & <- & He).
    rewrite Forall_forall in H. specialize (H e He).
    destruct (_ && _); exact H.
Qed.

(** X9. index.tsx: when the mission request drew its random numbers from
    [0, 1), every entity keeps a depth between 400 and 1000 whatever
    happens afterwards, so the projection never divides by zero and draws
    every entity at a scale between 0.6 and 1.5. *)
Theorem index_depth_stays_in_range :
  forall evs,
    Forall fairEvent evs ->
    Forall (fun e => depthInRange e
                     /\ forall env mouse,
                          0.6 <= snd (Index.renderProjection env mouse e) <= 1.5)
           (Index.entities (Index.run evs Index.initial)).
Proof.
  intros evs Hf.
  assert (H : Forall depthInRange (Index.entities (Index.run evs Index.initial))).
  { assert (G : forall s, Forall depthInRange (Index.entities s) ->
                          Forall depthInRange (Index.entities (Index.run evs s))).
    { induction Hf as [|ev evs Hev _ IH]; intros s Hs; [exact Hs|].
      cbn [Index.run fold_left]. apply IH. now apply index_step_range. }
    apply G. constructor. }
  eapply Forall_impl; [|exact H].
  intros e He. split; [exact He|].
  intros env mouse. unfold Index.renderProjection. cbv zeta. cbn [snd].
  unfold depthInRange in He. destruct He as (Hlo & Hhi).
  assert (Hz : 0 < ent_z e) by lra.
  split.
  - apply Rmult_le_reg_r with (ent_z e); [exact Hz|].
    unfold Rdiv. rewrite Rmult_assoc, Rinv_l by lra. lra.
  - apply Rmult_le_reg_r with (ent_z e); [exact Hz|].
    unfold Rdiv. rewrite Rmult_assoc, Rinv_l by lra. lra.
Qed.

(** ** Invariants of one event *)

Section IndexStep.

Variable J : Index.State -> Prop.
Hypothesis J_particles :
  forall env x y color count size s,
    J s -> J (Index.createParticles env x y color count size s).
Hypothesis J_shake15 : forall s, J s -> J (Index.set_screenShake 15 s).
Hypothesis J_shake40 : forall s, J s -> J (Index.set_screenShake 40 s).
Hypothesis J_health : forall v s, J s -> J (Index.set_playerHealth v s).
Hypothesis J_timers : forall v s, J s -> J (Index.set_timers v s).
Hypothesis J_gameState : forall v s, J s -> J (Index.set_gameState v s).
Hypothesis J_index : forall v s, J s -> J (Index.set_currentObjIndex v s).
Hypothesis J_spoken : forall v s, J s -> J (Index.set_spoken v s).
Hypothesis J_load :
  forall env reply s, J s -> J (Index.generateMission env reply s).
Hypothesis J_mouse : forall v s, J s -> J (Index.set_mousePos v s).
Hypothesis J_sway :
  forall v d s,
    J s ->
    J (Index.set_draws d
         (Index.set_swayOffset v
            (Index.set_screenShake (Index.screenShake s * 0.9) s))).
Hypothesis J_entities : forall v s, J s -> J (Index.set_entities v s).
Hypothesis J_advance :
  forall s,
    J s ->
    J (Index.set_particles (Index.advanceParticles (Index.particles s)) s).
Hypothesis J_halted : forall s, J s -> J (Index.set_halted true s).
Hypothesis J_click :
  forall s,
    J s ->
    J (Index.set_screenShake 10
         (Index.set_shotsFired (S (Index.shotsFired s)) s)).

Lemma index_step_keeps (ev : Index.Event) (s : Index.State) :
  J s -> J (Index.step ev s).
Proof.
  intros H. unfold Index.step. destruct (Index.halted s); [exact H|].
  destruct ev as [env reply| |x y|env|env|].
  - destruct (Index.isLoading s); [now apply J_load|exact H].
  - destruct (_ && _); [now apply J_gameState|exact H].
  - now apply J_mouse.
  - unfold Index.frame.
    destruct (Index.gameState s); try exact H.
    destruct (Index.mission s) as [m|]; [|exact H].
    unfold Index.render. cbv zeta.
    set (s2 := Index.set_draws _ _).
    assert (H2 : J s2) by (apply J_sway, H).
    pose proof (index_forEachEntity_keeps J J_particles J_shake15 J_health
                  env (Index.entities s2) s2 H2) as H3.
    destruct (Index.forEachEntity env (Index.entities s2) s2) as [es s3].
    cbn [snd] in H3.
    assert (H5 : J (Index.set_particles
                      (Index.advanceParticles
                         (Index.particles (Index.set_entities es s3)))
                      (Index.set_entities es s3)))
      by (apply J_advance, J_entities, H3).
    destruct (nth_error (objectives m) (Index.currentObjIndex s));
      [destruct (_ <=? _)%Z|]; cbn [Index.outcomeState].
    + apply J_spoken, J_gameState, H5.
    + exact H5.
    + apply J_halted, H5.
  - unfold Index.handleShoot.
    destruct (negb _); [exact H|]. cbv zeta.
    set (s1 := Index.set_screenShake 10 _).
    assert (H1 : J (snd (false, s1))) by (apply J_click, H).
    pose proof (index_mapShoot_keeps J J_particles J_shake40 J_timers
                  J_gameState J_index J_spoken
                  env s1 (Index.entities s1) (false, s1) H1) as H2.
    destruct (Index.mapShoot env s1 (Index.entities s1) (false, s1))
      as [next [hit s2]].
    cbn [snd] in H2. apply J_entities.
    destruct hit; [exact H2|now apply J_particles].
  - unfold Index.fireTimer. destruct (Index.timers s); [exact H|].
    apply J_timers, J_entities, H.
Qed.

End IndexStep.

Section Part0Step.

Variable J : Part0.State -> Prop.
Hypothesis J_particles :
  forall env x y color count size s,
    J s -> J (Part0.createParticles env x y color count size s).
Hypothesis J_fire :
  forall s,
    J s ->
    J (Part0.set_healthUI (Part0.playerHealth s - 10)%Z
         (Part0.set_playerHealth (Part0.playerHealth s - 10)%Z
            (Part0.set_screenShake 20 s))).
Hypothesis J_gameState : forall v s, J s -> J (Part0.set_gameState v s).
Hypothesis J_index : forall v s, J s -> J (Part0.set_currentObjIndex v s).
Hypothesis J_spoken : forall v s, J s -> J (Part0.set_spoken v s).
Hypothesis J_load :
  forall env reply s, J s -> J (Part0.generateMission env reply s).
Hypothesis J_mouse : forall v s, J s -> J (Part0.set_mousePos v s).
Hypothesis J_sway :
  forall v d s,
    J s ->
    J (Part0.set_draws d
         (Part0.set_swayOffset v
            (Part0.set_screenShake (Part0.screenShake s * 0.9) s))).
Hypothesis J_entities : forall v s, J s -> J (Part0.set_entities v s).
Hypothesis J_advance :
  forall s,
    J s ->
    J (Part0.set_particles (Part0.advanceParticles (Part0.particles s)) s).
Hypothesis J_click : forall s, J s -> J (Part0.set_screenShake 15 s).

Lemma part0_step_keeps (ev : Part0.Event) (s : Part0.State) :
  J s -> J (Part0.step ev s).
Proof.
  intros H. unfold Part0.step.
  destruct ev as [env reply| |x y|env|env].
  - destruct (Part0.isLoading s); [now apply J_load|exact H].
  - destruct (_ && _); [now apply J_gameState|exact H].
  - now apply J_mouse.
  - unfold Part0.frame.
    destruct (Part0.gameState s); try exact H.
    destruct (Part0.mission s) as [m|]; [|exact H].
    unfold Part0.render. cbv zeta.
    set (s2 := Part0.set_draws _ _).
    assert (H2 : J s2) by (apply J_sway, H).
    pose proof (part0_forEachEntity_keeps J J_particles J_fire
                  env (Part0.entities s2) s2 H2) as H3.
    destruct (Part0.forEachEntity env (Part0.entities s2) s2) as [es s3].
    cbn [snd] in H3.
    assert (H5 : J (Part0.set_particles
                      (Part0.advanceParticles
                         (Part0.particles (Part0.set_entities es s3)))
                      (Part0.set_entities es s3)))
      by (apply J_advance, J_entities, H3).
    destruct (_ <=? _)%Z; [apply J_gameState, H5|exact H5].
  - unfold Part0.handleShoot.
    destruct (negb _); [exact H|]. cbv zeta.
    set (s1 := Part0.set_screenShake 15 s).
    assert (H1 : J (snd (false, s1))) by (apply J_click, H).
    pose proof (part0_forEachShoot_keeps J J_particles J_gameState J_index
                  J_spoken env s1 (Part0.entities s1) (false, s1) H1) as H2.
    destruct (Part0.forEachShoot env s1 (Part0.entities s1) (false, s1))
      as [next [hit s2]].
    cbn [snd] in H2.
    destruct hit; [now apply J_entities|now apply J_particles, J_entities].
Qed.

End Part0Step.

(** ** Missions without objectives *)

Lemma index_generateMission_mission (env : Env) (reply : Reply)
    (s : Index.State) :
  let s' := Index.generateMission env reply s in
  Index.mission s'
  = match reply with Parsed data => Some data | _ => Index.mission s end
  /\ Index.halted s' = Index.halted s.
Proof.
  unfold Index.generateMission. destruct reply as [| |data]; cbv zeta;
    try (split; reflexivity).
  destruct (objectives data); split; reflexivity.
Qed.

Lemma index_halted_frozen (evs : list Index.Event) (s : Index.State) :
  Index.halted s = true -> Index.run evs s = s.
Proof.
  intros H. induction evs as [|ev evs IH]; [reflexivity|].
  cbn [Index.run fold_left].
  replace (Index.step ev s) with s; [exact IH|].
  unfold Index.step. now rewrite H.
Qed.

Lemma index_step_halted (ev : Index.Event) (s : Index.State) :
  Index.halted (Index.step ev s)
  = match ev with
    | Index.Frame _ =>
        Index.halted s
        || (isPlaying (Index.gameState s) && isSome (Index.mission s)
            && negb (isSome (Index.currentObj s)))
    | _ => Index.halted s
    end.
Proof.
  unfold Index.step. destruct (Index.halted s) eqn:Hh.
  - rewrite Hh. now destruct ev.
  - destruct ev as [env reply| |x y|env|env|].
    + destruct (Index.isLoading s); [|exact Hh].
      rewrite <- Hh. apply index_generateMission_mission.
    + destruct (_ && _); exact Hh.
    + exact Hh.
    + destruct (index_frame_effect env s) as (_ & _ & _ & _ & _ & H & _).
      rewrite H, Hh. reflexivity.
    + now rewrite index_handleShoot_halted.
    + unfold Index.fireTimer. destruct (Index.timers s); exact Hh.
Qed.

Lemma index_step_mission (ev : Index.Event) (s : Index.State) :
  Index.mission (Index.step ev s) = Index.mission s
  \/ exists env data,
       ev = Index.Loaded env (Parsed data) /\ Index.isLoading s = true
       /\ Index.mission (Index.step ev s) = Some data.
Proof.
  unfold Index.step. destruct (Index.halted s); [now left|].
  destruct ev as [env reply| |x y|env|env|].
  - destruct (Index.isLoading s) eqn:Hl; [|now left].
    destruct (index_generateMission_mission env reply s) as (Hm & _).
    destruct reply as [| |data]; [now left|now left|].
    right. exists env, data. auto.
  - left. destruct (_ && _); reflexivity.
  - now left.
  - left. apply (index_frame_effect env s).
  - left. destruct (Index.gameState s) eqn:Hg;
      try (rewrite index_handleShoot_idle by congruence; reflexivity).
    apply (index_handleShoot_progress env s Hg).
  - left. unfold Index.fireTimer. destruct (Index.timers s); reflexivity.
Qed.

(** X10. index.tsx, for replies that are missions of the declared type
    (every objective has its description): [render] throws only for a
    mission whose objective list is empty.  Whenever the application has
    stopped on an exception of [render], a mission is stored and it has no
    objective. *)
Theorem index_render_throws_only_without_objectives :
  forall s,
    Index.Reachable s ->
    Index.halted s = true ->
    exists m, Index.mission s = Some m /\ objectives m = [].
Proof.
  intros s H. induction H as [|ev s Hs IH]; intros Hh; [discriminate|].
  destruct (Index.halted s) eqn:E.
  - replace (Index.step ev s) with s
      by (unfold Index.step; now rewrite E).
    now apply IH.
  - rewrite index_step_halted, E in Hh.
    destruct ev as [env reply| |x y|env|env|]; try discriminate.
    cbn [orb] in Hh.
    apply andb_true_iff in Hh. destruct Hh as (Hh & Hc).
    apply andb_true_iff in Hh. destruct Hh as (Hg & Hm).
    destruct (index_frame_effect env s) as (Hmis & _).
    rewrite index_step_frame by exact E. rewrite Hmis.
    destruct (index_reachable_inv s Hs) as (_ & Hidx & _).
    unfold Index.currentObj, Index.objectiveCount in *.
    destruct (Index.mission s) as [m|]; [|discriminate].
    exists m. split; [reflexivity|].
    destruct (nth_error (objectives m) (Index.currentObjIndex s)) eqn:En;
      [discriminate|].
    apply nth_error_None in En.
    destruct (objectives m); [reflexivity|cbn [List.length] in *; lia].
Qed.

Lemma index_empty_mission_halts (env env' : Env) (data : Mission) :
  objectives data = [] ->
  let s := Index.run [ Index.Loaded env (Parsed data); Index.Commence;
                       Index.Frame env' ] Index.initial in
  Index.mission s = Some data
  /\ Index.gameState s = playing
  /\ Index.halted s = true.
Proof.
  intros Hd s.
  set (s1 := Index.step (Index.Loaded env (Parsed data)) Index.initial).
  assert (E1 : s1 = Index.generateMission env (Parsed data) Index.initial)
    by reflexivity.
  destruct (index_generateMission_effect env (Parsed data) Index.initial)
    as (_ & Hi1 & Hg1 & Hl1).
  destruct (index_generateMission_mission env (Parsed data) Index.initial)
    as (Hm1 & Hh1).
  rewrite <- E1 in Hi1, Hg1, Hl1, Hm1, Hh1.
  set (s2 := Index.step Index.Commence s1).
  assert (E2 : s2 = Index.set_gameState playing s1).
  { unfold s2, Index.step. rewrite Hh1, Hg1, Hm1, Hl1. reflexivity. }
  assert (F2 : Index.mission s2 = Some data /\ Index.gameState s2 = playing
               /\ Index.halted s2 = false /\ Index.currentObjIndex s2 = 0%nat).
  { rewrite E2. cbn [Index.mission Index.gameState Index.halted
                     Index.currentObjIndex Index.set_gameState].
    splits; [assumption|reflexivity|assumption|assumption]. }
  destruct F2 as (Hm2 & Hg2 & Hh2 & Hi2).
  assert (Es : s = Index.step (Index.Frame env') s2) by reflexivity.
  assert (Hh : Index.halted s = true).
  { rewrite Es, index_step_halted, Hh2, Hg2, Hm2.
    unfold Index.currentObj. rewrite Hm2, Hi2, Hd. reflexivity. }
  destruct (index_frame_effect env' s2) as (Hmis & _ & _ & _ & Hgs & _).
  rewrite <- index_step_frame in Hmis, Hgs by exact Hh2.
  rewrite <- Es in Hmis, Hgs.
  splits.
  - congruence.
  - rewrite Hgs. unfold Index.currentObj. rewrite Hm2, Hi2, Hd, Hg2.
    reflexivity.
  - exact Hh.
Qed.

(** X11. index.tsx: a parsed mission without objectives is accepted, the
    player can start it, and the first frame then throws: the application
    stops, and no later event changes anything. *)
Theorem index_empty_mission_stops_first_frame :
  forall env env' data,
    objectives data = [] ->
    let s := Index.run [ Index.Loaded env (Parsed data); Index.Commence;
                         Index.Frame env' ] Index.initial in
    Index.mission s = Some data
    /\ Index.gameState s = playing
    /\ Index.halted s = true
    /\ forall evs, Index.run evs s = s.
Proof.
  intros env env' data Hd s.
  destruct (index_empty_mission_halts env env' data Hd) as (Hm & Hg & Hh).
  fold s in Hm, Hg, Hh.
  splits; [exact Hm|exact Hg|exact Hh|].
  intros evs. now apply index_halted_frozen.
Qed.

Lemma part0_generateMission_mission (env : Env) (reply : Reply)
    (s : Part0.State) :
  Part0.mission (Part0.generateMission env reply s)
  = match reply with
    | Parsed data =>
        match objectives data with
        | [] => Some Part0.fallback
        | _ :: _ => Some data
        end
    | _ => Some Part0.fallback
    end.
Proof.
  unfold Part0.generateMission, Part0.installFallback.
  destruct reply as [| |data]; cbv zeta; try reflexivity.
  destruct (objectives data); reflexivity.
Qed.

Lemma part0_generateMission_count (env : Env) (reply : Reply)
    (s : Part0.State) :
  (0 < Part0.objectiveCount (Part0.generateMission env reply s))%nat.
Proof.
  unfold Part0.objectiveCount. rewrite part0_generateMission_mission.
  destruct reply as [| |data]; try (cbn; lia).
  destruct (objectives data) as [|o rest] eqn:Ho; [cbn; lia|].
  rewrite Ho. cbn. lia.
Qed.

(** X12. part_000: whatever the mission provider answers, [generateMission]
    leaves a mission with at least one objective, the six spawned entities
    and the loading flag cleared.  The stored mission is the parsed one
    when it has an objective, and the built-in one in every other case
    (rejection, unparsable text, a mission without objectives). *)
Theorem part0_generateMission_always_playable :
  forall env reply s,
    let s' := Part0.generateMission env reply s in
    Part0.isLoading s' = false
    /\ roster (Part0.entities s')
    /\ (0 < Part0.objectiveCount s')%nat
    /\ Part0.mission s'
       = Some (match reply with
               | Parsed data =>
                   match objectives data with
                   | [] => Part0.fallback
                   | _ :: _ => data
                   end
               | _ => Part0.fallback
               end).
Proof.
  intros env reply s s'.
  destruct (part0_generateMission_effect env reply s) as (_ & _ & _ & Hl & Hr).
  pose proof (part0_generateMission_mission env reply s) as Hm.
  pose proof (part0_generateMission_count env reply s) as Hc.
  fold s' in Hl, Hr, Hm, Hc.
  split; [exact Hl|]. split; [exact Hr|]. split; [exact Hc|].
  rewrite Hm.
  destruct reply as [| |data]; try reflexivity.
  destruct (objectives data); reflexivity.
Qed.

Lemma part0_step_mission (ev : Part0.Event) (s : Part0.State) :
  (Part0.mission (Part0.step ev s) = Part0.mission s
   /\ Part0.isLoading (Part0.step ev s) = Part0.isLoading s)
  \/ exists env reply,
       Part0.step ev s = Part0.generateMission env reply s.
Proof.
  unfold Part0.step.
  destruct ev as [env reply| |x y|env|env].
  - destruct (Part0.isLoading s) eqn:E;
      [right; eauto|left; split; [reflexivity|exact E]].
  - left. destruct (_ && _); split; reflexivity.
  - left; split; reflexivity.
  - left.
    destruct (isPlaying (Part0.gameState s) && isSome (Part0.mission s))
      eqn:Hp.
    + apply andb_true_iff in Hp. destruct Hp as (Hg & Hm).
      assert (Hg' : Part0.gameState s = playing)
        by (destruct (Part0.gameState s); try discriminate; reflexivity).
      assert (Hm' : Part0.mission s <> None)
        by (destruct (Part0.mission s); [discriminate|discriminate]).
      destruct (part0_frame_effect env s Hg' Hm') as (H1 & _ & H3 & _).
      split; assumption.
    + rewrite part0_frame_idle; [split; reflexivity|].
      apply andb_false_iff in Hp. destruct Hp as [Hg|Hm].
      * left. intros E. rewrite E in Hg. discriminate.
      * right. destruct (Part0.mission s); [discriminate|reflexivity].
  - left.
    destruct (isPlaying (Part0.gameState s)) eqn:Hp.
    + assert (Hg : Part0.gameState s = playing)
        by (destruct (Part0.gameState s); try discriminate; reflexivity).
      destruct (part0_handleShoot_progress env s Hg) as (_ & _ & _ & H1 & H2).
      split; assumption.
    + rewrite part0_handleShoot_idle; [split; reflexivity|].
      intros E. rewrite E in Hp. discriminate.
Qed.

(** X13. part_000: once the mission request has settled there is always a
    current objective: the objective index never points past the end of
    the objective list. *)
Theorem part0_objective_always_defined :
  forall s,
    Part0.Reachable s ->
    Part0.isLoading s = false ->
    exists o, Part0.currentObj s = Some o.
Proof.
  intros s H Hl.
  assert (Hc : (0 < Part0.objectiveCount s)%nat).
  { clear - H Hl. induction H as [env|ev s Hs IH]; [discriminate|].
    destruct (part0_step_mission ev s) as [(Hm & Hl')|(env & reply & E)].
    - unfold Part0.objectiveCount in *. rewrite Hm. apply IH. congruence.
    - rewrite E. apply part0_generateMission_count. }
  destruct (part0_reachable_inv s H) as (_ & _ & _ & Hidx & _).
  unfold Part0.currentObj, Part0.objectiveCount in *.
  destruct (Part0.mission s) as [m|]; [|lia].
  destruct (nth_error (objectives m) (Part0.currentObjIndex s)) eqn:En;
    [eauto|].
  apply nth_error_None in En. lia.
Qed.

(** ** The health shown to the player *)

Lemma string_length_app (a b : string) :
  String.length (a ++ b) = (String.length a + String.length b)%nat.
Proof. induction a as [|c a IH]; cbn; [reflexivity|now rewrite IH]. Qed.

Lemma string_of_list_length (l : list Ascii.ascii) :
  String.length (string_of_list_ascii l) = List.length l.
Proof. induction l as [|c l IH]; cbn; [reflexivity|now rewrite IH]. Qed.

Lemma index_repeatChar_spec (c : Ascii.ascii) (count : Z) :
  match Index.repeatChar c count with
  | Some str => (0 <= count)%Z /\ String.length str = Z.to_nat count
  | None => (count < 0)%Z
  end.
Proof.
  unfold Index.repeatChar. destruct (count <? 0)%Z eqn:E.
  - now apply Z.ltb_lt.
  - apply Z.ltb_ge in E. split; [exact E|].
    now rewrite string_of_list_length, repeat_length.
Qed.

Lemma index_healthBar_spec (h : Z) :
  match Index.healthBar h with
  | Some bar => (-9 <= h <= 100)%Z /\ String.length bar = 12%nat
  | None => (h < -9 \/ 100 < h)%Z
  end.
Proof.
  unfold Index.healthBar. cbv zeta.
  pose proof (index_repeatChar_spec "#"%char ((h + 9) / 10)) as H1.
  pose proof (index_repeatChar_spec "."%char (10 - (h + 9) / 10)) as H2.
  assert (Hd : (10 * ((h + 9) / 10) <= h + 9 < 10 * ((h + 9) / 10) + 10)%Z).
  { pose proof (Z.div_mod (h + 9) 10 ltac:(lia)).
    pose proof (Z.mod_pos_bound (h + 9) 10 ltac:(lia)). lia. }
  destruct (Index.repeatChar "#"%char ((h + 9) / 10)) as [hashes|].
  - destruct (Index.repeatChar "."%char (10 - (h + 9) / 10)) as [dots|].
    + destruct H1 as (H1 & L1). destruct H2 as (H2 & L2).
      split; [lia|].
      cbn [String.append String.length].
      rewrite !string_length_app, L1, L2. cbn [String.length]. lia.
    + right. lia.
  - left. lia.
Qed.

(** X14. index.tsx: the health bar of the HUD can be drawn exactly for a
    health between -9 and 100 (outside that range [repeat] is given a
    negative count and throws); it then has 12 characters.  The health of
    every reachable state is in that range, so drawing the bar never
    throws. *)
Theorem index_healthBar_never_throws :
  (forall h, Index.healthBar h <> None <-> (-9 <= h <= 100)%Z)
  /\ (forall h bar,
        Index.healthBar h = Some bar -> String.length bar = 12%nat)
  /\ (forall s,
        Index.Reachable s -> Index.healthBar (Index.playerHealth s) <> None).
Proof.
  splits.
  - intros h. pose proof (index_healthBar_spec h) as H.
    destruct (Index.healthBar h); split; intros K; try lia;
      try congruence; tauto.
  - intros h bar E. pose proof (index_healthBar_spec h) as H.
    rewrite E in H. tauto.
  - intros s Hs. destruct (index_reachable_inv s Hs) as (Hh & _).
    pose proof (index_healthBar_spec (Index.playerHealth s)) as H.
    destruct (Index.healthBar (Index.playerHealth s)); [congruence|lia].
Qed.

(** X15. part_000: the health shown in the HUD ([healthUI]) is always the
    health the game logic works with ([playerHealthRef]). *)
Theorem part0_hud_shows_health :
  forall s, Part0.Reachable s -> Part0.healthUI s = Part0.playerHealth s.
Proof.
  intros s H. induction H as [env|ev s _ IH]; [reflexivity|].
  revert IH.
  apply (part0_step_keeps
           (fun t => Part0.healthUI t = Part0.playerHealth t));
    try (intros; assumption).
  - intros t _. reflexivity.
  - intros env reply t Ht. unfold Part0.generateMission, Part0.installFallback.
    destruct reply as [| |data]; cbv zeta; try exact Ht.
    destruct (objectives data); exact Ht.
Qed.

(** ** Screen shake and sway *)

Lemma index_shake_bounded (s : Index.State) :
  Index.Reachable s -> 0 <= Index.screenShake s <= 40.
Proof.
  intros H. induction H as [|ev s _ IH].
  - cbn [Index.screenShake Index.initial]. lra.
  - revert IH.
    apply (index_step_keeps (fun t => 0 <= Index.screenShake t <= 40));
      try (intros; assumption);
      try (intros; cbn [Index.screenShake Index.set_screenShake
                        Index.set_draws Index.set_swayOffset
                        Index.set_shotsFired] in *; lra).
    intros env reply t Ht. unfold Index.generateMission.
    destruct reply as [| |data]; cbv zeta; try exact Ht.
    destruct (objectives data); exact Ht.
Qed.

Lemma part0_shake_bounded (s : Part0.State) :
  Part0.Reachable s -> 0 <= Part0.screenShake s <= 20.
Proof.
  intros H. induction H as [env|ev s _ IH].
  - cbn [Part0.screenShake Part0.initial]. lra.
  - revert IH.
    apply (part0_step_keeps (fun t => 0 <= Part0.screenShake t <= 20));
      try (intros; assumption);
      try (intros; cbn [Part0.screenShake Part0.set_screenShake
                        Part0.set_draws Part0.set_swayOffset
                        Part0.set_healthUI Part0.set_playerHealth] in *; lra).
    intros env reply t Ht. unfold Part0.generateMission, Part0.installFallback.
    destruct reply as [| |data]; cbv zeta; try exact Ht.
    destruct (objectives data); exact Ht.
Qed.

(** The sway of one frame, for a shake of at most [2 * k / 0.9] before the
    frame. *)
Lemma sway_bound (time r1 r2 shake k : R) :
  0 <= r1 < 1 -> 0 <= r2 < 1 -> 0 <= shake * 0.9 <= 2 * k ->
  let heartbeat := 0.5 + sin (time * 2.5) * 0.2 in
  Rabs (sin (time * 0.7) * 12 * heartbeat + (r1 - 0.5) * (shake * 0.9))
  <= 8.4 + k
  /\ Rabs (cos (time * 1.1) * 8 * heartbeat + (r2 - 0.5) * (shake * 0.9))
     <= 5.6 + k.
Proof.
  intros Hr1 Hr2 Hk heartbeat.
  pose proof (SIN_bound (time * 2.5)) as Hb.
  pose proof (SIN_bound (time * 0.7)) as Hs.
  pose proof (COS_bound (time * 1.1)) as Hc.
  assert (Hh : 0.3 <= heartbeat <= 0.7) by (unfold heartbeat; lra).
  clearbody heartbeat.
  set (a := sin (time * 0.7)) in *. set (c := cos (time * 1.1)) in *.
  set (q := shake * 0.9) in *. clearbody a c q.
  assert (A : -0.7 <= a * heartbeat <= 0.7) by nra.
  assert (C : -0.7 <= c * heartbeat <= 0.7) by nra.
  assert (Q1 : - k <= (r1 - 0.5) * q <= k) by nra.
  assert (Q2 : - k <= (r2 - 0.5) * q <= k) by nra.
  split; apply Rabs_le; lra.
Qed.

(** X16. index.tsx: when a frame draws its random numbers from [0, 1),
    the sway it computes is at most 26.4 horizontally and 23.6 vertically,
    so a shot lands no further than that from the centre of the window. *)
Theorem index_sway_is_bounded :
  forall env s,
    Index.Reachable s ->
    fairDraws env ->
    Index.halted s = false ->
    Index.gameState s = playing ->
    Index.mission s <> None ->
    let s' := Index.step (Index.Frame env) s in
    Rabs (fst (Index.swayOffset s')) <= 26.4
    /\ Rabs (snd (Index.swayOffset s')) <= 23.6
    /\ forall env',
         Rabs (fst (Index.impact env' s') - innerWidth env' / 2) <= 26.4
         /\ Rabs (snd (Index.impact env' s') - innerHeight env' / 2) <= 23.6.
Proof.
  intros env s Hs Hf Hh Hg Hm s'.
  pose proof (index_shake_bounded s Hs) as Hb.
  destruct (index_frame_aim env s Hg Hm) as (Hsw & _).
  rewrite <- index_step_frame in Hsw by exact Hh. fold s' in Hsw.
  destruct (sway_bound (elapsed env) (random env (Index.draws s))
              (random env (Index.draws s + 1)%nat) (Index.screenShake s) 18
              (Hf _) (Hf _) ltac:(lra)) as (Hx & Hy).
  assert (Hx' : Rabs (fst (Index.swayOffset s')) <= 26.4)
    by (rewrite Hsw; cbn [fst]; lra).
  assert (Hy' : Rabs (snd (Index.swayOffset s')) <= 23.6)
    by (rewrite Hsw; cbn [snd]; lra).
  splits; [exact Hx'|exact Hy'|].
  intros env'. unfold Index.impact. cbn [fst snd].
  replace (innerWidth env' / 2 + fst (Index.swayOffset s') - innerWidth env' / 2)
    with (fst (Index.swayOffset s')) by lra.
  replace (innerHeight env' / 2 + snd (Index.swayOffset s')
           - innerHeight env' / 2)
    with (snd (Index.swayOffset s')) by lra.
  split; assumption.
Qed.

(** X17. part_000: when a frame draws its random numbers from [0, 1), the
    sway it computes is at most 17.4 horizontally and 14.6 vertically, so
    a shot lands no further than that from the centre of the window. *)
Theorem part0_sway_is_bounded :
  forall env s,
    Part0.Reachable s ->
    fairDraws env ->
    Part0.gameState s = playing ->
    Part0.mission s <> None ->
    let s' := Part0.step (Part0.Frame env) s in
    Rabs (fst (Part0.swayOffset s')) <= 17.4
    /\ Rabs (snd (Part0.swayOffset s')) <= 14.6
    /\ forall env',
         Rabs (fst (Part0.impact env' s') - innerWidth env' / 2) <= 17.4
         /\ Rabs (snd (Part0.impact env' s') - innerHeight env' / 2) <= 14.6.
Proof.
  intros env s Hs Hf Hg Hm s'.
  pose proof (part0_shake_bounded s Hs) as Hb.
  destruct (part0_frame_aim env s Hg Hm) as (Hsw & _).
  rewrite <- part0_step_frame in Hsw. fold s' in Hsw.
  destruct (sway_bound (elapsed env) (random env (Part0.draws s))
              (random env (Part0.draws s + 1)%nat) (Part0.screenShake s) 9
              (Hf _) (Hf _) ltac:(lra)) as (Hx & Hy).
  assert (Hx' : Rabs (fst (Part0.swayOffset s')) <= 17.4)
    by (rewrite Hsw; cbn [fst]; lra).
  assert (Hy' : Rabs (snd (Part0.swayOffset s')) <= 14.6)
    by (rewrite Hsw; cbn [snd]; lra).
  splits; [exact Hx'|exact Hy'|].
  intros env'. unfold Part0.impact. cbn [fst snd].
  replace (innerWidth env' / 2 + fst (Part0.swayOffset s') - innerWidth env' / 2)
    with (fst (Part0.swayOffset s')) by lra.
  replace (innerHeight env' / 2 + snd (Part0.swayOffset s')
           - innerHeight env' / 2)
    with (snd (Part0.swayOffset s')) by lra.
  split; assumption.
Qed.

(** ** After the end of the game *)

Lemma part0_step_finished (ev : Part0.Event) (s : Part0.State) :
  Part0.isLoading s = false ->
  Part0.gameState s = success \/ Part0.gameState s = failure ->
  Part0.step ev s = s \/ exists v, Part0.step ev s = Part0.set_mousePos v s.
Proof.
  intros Hl Hg.
  assert (Hn : Part0.gameState s <> playing)
    by (destruct Hg as [E|E]; rewrite E; discriminate).
  unfold Part0.step.
  destruct ev as [env reply| |x y|env|env].
  - rewrite Hl. now left.
  - left. destruct Hg as [E|E]; rewrite E; reflexivity.
  - right. eauto.
  - left. apply part0_frame_idle. now left.
  - left. now apply part0_handleShoot_idle.
Qed.

(** X18. part_000: once the game has ended in success or failure, no
    sequence of events changes anything but the recorded pointer position:
    entities, particles, health, objective index, narration and game state
    stay as they are. *)
Theorem part0_finished_game_is_frozen :
  forall evs s,
    Part0.isLoading s = false ->
    Part0.gameState s = success \/ Part0.gameState s = failure ->
    exists v, Part0.run evs s = Part0.set_mousePos v s.
Proof.
  induction evs as [|ev evs IH]; intros s Hl Hg.
  - exists (Part0.mousePos s). destruct s; reflexivity.
  - cbn [Part0.run fold_left].
    destruct (part0_step_finished ev s Hl Hg) as [E|(v & E)]; rewrite E.
    + apply (IH s Hl Hg).
    + destruct (IH (Part0.set_mousePos v s) Hl Hg) as (v' & E').
      exists v'. exact E'.
Qed.

(** ** Clicks that miss *)

Lemma index_mapShoot_miss (env : Env) (s0 : Index.State) :
  forall es acc,
    (forall e, In e es -> Index.struck env s0 e = false) ->
    Index.mapShoot env s0 es acc = (es, acc).
Proof.
  induction es as [|e es IH]; intros acc H; [reflexivity|].
  cbn [Index.mapShoot].
  rewrite index_shootEntity_spares by (apply H; now left).
  rewrite IH by (intros e' He'; apply H; now right).
  reflexivity.
Qed.

Lemma part0_forEachShoot_miss (env : Env) (s0 : Part0.State) :
  forall es acc,
    (forall e, In e es -> Part0.struck env s0 e = false) ->
    Part0.forEachShoot env s0 es acc = (es, acc).
Proof.
  induction es as [|e es IH]; intros acc H; [reflexivity|].
  cbn [Part0.forEachShoot].
  rewrite part0_shootEntity_spares by (apply H; now left).
  rewrite IH by (intros e' He'; apply H; now right).
  reflexivity.
Qed.

(** X19. index.tsx: a click while playing that strikes no living entity
    changes no entity, objective, health or game state and queues no chain
    reaction; it sets the shake to 10 and adds three white particles at
    the point of impact. *)
Theorem index_miss_only_ricochets :
  forall env s,
    Index.gameState s = playing ->
    (forall e, In e (Index.entities s) -> Index.struck env s e = false) ->
    let s' := Index.handleShoot env s in
    Index.entities s' = Index.entities s
    /\ Index.gameState s' = playing
    /\ Index.currentObjIndex s' = Index.currentObjIndex s
    /\ Index.playerHealth s' = Index.playerHealth s
    /\ Index.timers s' = Index.timers s
    /\ Index.spoken s' = Index.spoken s
    /\ Index.screenShake s' = 10
    /\ Index.particles s'
       = lastn 100
           (Index.particles s
            ++ burst (random env) (Index.draws s) (fst (Index.impact env s))
                 (snd (Index.impact env s)) "#ffffff" 3 1).
Proof.
  intros env s Hg Hmiss s'. unfold s', Index.handleShoot.
  rewrite Hg. cbn [isPlaying negb]. cbv zeta.
  rewrite index_mapShoot_miss by exact Hmiss.
  rewrite <- Hg. splits; reflexivity.
Qed.

(** X20. part_000: a click while playing that strikes no living entity
    changes no entity, objective, health or game state; it sets the shake
    to 15 and adds three white particles at the point of impact. *)
Theorem part0_miss_only_ricochets :
  forall env s,
    Part0.gameState s = playing ->
    (forall e, In e (Part0.entities s) -> Part0.struck env s e = false) ->
    let s' := Part0.handleShoot env s in
    Part0.entities s' = Part0.entities s
    /\ Part0.gameState s' = playing
    /\ Part0.currentObjIndex s' = Part0.currentObjIndex s
    /\ Part0.playerHealth s' = Part0.playerHealth s
    /\ Part0.spoken s' = Part0.spoken s
    /\ Part0.screenShake s' = 15
    /\ Part0.particles s'
       = Part0.particles
           (Part0.createParticles env (fst (Part0.impact env s))
              (snd (Part0.impact env s)) "#fff" 3 1 s).
Proof.
  intros env s Hg Hmiss s'. unfold s', Part0.handleShoot.
  rewrite Hg. cbn [isPlaying negb]. cbv zeta.
  rewrite part0_forEachShoot_miss by exact Hmiss.
  rewrite <- Hg. splits; reflexivity.
Qed.

(** ** Hostile fire *)

(** X21. A hostile entity that has just fired does not fire again in any
    frame rendered up to 2000 ms later in index.tsx, and up to 3000 ms
    later in part_000. *)
Theorem hostile_fire_has_cooldown :
  (forall env env' ent s,
      fires 2000 env ent = true ->
      (now env' <= now env + 2000)%Z ->
      fires 2000 env' (fst (Index.updateEntity env ent s)) = false)
  /\ (forall env env' ent s,
      fires 3000 env ent = true ->
      (now env' <= now env + 3000)%Z ->
      fires 3000 env' (fst (Part0.updateEntity env ent s)) = false).
Proof.
  split; intros env env' ent s Hf Hn.
  - assert (Hd : ent_isDead ent = false).
    { unfold fires in Hf. destruct (ent_isDead ent); [discriminate|reflexivity]. }
    destruct (index_updateEntity_living env ent s Hd)
      as (_ & _ & _ & _ & _ & _ & _ & Ht).
    rewrite Hf in Ht. unfold fires. rewrite Ht.
    replace (2000 <? now env' - now env)%Z with false
      by (symmetry; apply Z.ltb_ge; lia).
    now rewrite andb_false_r.
  - assert (Hd : ent_isDead ent = false).
    { unfold fires in Hf. destruct (ent_isDead ent); [discriminate|reflexivity]. }
    destruct (part0_updateEntity_living env ent s Hd)
      as (_ & _ & _ & _ & _ & _ & _ & Ht).
    rewrite Hf in Ht. unfold fires. rewrite Ht.
    replace (3000 <? now env' - now env)%Z with false
      by (symmetry; apply Z.ltb_ge; lia).
    now rewrite andb_false_r.
Qed.

(** ** The first frame of a game *)

Lemma index_forEachEntity_health (env : Env) :
  forall es s,
    Index.playerHealth (snd (Index.forEachEntity env es s))
    = Nat.iter (List.length (filter (fires 2000 env) es))
        (fun h => Z.max 0 (h - 10)) (Index.playerHealth s).
Proof.
  induction es as [|e es IH]; intros s; [reflexivity|].
  cbn [Index.forEachEntity filter].
  destruct (index_updateEntity_state env e s) as (_ & _ & _ & _ & He).
  destruct (Index.updateEntity env e s) as [e' s1].
  specialize (IH s1).
  destruct (Index.forEachEntity env es s1) as [rest s2].
  cbn [snd] in *. rewrite IH, He.
  destruct (fires 2000 env e); [|reflexivity].
  cbn [List.length]. now rewrite Nat.iter_succ_r.
Qed.

Lemma index_frame_health (env : Env) (s : Index.State) :
  Index.gameState s = playing -> Index.mission s <> None ->
  Index.playerHealth (Index.outcomeState (Index.frame env s))
  = Nat.iter (List.length (filter (fires 2000 env) (Index.entities s)))
      (fun h => Z.max 0 (h - 10)) (Index.playerHealth s).
Proof.
  intros Hg Hm. unfold Index.frame. rewrite Hg.
  destruct (Index.mission s) as [m|]; [|congruence].
  unfold Index.render. cbv zeta.
  set (s2 := Index.set_draws _ _).
  pose proof (index_forEachEntity_health env (Index.entities s2) s2) as H.
  destruct (Index.forEachEntity env (Index.entities s2) s2) as [es s3].
  cbn [snd] in H.
  destruct (nth_error (objectives m) (Index.currentObjIndex s));
    [destruct (_ <=? _)%Z|]; exact H.
Qed.

Lemma index_generateMission_entities (env : Env) (data : Mission)
    (s : Index.State) :
  Index.entities (Index.generateMission env (Parsed data) s)
  = Index.entities (Index.spawnEntities env s).
Proof.
  unfold Index.generateMission. cbv zeta.
  destruct (objectives data); reflexivity.
Qed.

Lemma part0_generateMission_entities (env : Env) (reply : Reply)
    (s : Part0.State) :
  Part0.entities (Part0.generateMission env reply s)
  = Part0.entities (Part0.spawnEntities env s).
Proof.
  unfold Part0.generateMission, Part0.installFallback.
  destruct reply as [| |data]; cbv zeta; try reflexivity.
  destruct (objectives data); reflexivity.
Qed.

Lemma index_spawn_fires (env env' : Env) (s : Index.State) :
  (2000 < now env')%Z ->
  List.length (filter (fires 2000 env')
                 (Index.entities (Index.spawnEntities env s))) = 1%nat.
Proof.
  intros Hn. unfold Index.spawnEntities. cbv zeta.
  cbn [Index.entities Index.set_draws Index.set_entities map seq app].
  unfold fires.
  cbn [filter ent_isDead ent_isHostile ent_lastFireTime negb andb].
  replace (2000 <? now env' - 0)%Z with true
    by (symmetry; apply Z.ltb_lt; lia).
  reflexivity.
Qed.

Lemma part0_spawn_fires (env env' : Env) (s : Part0.State) :
  (3000 < now env')%Z ->
  List.length (filter (fires 3000 env')
                 (Part0.entities (Part0.spawnEntities env s))) = 1%nat.
Proof.
  intros Hn. unfold Part0.spawnEntities. cbv zeta.
  cbn [Part0.entities Part0.set_entities map seq app].
  unfold fires.
  cbn [filter ent_isDead ent_isHostile ent_lastFireTime negb andb].
  replace (3000 <? now env' - 0)%Z with true
    by (symmetry; apply Z.ltb_lt; lia).
  reflexivity.
Qed.

(** X22. index.tsx: the guard is spawned with a last fire time of 0, so it
    fires in the first frame of every game (the clock being past 2000 ms):
    after a mission of the declared type with at least one objective is
    parsed (every objective has its description), the player starts and
    one frame is rendered, the health is 90 and the game goes on. *)
Theorem index_first_frame_costs_health :
  forall env env' data,
    objectives data <> [] ->
    (2000 < now env')%Z ->
    let s := Index.run [ Index.Loaded env (Parsed data); Index.Commence;
                         Index.Frame env' ] Index.initial in
    Index.playerHealth s = 90%Z
    /\ Index.gameState s = playing
    /\ Index.halted s = false.
Proof.
  intros env env' data Hd Hn.
  cbn [Index.run fold_left].
  set (s1 := Index.step (Index.Loaded env (Parsed data)) Index.initial).
  assert (E1 : s1 = Index.generateMission env (Parsed data) Index.initial)
    by reflexivity.
  destruct (index_generateMission_effect env (Parsed data) Index.initial)
    as (Hp1 & Hi1 & Hg1 & Hl1).
  destruct (index_generateMission_mission env (Parsed data) Index.initial)
    as (Hm1 & Hh1).
  pose proof (index_generateMission_entities env data Index.initial) as He1.
  rewrite <- E1 in Hp1, Hi1, Hg1, Hl1, Hm1, Hh1, He1.
  set (s2 := Index.step Index.Commence s1).
  assert (E2 : s2 = Index.set_gameState playing s1).
  { unfold s2, Index.step. rewrite Hh1, Hg1, Hm1, Hl1. reflexivity. }
  assert (Hh2 : Index.halted s2 = false) by (rewrite E2; exact Hh1).
  assert (Hg2 : Index.gameState s2 = playing) by (rewrite E2; reflexivity).
  assert (Hm2 : Index.mission s2 = Some data) by (rewrite E2; exact Hm1).
  assert (Hp2 : Index.playerHealth s2 = 100%Z) by (rewrite E2; exact Hp1).
  assert (Hc2 : isSome (Index.currentObj s2) = true).
  { unfold Index.currentObj. rewrite Hm2.
    replace (Index.currentObjIndex s2) with 0%nat
      by (rewrite E2; symmetry; exact Hi1).
    destruct (objectives data); [congruence|reflexivity]. }
  pose proof (index_step_halted (Index.Frame env') s2) as Hh.
  cbv iota beta in Hh. rewrite Hh2, Hc2, andb_false_r in Hh.
  rewrite index_step_frame in * by exact Hh2.
  destruct (index_frame_effect env' s2) as (_ & _ & _ & _ & Hgs & _).
  rewrite Hg2, Hc2, Hp2 in Hgs.
  splits; [|exact Hgs|exact Hh].
  rewrite index_frame_health by congruence.
  replace (Index.entities s2) with (Index.entities s1)
    by (rewrite E2; reflexivity).
  rewrite He1, index_spawn_fires by exact Hn.
  rewrite Hp2. reflexivity.
Qed.

(** X23. part_000: the guard is spawned with a last fire time of 0, so it
    fires in the first frame of every game (the clock being past 3000 ms):
    whatever the mission provider answered, after the player starts and
    one frame is rendered the health is 90 and the game goes on. *)
Theorem part0_first_frame_costs_health :
  forall env reply env',
    (3000 < now env')%Z ->
    let s := Part0.run [ Part0.Loaded env reply; Part0.Commence;
                         Part0.Frame env' ] (Part0.initial env) in
    Part0.playerHealth s = 90%Z /\ Part0.gameState s = playing.
Proof.
  intros env reply env' Hn.
  cbn [Part0.run fold_left].
  set (s1 := Part0.step (Part0.Loaded env reply) (Part0.initial env)).
  assert (E1 : s1 = Part0.generateMission env reply (Part0.initial env))
    by reflexivity.
  destruct (part0_generateMission_effect env reply (Part0.initial env))
    as (Hp1 & _ & Hg1 & Hl1 & _).
  pose proof (part0_generateMission_count env reply (Part0.initial env)) as Hc1.
  pose proof (part0_generateMission_entities env reply (Part0.initial env))
    as He1.
  rewrite <- E1 in Hp1, Hg1, Hl1, Hc1, He1.
  assert (Hm1 : Part0.mission s1 <> None).
  { unfold Part0.objectiveCount in Hc1. destruct (Part0.mission s1);
      [discriminate|lia]. }
  set (s2 := Part0.step Part0.Commence s1).
  assert (E2 : s2 = Part0.set_gameState playing s1).
  { unfold s2, Part0.step. rewrite Hg1, Hl1.
    destruct (Part0.mission s1); [reflexivity|congruence]. }
  rewrite part0_step_frame.
  assert (Hg2 : Part0.gameState s2 = playing) by (rewrite E2; reflexivity).
  assert (Hm2 : Part0.mission s2 <> None) by (rewrite E2; exact Hm1).
  destruct (part0_frame_effect env' s2 Hg2 Hm2) as (_ & _ & _ & Hh & Hgs & _).
  replace (Part0.entities s2) with (Part0.entities s1) in Hh
    by (rewrite E2; reflexivity).
  rewrite He1, part0_spawn_fires in Hh by exact Hn.
  replace (Part0.playerHealth s2) with (Part0.playerHealth s1) in Hh
    by (rewrite E2; reflexivity).
  rewrite Hp1 in Hh.
  assert (Hv : Part0.playerHealth (Part0.frame env' s2) = 90%Z)
    by (rewrite Hh; reflexivity).
  split; [exact Hv|]. rewrite Hgs, Hv. reflexivity.
Qed.

(** ** Instances of the further properties at the scenarios *)

Lemma depotShot_reachable : Index.Reachable depotShot.
Proof.
  unfold depotShot, depotPlay.
  do 2 apply Index.reach_step. exact depotReady_reachable.
Qed.

Lemma rowShot_reachable : Part0.Reachable rowShot.
Proof.
  unfold rowShot, rowPlay.
  do 2 apply Part0.reach_step. exact rowReady_reachable.
Qed.

Lemma blankRun_reachable : Index.Reachable blankRun.
Proof. unfold blankRun. apply index_run_reachable. constructor. Qed.

Lemma envDepot_fair : fairDraws envDepot.
Proof.
  intros n. unfold envDepot, depotDraws. cbn [random].
  do 11 (destruct n as [|n]; [lra|]). lra.
Qed.

Lemma env0_fair : fairDraws env0.
Proof. intros n. unfold env0. cbn [random]. lra. Qed.

Lemma pcmSample_decoded :
  int16Array (decode pcmSample) = Some [(-32768)%Z; 32767%Z]
  /\ decodeAudioData (decode pcmSample) 1
     = Some [channelData [(-32768)%Z; 32767%Z] 1 2 0].
Proof. split; reflexivity. Qed.

(** X1 at four bytes that hold the smallest and the largest sample. *)
Lemma decodeAudioData_samples_in_unit_range_witness :
  Forall (Forall (fun sample => -1 <= sample < 1))
    [channelData [(-32768)%Z; 32767%Z] 1 2 0].
Proof.
  apply (decodeAudioData_samples_in_unit_range pcmSample 1).
  exact (proj2 pcmSample_decoded).
Defined.

(** X2 at the same bytes, read as one channel. *)
Lemma decodeAudioData_deinterleaves_witness :
  List.length [channelData [(-32768)%Z; 32767%Z] 1 2 0] = 1%nat.
Proof.
  exact (proj1 (decodeAudioData_deinterleaves (decode pcmSample) 1
                  [(-32768)%Z; 32767%Z]
                  [channelData [(-32768)%Z; 32767%Z] 1 2 0]
                  (proj1 pcmSample_decoded) (proj2 pcmSample_decoded))).
Defined.

(** X4 after the first click of the depot scenario. *)
Lemma index_particles_bounded_witness :
  particlesWithin 100 (-0.02) (Index.particles depotShot).
Proof. apply index_particles_bounded. exact depotShot_reachable. Defined.

(** X5 after the first click of the barrel row scenario. *)
Lemma part0_particles_bounded_witness :
  particlesWithin 200 0 (Part0.particles rowShot).
Proof. apply part0_particles_bounded. exact rowShot_reachable. Defined.

(** X7 for a frame and a click after the start of the depot scenario. *)
Lemma index_roster_is_stable_witness :
  Forall2 laterRecord (Index.entities depotReady)
    (Index.entities
       (Index.run [Index.Frame envDepot; Index.Click envDepot] depotReady)).
Proof. apply index_roster_is_stable. reflexivity. Defined.

(** X8 for a frame and a click after the start of the barrel row scenario. *)
Lemma part0_roster_is_stable_witness :
  Forall2 laterRecord (Part0.entities rowReady)
    (Part0.entities
       (Part0.run [Part0.Frame env0; Part0.Click env0] rowReady)).
Proof. apply part0_roster_is_stable. reflexivity. Defined.

(** X9 for the start of the depot scenario and its first frame. *)
Lemma index_depth_stays_in_range_witness :
  Forall (fun e => depthInRange e
                   /\ forall env mouse,
                        0.6 <= snd (Index.renderProjection env mouse e) <= 1.5)
    (Index.entities
       (Index.run [ Index.Loaded envDepot (Parsed sabotage); Index.Commence;
                    Index.MouseMove 300 300; Index.Frame envDepot ]
          Index.initial)).
Proof.
  apply index_depth_stays_in_range.
  constructor; [exact envDepot_fair|].
  repeat (constructor; [exact I|]). constructor.
Defined.

(** X10 at the run of the mission without objectives. *)
Lemma index_render_throws_only_without_objectives_witness :
  exists m, Index.mission blankRun = Some m /\ objectives m = [].
Proof.
  apply index_render_throws_only_without_objectives.
  - exact blankRun_reachable.
  - exact (proj2 (proj2 (index_empty_mission_halts env0 env0 blank eq_refl))).
Defined.

(** X11 at the mission without objectives. *)
Lemma index_empty_mission_stops_first_frame_witness :
  Index.mission blankRun = Some blank
  /\ Index.gameState blankRun = playing
  /\ Index.halted blankRun = true
  /\ forall evs, Index.run evs blankRun = blankRun.
Proof.
  exact (index_empty_mission_stops_first_frame env0 env0 blank eq_refl).
Defined.

(** X13 at the start of the barrel row scenario. *)
Lemma part0_objective_always_defined_witness :
  exists o, Part0.currentObj rowReady = Some o.
Proof.
  apply part0_objective_always_defined.
  - exact rowReady_reachable.
  - reflexivity.
Defined.

(** X15 after the first click of the barrel row scenario. *)
Lemma part0_hud_shows_health_witness :
  Part0.healthUI rowShot = Part0.playerHealth rowShot.
Proof. apply part0_hud_shows_health. exact rowShot_reachable. Defined.

(** X16 at the first frame of the depot scenario. *)
Lemma index_sway_is_bounded_witness :
  Rabs (fst (Index.swayOffset depotPlay)) <= 26.4
  /\ Rabs (snd (Index.swayOffset depotPlay)) <= 23.6.
Proof.
  destruct depotReady_facts as (Hg & Hm & _ & Hh & _).
  destruct (index_sway_is_bounded envDepot depotReady depotReady_reachable
              envDepot_fair Hh Hg) as (Hx & Hy & _).
  - rewrite Hm. discriminate.
  - split; [exact Hx|exact Hy].
Defined.

(** X17 at the first frame of the barrel row scenario. *)
Lemma part0_sway_is_bounded_witness :
  Rabs (fst (Part0.swayOffset rowPlay)) <= 17.4
  /\ Rabs (snd (Part0.swayOffset rowPlay)) <= 14.6.
Proof.
  destruct rowReady_facts as (Hg & Hm & _).
  destruct (part0_sway_is_bounded env0 rowReady rowReady_reachable
              env0_fair Hg) as (Hx & Hy & _).
  - rewrite Hm. discriminate.
  - split; [exact Hx|exact Hy].
Defined.

(** X18 at a lost game: a frame and a click change nothing. *)
Lemma part0_finished_game_is_frozen_witness :
  exists v,
    Part0.run [Part0.Frame env0; Part0.Click env0] part0Over
    = Part0.set_mousePos v part0Over.
Proof.
  apply part0_finished_game_is_frozen.
  - reflexivity.
  - right. reflexivity.
Defined.

Lemma indexLone_facts :
  Index.gameState indexLone = playing
  /\ Index.mousePos indexLone = (300, 300)
  /\ Index.swayOffset indexLone = (0, 0)
  /\ Index.entities indexLone = [loneTarget].
Proof. splits; reflexivity. Qed.

Lemma part0Lone_facts :
  Part0.gameState part0Lone = playing
  /\ Part0.mousePos part0Lone = (600 / 2, 600 / 2)
  /\ Part0.swayOffset part0Lone = (0, 0)
  /\ Part0.entities part0Lone = [loneTarget].
Proof. splits; reflexivity. Qed.

Lemma indexLone_miss (e : Entity) :
  In e (Index.entities indexLone) -> Index.struck envDepot indexLone e = false.
Proof.
  destruct indexLone_facts as (_ & Hm & Hs & He).
  rewrite He. intros [<-|[]].
  unfold Index.struck. apply andb_false_iff. left.
  unfold Index.isHit, Index.shootProjection, Index.impact.
  rewrite Hm, Hs.
  cbn [fst snd ent_x ent_y ent_z loneTarget innerWidth innerHeight envDepot].
  cbv beta iota zeta. hit_false.
Qed.

Lemma part0Lone_miss (e : Entity) :
  In e (Part0.entities part0Lone) -> Part0.struck env0 part0Lone e = false.
Proof.
  destruct part0Lone_facts as (_ & Hm & Hs & He).
  rewrite He. intros [<-|[]].
  unfold Part0.struck. apply andb_false_iff. right.
  unfold Part0.isHit, Part0.shootProjection, Part0.impact.
  rewrite Hm, Hs.
  cbn [fst snd ent_x ent_y ent_z loneTarget innerWidth innerHeight env0].
  cbv beta iota zeta. hit_false.
Qed.

(** X19 at a click 500 to the left of the only target. *)
Lemma index_miss_only_ricochets_witness :
  Index.entities (Index.handleShoot envDepot indexLone)
  = Index.entities indexLone
  /\ Index.screenShake (Index.handleShoot envDepot indexLone) = 10.
Proof.
  destruct (index_miss_only_ricochets envDepot indexLone
              (proj1 indexLone_facts) indexLone_miss)
    as (H1 & _ & _ & _ & _ & _ & H7 & _).
  split; [exact H1|exact H7].
Defined.

(** X20 at a click 500 to the left of the only target. *)
Lemma part0_miss_only_ricochets_witness :
  Part0.entities (Part0.handleShoot env0 part0Lone)
  = Part0.entities part0Lone
  /\ Part0.screenShake (Part0.handleShoot env0 part0Lone) = 15.
Proof.
  destruct (part0_miss_only_ricochets env0 part0Lone
              (proj1 part0Lone_facts) part0Lone_miss)
    as (H1 & _ & _ & _ & _ & H6 & _).
  split; [exact H1|exact H6].
Defined.

(** X22 at the depot mission, with a first frame at the epoch. *)
Lemma index_first_frame_costs_health_witness :
  Index.playerHealth
    (Index.run [ Index.Loaded envDepot (Parsed sabotage); Index.Commence;
                 Index.Frame env0 ] Index.initial)
  = 90%Z.
Proof.
  refine (proj1 (index_first_frame_costs_health envDepot env0 sabotage _ _)).
  - discriminate.
  - unfold env0, epoch. cbn [now]. lia.
Defined.

(** X23 at a rejected request, with a first frame at the epoch. *)
Lemma part0_first_frame_costs_health_witness :
  Part0.playerHealth
    (Part0.run [ Part0.Loaded env0 Rejected; Part0.Commence;
                 Part0.Frame env0 ] (Part0.initial env0))
  = 90%Z.
Proof.
  refine (proj1 (part0_first_frame_costs_health env0 Rejected env0 _)).
  unfold env0, epoch. cbn [now]. lia.
Defined.

(** ** Health 0 without failure in index.tsx (C3) *)

Lemma index_success_absorbing (ev : Index.Event) (s : Index.State) :
  Index.gameState s = success -> Index.gameState (Index.step ev s) = success.
Proof.
  intros Hg. unfold Index.step. destruct (Index.halted s); [exact Hg|].
  destruct ev as [env reply| |x y|env|env|].
  - destruct (Index.isLoading s); [|exact Hg].
    destruct (index_generateMission_effect env reply s) as (_ & _ & G & _).
    now rewrite G.
  - rewrite Hg. exact Hg.
  - exact Hg.
  - rewrite (index_frame_idle env s) by (left; rewrite Hg; discriminate).
    exact Hg.
  - rewrite (index_handleShoot_idle env s) by (rewrite Hg; discriminate).
    exact Hg.
  - unfold Index.fireTimer. destruct (Index.timers s); exact Hg.
Qed.

Lemma index_success_forever (evs : list Index.Event) :
  forall s,
    Index.gameState s = success -> Index.gameState (Index.run evs s) = success.
Proof.
  induction evs as [|ev evs IH]; intros s Hg; [exact Hg|].
  cbn [Index.run fold_left]. apply IH. now apply index_success_absorbing.
Qed.

Lemma siege_step (n : nat) :
  siege (S n) = Index.step (Index.Frame (envSiege n)) (siege n).
Proof.
  unfold siege, Index.run.
  rewrite seq_S, map_app, fold_left_app. reflexivity.
Qed.

(** During the siege the guard fires in every frame; the static entities
    stay as spawned and the aim point settles 4 below the centre. *)
Lemma siege_inv (n : nat) :
  (n <= 10)%nat ->
  Index.gameState (siege n) = playing
  /\ Index.mission (siege n) = Some sabotage
  /\ Index.currentObjIndex (siege n) = 0%nat
  /\ Index.halted (siege n) = false
  /\ Index.mousePos (siege n) = (300, 300)
  /\ Index.playerHealth (siege n) = (100 - 10 * Z.of_nat n)%Z
  /\ (n <> 0%nat -> Index.swayOffset (siege n) = (0, 4))
  /\ exists hvt guard,
       Index.entities (siege n)
       = [ hvt;
           mkEntity "barrel-0" (1 / 2 * 600) (600 / 2 + 50) (600 + 0 * 400) 0
             Barrel "Explosive chemical drum" false static 0 1 false 0;
           mkEntity "barrel-1" (1 / 10 * 600) (600 / 2 + 50)
             (600 + 1 / 4 * 400) 0
             Barrel "Explosive chemical drum" false static 0 1 false 0;
           mkEntity "barrel-2" (3 / 10 * 600) (600 / 2 + 50)
             (600 + 1 / 2 * 400) 0
             Barrel "Explosive chemical drum" false static 0 1 false 0;
           mkEntity "barrel-3" (7 / 10 * 600) (600 / 2 + 50)
             (600 + 3 / 4 * 400) 0
             Barrel "Explosive chemical drum" false static 0 1 false 0;
           mkEntity "barrel-4" (9 / 10 * 600) (600 / 2 + 50)
             (600 + 1 / 2 * 400) 0
             Barrel "Explosive chemical drum" false static 0 1 false 0;
           guard;
           mkEntity "intel-1" (600 / 2 + 100) (600 / 2 + 20) 650 0 Intel
             "Encrypted data drive" false static 0 10 false 0 ]
       /\ ent_isHostile hvt = false
       /\ ent_isDead guard = false /\ ent_isHostile guard = true
       /\ (ent_lastFireTime guard <= epoch + 2001 * (Z.of_nat n - 1))%Z.
Proof.
  induction n as [|n IH]; intros Hn.
  - destruct depotReady_facts as (Hg & Hm & Hi & Hh & Hmouse & _ & _ & Hp & He).
    change (siege 0) with depotReady.
    splits; try assumption; try congruence.
    do 2 eexists. rewrite He.
    split; [reflexivity|]. split; [reflexivity|]. split; [reflexivity|].
    split; [reflexivity|]. cbn [ent_lastFireTime]. unfold epoch. lia.
  - destruct IH as (Hg & Hm & Hi & Hh & Hmouse & Hp & _
                    & hvt & guard & He & Hhv & Hgd & Hgh & Hgl); [lia|].
    assert (Hm' : Index.mission (siege n) <> None) by (rewrite Hm; discriminate).
    rewrite siege_step, (index_step_frame (envSiege n) (siege n) Hh).
    destruct (index_frame_effect (envSiege n) (siege n))
      as (F1 & F2 & _ & _ & F5 & F6 & _).
    destruct (index_frame_aim (envSiege n) (siege n) Hg Hm') as (A1 & A2 & _).
    pose proof (index_frame_health (envSiege n) (siege n) Hg Hm') as F4.
    pose proof (index_frame_entities (envSiege n) (siege n) Hg Hm') as F7.
    assert (Hc : isSome (Index.currentObj (siege n)) = true)
      by (unfold Index.currentObj; rewrite Hm, Hi; reflexivity).
    assert (Hfg : fires 2000 (envSiege n) guard = true).
    { unfold fires. rewrite Hgd, Hgh. cbn [negb andb now envSiege].
      apply Z.ltb_lt. lia. }
    assert (Hfh : fires 2000 (envSiege n) hvt = false)
      by (unfold fires; rewrite Hhv; now rewrite andb_false_r).
    rewrite He in F4, F7.
    cbn [filter] in F4. rewrite Hfh, Hfg in F4.
    unfold fires in F4.
    cbn [ent_isDead ent_isHostile negb andb List.length Nat.iter nat_rect]
      in F4.
    cbn [map] in F7.
    repeat match type of F7 with
           | context [fst (Index.updateEntity (envSiege n) ?e (siege n))] =>
               rewrite (index_updateEntity_inert (envSiege n) e (siege n))
                 in F7 by reflexivity
           end.
    destruct (index_updateEntity_living (envSiege n) guard (siege n) Hgd)
      as (Hgd' & (_ & _ & _ & Hgh' & _) & _ & _ & _ & _ & _ & Hgl').
    destruct (index_updateEntity_later (envSiege n) hvt (siege n))
      as ((_ & _ & _ & Hhv' & _) & _).
    cbv zeta in *.
    splits.
    + rewrite F5, Hg, Hc, Hp.
      replace (100 - 10 * Z.of_nat n <=? 0)%Z with false
        by (symmetry; apply Z.leb_gt; lia).
      reflexivity.
    + congruence.
    + congruence.
    + rewrite F6, Hh, Hg, Hm, Hc. reflexivity.
    + congruence.
    + rewrite F4, Hp. lia.
    + intros _. rewrite A1.
      rewrite (elapsed_same_ms (envSiege n) eq_refl).
      cbn [random envSiege].
      rewrite !Rmult_0_l, sin_0, cos_0.
      f_equal; lra.
    + do 2 eexists. split; [exact F7|].
      split; [congruence|]. split; [exact Hgd'|]. split; [congruence|].
      rewrite Hgl', Hfg. cbn [now envSiege]. lia.
Qed.

(** C3 (the code of [index.tsx] at the depot scenario).  [index.tsx]
    deducts the health in one frame and tests it in the next one.  After
    ten frames in which the guard fires, the health is 0 and the game is
    still being played; the player then destroys the barrel that completes
    the only objective: the game state becomes [success], and it is never
    [failure] afterwards, whatever happens. *)
Theorem index_health_zero_then_success :
  Index.Reachable (siege 10)
  /\ Index.playerHealth (siege 9) = 10%Z
  /\ Index.playerHealth (siege 10) = 0%Z
  /\ Index.gameState (siege 10) = playing
  /\ Index.gameState siegeShot = success
  /\ forall evs, Index.gameState (Index.run evs siegeShot) = success.
Proof.
  destruct (siege_inv 9 ltac:(lia)) as (_ & _ & _ & _ & _ & Hp9 & _).
  destruct (siege_inv 10 (le_n _))
    as (Hg & Hm & Hi & Hh & Hmouse & Hp & Hsway & hvt & guard & He & _).
  specialize (Hsway ltac:(discriminate)).
  assert (Hshot : Index.gameState siegeShot = success).
  { unfold siegeShot. rewrite (index_step_click envDepot (siege 10) Hh).
    destruct (index_handleShoot_progress envDepot (siege 10) Hg)
      as (_ & P2 & _).
    rewrite P2.
    assert (Hsat : existsb (Index.satisfyingHit envDepot (siege 10))
                     (Index.entities (siege 10)) = true).
    { apply existsb_exists.
      exists (mkEntity "barrel-0" (1 / 2 * 600) (600 / 2 + 50) (600 + 0 * 400)
                0 Barrel "Explosive chemical drum" false static 0 1 false 0).
      split; [rewrite He; right; left; reflexivity|].
      unfold Index.satisfyingHit, Index.currentObj, Index.struck.
      rewrite Hm, Hi.
      cbn [ent_isDead ent_type negb andb].
      replace (satisfies Barrel (nth_error (objectives sabotage) 0)) with true
        by reflexivity.
      rewrite !andb_true_r.
      unfold Index.isHit, Index.shootProjection, Index.impact.
      rewrite Hmouse, Hsway.
      cbn [fst snd ent_x ent_y ent_z innerWidth innerHeight envDepot].
      cbv beta iota zeta. hit_true. }
    rewrite Hsat. unfold Index.objectiveCount. rewrite Hm, Hi. reflexivity. }
  splits.
  - unfold siege. apply index_run_reachable. exact depotReady_reachable.
  - exact Hp9.
  - exact Hp.
  - exact Hg.
  - exact Hshot.
  - intros evs. now apply index_success_forever.
Qed.

(** ** Several satisfying strikes in one click (C4) *)










(** ** Pacing while the clock of the effect runs (part_000) *)

Lemma envAt_elapsed (k : nat) : elapsed (envAt k) = INR k / 100.
Proof.
  unfold elapsed, envAt. cbn [now startTime].
  replace (epoch + 10 * Z.of_nat k - epoch)%Z with (10 * Z.of_nat k)%Z by lia.
  rewrite mult_IZR, <- INR_IZR_INZ. lra.
Qed.

Lemma sin_half_step_pos : 0 < sin (1 / 200).
Proof.
  apply sin_gt_0; [lra|]. pose proof PI2_1. lra.
Qed.

Lemma cos_difference (u v : R) : cos (u - v) - cos (u + v) = 2 * sin u * sin v.
Proof. rewrite cos_minus, cos_plus. ring. Qed.

Lemma part0_entityAfter_snoc (envs : list Env) (env : Env) (ent : Entity) :
  part0_entityAfter (envs ++ [env]) ent
  = fst (Part0.updateEntity env (part0_entityAfter envs ent)
           (Part0.initial env)).
Proof. unfold part0_entityAfter. now rewrite fold_left_app. Qed.

(** The position of a pacing entity of [part_000] after [n] frames, 10 ms
    apart, of one effect: the steps are the terms of a telescoping sum. *)
Lemma part0_pacing_sum (ent : Entity) (n : nat) :
  ent_isDead ent = false -> ent_behavior ent = pacing ->
  let ent' := part0_entityAfter (map envAt (seq 0 n)) ent in
  ent_isDead ent' = false /\ ent_behavior ent' = pacing
  /\ ent_offset ent' = ent_offset ent /\ ent_speed ent' = ent_speed ent
  /\ 2 * sin (1 / 200) * (ent_x ent' - ent_x ent)
     = ent_speed ent
       * (cos (ent_offset ent - 1 / 200)
          - cos (ent_offset ent + INR n / 100 - 1 / 200)).
Proof.
  intros Hd Hb. cbv zeta. induction n as [|n IH].
  - cbn [seq map part0_entityAfter fold_left INR].
    splits; try reflexivity; try assumption.
    replace (ent_offset ent + 0 / 100 - 1 / 200) with (ent_offset ent - 1 / 200)
      by lra.
    ring.
  - destruct IH as (Hd' & Hb' & Ho' & Hs' & Hx').
    rewrite seq_S, map_app. cbn [map plus].
    rewrite part0_entityAfter_snoc.
    set (e := part0_entityAfter (map envAt (seq 0 n)) ent) in *.
    destruct (part0_updateEntity_living (envAt n) e (Part0.initial (envAt n)) Hd')
      as (Hd2 & (_ & _ & Hb2 & _) & Hs2 & Ho2 & _).
    pose proof (part0_pacing_step (envAt n) e (Part0.initial (envAt n)) Hd' Hb')
      as Hx2.
    cbv zeta in *.
    splits; try congruence.
    rewrite Hx2, envAt_elapsed, Ho', Hs', S_INR.
    pose proof (cos_difference (INR n / 100 + ent_offset ent) (1 / 200)) as Hc.
    replace (INR n / 100 + ent_offset ent - 1 / 200)
      with (ent_offset ent + INR n / 100 - 1 / 200) in Hc by lra.
    replace (INR n / 100 + ent_offset ent + 1 / 200)
      with (ent_offset ent + (INR n + 1) / 100 - 1 / 200) in Hc by lra.
    nra.
Qed.

(** X25. part_000: while the clock of the effect runs, with frames 10 ms
    apart, a living pacing entity stays within a fixed band around the
    position it started from: its distance from it never exceeds
    [|speed| / sin (1/200)], however many frames are rendered. *)
Theorem part0_pacing_stays_in_band :
  forall ent n,
    ent_isDead ent = false -> ent_behavior ent = pacing ->
    Rabs (ent_x (part0_entityAfter (map envAt (seq 0 n)) ent) - ent_x ent)
    <= Rabs (ent_speed ent) / sin (1 / 200).
Proof.
  intros ent n Hd Hb.
  destruct (part0_pacing_sum ent n Hd Hb) as (_ & _ & _ & _ & Hx).
  pose proof sin_half_step_pos as Hs.
  set (d := ent_x (part0_entityAfter (map envAt (seq 0 n)) ent) - ent_x ent)
    in *.
  set (c1 := cos (ent_offset ent - 1 / 200)) in *.
  set (c2 := cos (ent_offset ent + INR n / 100 - 1 / 200)) in *.
  assert (Hc : Rabs (c1 - c2) <= 2).
  { pose proof (COS_bound (ent_offset ent - 1 / 200)).
    pose proof (COS_bound (ent_offset ent + INR n / 100 - 1 / 200)).
    apply Rabs_le. unfold c1, c2. lra. }
  assert (Hd2 : d = ent_speed ent * (c1 - c2) / (2 * sin (1 / 200)))
    by (field_simplify_eq; [lra|lra]).
  rewrite Hd2. unfold Rdiv at 1. rewrite Rabs_mult, Rabs_mult.
  rewrite (Rabs_right (/ (2 * sin (1 / 200))))
    by (apply Rle_ge; left; apply Rinv_0_lt_compat; lra).
  apply Rmult_le_reg_r with (2 * sin (1 / 200)); [lra|].
  field_simplify; [|lra|lra].
  pose proof (Rabs_pos (ent_speed ent)). nra.
Qed.

(** X25 at the primary target of [part_000] after 100 frames. *)
Lemma part0_pacing_stays_in_band_witness :
  Rabs (ent_x (part0_entityAfter (map envAt (seq 0 100)) loneTarget)
        - ent_x loneTarget)
  <= Rabs (ent_speed loneTarget) / sin (1 / 200).
Proof. apply part0_pacing_stays_in_band; reflexivity. Defined.
